(** * DeltaShell: tokenizer, redirect resolver, dispatcher, history

    A shallow embedding of the command pipeline of DeltaShell
    ([parser.py], [commands/base.py], [commands/external_cmd.py],
    [components/history.py], [components/dir_utility.py], [shell.py]).

    Representation of Python values.
    - A [str] is a [string]: the list of its characters.  Every character
      the interpreter itself inspects (blank, quotes, backslash, the
      operator characters, the command names) is ASCII; a character beyond
      U+007F is carried as the bytes of its UTF-8 encoding, none of which
      collides with an inspected character.  [Py.isspace], [Py.lower] and
      [Py.int] treat those bytes as ordinary characters.
    - A two-element result list [[status, text]] is a [Result].
    - An exception leaving a function is the [Raise] outcome. *)

From Stdlib Require Import ZArith Lia Bool Ascii String List.
From Stdlib Require Import DecimalString.
From stdpp Require Import gmap strings list.
Import ListNotations.

Local Open Scope string_scope.
Local Open Scope list_scope.

(** ** Python built-ins on [str] *)

Module Py.

Definition ascii_in (lo hi : nat) (c : ascii) : bool :=
  (lo <=? nat_of_ascii c)%nat && (nat_of_ascii c <=? hi)%nat.

(** [str.isspace] on one character: TAB LF VT FF CR, FS GS RS US, SPACE. *)
Definition isspace (c : ascii) : bool :=
  ascii_in 9 13 c || ascii_in 28 31 c || ascii_in 32 32 c.

(** [str.lower] on one character. *)
Definition lower_char (c : ascii) : ascii :=
  if ascii_in 65 90 c then ascii_of_nat (nat_of_ascii c + 32) else c.

Fixpoint lower (s : string) : string :=
  match s with
  | EmptyString => EmptyString
  | String c s' => String (lower_char c) (lower s')
  end.

(** [str.lstrip()], [str.rstrip()], [str.strip()] with no argument. *)
Fixpoint lstrip (s : string) : string :=
  match s with
  | EmptyString => EmptyString
  | String c s' => if isspace c then lstrip s' else s
  end.

Fixpoint rstrip (s : string) : string :=
  match s with
  | EmptyString => EmptyString
  | String c s' =>
      match rstrip s' with
      | EmptyString => if isspace c then EmptyString else String c EmptyString
      | r => String c r
      end
  end.

Definition strip (s : string) : string := rstrip (lstrip s).

(** [sep.join(parts)]. *)
Fixpoint join (sep : string) (parts : list string) : string :=
  match parts with
  | [] => EmptyString
  | [p] => p
  | p :: rest => p +:+ sep +:+ join sep rest
  end.

(** [s.startswith(p)]. *)
Fixpoint startswith (p s : string) : bool :=
  match p, s with
  | EmptyString, _ => true
  | String a p', String b s' => Ascii.eqb a b && startswith p' s'
  | String _ _, EmptyString => false
  end.

Definition nl : string := String "010" EmptyString.

(** [s.endswith(p)]. *)
Fixpoint endswith (p s : string) : bool :=
  String.eqb p s ||
  match s with
  | EmptyString => false
  | String _ s' => endswith p s'
  end.

(** [s[n:]] for [0 <= n]. *)
Fixpoint drop (n : nat) (s : string) : string :=
  match n, s with
  | O, _ => s
  | S n', String _ s' => drop n' s'
  | S _, EmptyString => EmptyString
  end.

(** [l[-1]] of a non-empty list. *)
Fixpoint last_item {A} (l : list A) : option A :=
  match l with
  | [] => None
  | [x] => Some x
  | _ :: l' => last_item l'
  end.

(** [x in collection] for a collection of strings. *)
Definition elem (x : string) (xs : list string) : bool :=
  existsb (String.eqb x) xs.

(** [str(n)] for an [int]. *)
Definition str_of_Z (z : Z) : string := NilZero.string_of_int (Z.to_int z).

(** [l[start:]] for a list and any [int] start: a negative start counts
    from the end, and both ends are clamped. *)
Definition slice_from {A} (start : Z) (l : list A) : list A :=
  let len := Z.of_nat (List.length l) in
  let s := if (start <? 0)%Z then Z.max 0 (start + len) else Z.min start len in
  skipn (Z.to_nat s) l.

Definition digit (c : ascii) : option Z :=
  if ascii_in 48 57 c then Some (Z.of_nat (nat_of_ascii c - 48)) else None.

(** [digits acc after_digit s]: [after_digit] tells whether the previous
    character was a digit (an underscore is legal only there, and never
    last). *)
Fixpoint digits (acc : Z) (after_digit : bool) (s : string) : option Z :=
  match s with
  | EmptyString => if after_digit then Some acc else None
  | String c s' =>
      match digit c with
      | Some d => digits (10 * acc + d) true s'
      | None =>
          if Ascii.eqb c "_" && after_digit
          then match s' with
               | EmptyString => None
               | String c' _ =>
                   match digit c' with
                   | Some _ => digits acc false s'
                   | None => None
                   end
               end
          else None
      end
  end.

(** [int(s)] on a [str]: optional surrounding whitespace, an optional
    sign, then decimal digits in which single underscores may separate
    digits.  [None] stands for [ValueError]. *)
Definition int (s : string) : option Z :=
  match strip s with
  | String "-" s' => option_map Z.opp (digits 0 false s')
  | String "+" s' => digits 0 false s'
  | s' => digits 0 false s'
  end.

End Py.

(** ** Results *)

Inductive Result : Type :=
| Success (payload : string)
| Error (message : string).

(** ** parser.py *)

Module ShellParser.

Definition REDIRECT_OPERATORS : list string :=
  [">>"; ">&"; "<&"; "<>"; "<<"; ">>>"; "<"; ">"; "2>"].

(** The local variables of [tokenize]. *)
Record State : Type := mkState {
  tokens : list string;
  current_token : string;
  in_single_quote : bool;
  in_double_quote : bool;
  escape_next : bool;
  i : nat
}.

Definition init : State := mkState [] "" false false false 0.

(** [if current_token: tokens.append(current_token)]. *)
Definition flush (toks : list string) (cur : string) : list string :=
  match cur with
  | EmptyString => toks
  | _ => toks ++ [cur]
  end.

Definition char_str (c : ascii) : string := String c EmptyString.

(** One iteration of the [while] loop.  [None] is the [IndexError] of
    [command_line[i]]. *)
Definition step (command_line : string) (st : State) : option State :=
  let '(mkState toks cur sq dq esc i) := st in
  match String.get i command_line with
  | None => None
  | Some char =>
      if esc then
        Some (mkState toks (cur +:+ char_str char) sq dq false (i + 1))
      else if Ascii.eqb char "\" then
        Some (mkState toks cur sq dq true (i + 1))
      else
        let two_char_op := substring i 2 command_line in
        if negb (sq || dq) && (i + 1 <? String.length command_line)%nat
           && Py.elem two_char_op REDIRECT_OPERATORS then
          Some (mkState (flush toks cur ++ [two_char_op]) "" sq dq esc (i + 2))
        else if negb (sq || dq) && Py.elem (char_str char) REDIRECT_OPERATORS then
          Some (mkState (flush toks cur ++ [char_str char]) "" sq dq esc (i + 1))
        else if Ascii.eqb char "'" && negb dq then
          Some (mkState toks cur (negb sq) dq esc (i + 1))
        else if Ascii.eqb char "034" && negb sq then
          Some (mkState toks cur sq (negb dq) esc (i + 1))
        else if Ascii.eqb char " " && negb (sq || dq) then
          Some (mkState (flush toks cur) "" sq dq esc (i + 1))
        else
          Some (mkState toks (cur +:+ char_str char) sq dq esc (i + 1))
  end.

(** [while i < len(command_line)], with a bound on the iterations;
    [None] also when the bound is used up. *)
Fixpoint loop (fuel : nat) (command_line : string) (st : State) : option State :=
  if (i st <? String.length command_line)%nat then
    match fuel with
    | O => None
    | S fuel' =>
        match step command_line st with
        | None => None
        | Some st' => loop fuel' command_line st'
        end
    end
  else Some st.

Definition tokenize (command_line : string) : option (list string) :=
  match loop (String.length command_line) command_line init with
  | None => None
  | Some st => Some (flush (tokens st) (current_token st))
  end.

(** The same scan written over the part of the line not yet read. *)
Fixpoint scan (toks : list string) (cur : string) (sq dq esc : bool)
         (rest : string) : list string :=
  match rest with
  | EmptyString => flush toks cur
  | String char rest' =>
      if esc then scan toks (cur +:+ char_str char) sq dq false rest'
      else if Ascii.eqb char "\" then scan toks cur sq dq true rest'
      else
        let plain :=
          if negb (sq || dq) && Py.elem (char_str char) REDIRECT_OPERATORS then
            scan (flush toks cur ++ [char_str char]) "" sq dq esc rest'
          else if Ascii.eqb char "'" && negb dq then
            scan toks cur (negb sq) dq esc rest'
          else if Ascii.eqb char "034" && negb sq then
            scan toks cur sq (negb dq) esc rest'
          else if Ascii.eqb char " " && negb (sq || dq) then
            scan (flush toks cur) "" sq dq esc rest'
          else
            scan toks (cur +:+ char_str char) sq dq esc rest'
        in
        match rest' with
        | String char2 rest'' =>
            let two_char_op := String char (String char2 EmptyString) in
            if negb (sq || dq) && Py.elem two_char_op REDIRECT_OPERATORS then
              scan (flush toks cur ++ [two_char_op]) "" sq dq esc rest''
            else plain
        | EmptyString => plain
        end
  end.

(** The cases of one iteration that read a single character [char]
    with [rest] after it, outside an escape. *)
Definition one_char (toks : list string) (cur : string) (sq dq : bool)
           (char : ascii) (rest : string) : list string :=
  if negb (sq || dq) && Py.elem (char_str char) REDIRECT_OPERATORS then
    scan (flush toks cur ++ [char_str char]) "" sq dq false rest
  else if Ascii.eqb char "'" && negb dq then
    scan toks cur (negb sq) dq false rest
  else if Ascii.eqb char "034" && negb sq then
    scan toks cur sq (negb dq) false rest
  else if Ascii.eqb char " " && negb (sq || dq) then
    scan (flush toks cur) "" sq dq false rest
  else
    scan toks (cur +:+ char_str char) sq dq false rest.

End ShellParser.

(** ** components/history.py *)

Module CommandHistory.

Record t : Type := mk {
  max_entries : Z;
  _entries : list string
}.

(** [CommandHistory(max_entries)]; the default is 1000. *)
Definition new (max_entries : Z) : t := mk max_entries [].
Definition default_max_entries : Z := 1000.

Definition add (self : t) (command : string) : t :=
  let command := Py.strip command in
  match command with
  | EmptyString => self
  | _ =>
      let duplicate :=
        match Py.last_item (_entries self) with
        | Some e => String.eqb e command
        | None => false
        end in
      if duplicate then self
      else
        let entries := _entries self ++ [command] in
        if (max_entries self <? Z.of_nat (List.length entries))%Z
        then mk (max_entries self) (Py.slice_from (- max_entries self) entries)
        else mk (max_entries self) entries
  end.

(** [enumerate(entries, start=start_index)] rendered line by line. *)
Fixpoint lines (idx : Z) (entries : list string) : list string :=
  match entries with
  | [] => []
  | cmd :: rest => (Py.str_of_Z idx +:+ ". " +:+ cmd) :: lines (idx + 1) rest
  end.

Definition format (self : t) (limit : option Z) : string :=
  match _entries self with
  | [] => "History is empty"
  | _ =>
      let entries :=
        match limit with
        | None => _entries self
        | Some limit => Py.slice_from (- limit) (_entries self)
        end in
      let start_index :=
        (Z.of_nat (List.length (_entries self))
         - Z.of_nat (List.length entries) + 1)%Z in
      Py.join Py.nl (lines start_index entries)
  end.

End CommandHistory.

(** ** The world outside the interpreter *)

(** One call of [subprocess.run]. *)
Record Spawn : Type := mkSpawn {
  argv : list string;
  cwd : string;
  capture_output : bool;
  timeout : option Z
}.

(** How a call of [subprocess.run] ends. *)
Inductive RunOutcome : Type :=
| Completed (returncode : Z) (stdout stderr : string)
| TimeoutExpired (str_e : string)
| Interrupted
| Failed (str_e : string).

(** The state of a [DirectoryUtility] object. *)
Record DirectoryUtility : Type := mkDU { current_directory : string }.

(** What the interpreter can change: the files (path to contents), the
    [DirectoryUtility] object handed to [execute] (if any), the calls of
    [subprocess.run] so far and the number of terminal clears. *)
Record World : Type := mkWorld {
  files : gmap string string;
  dir_utility : option DirectoryUtility;
  spawned : list Spawn;
  clears : nat
}.

(** The world after a write of [text] as the whole contents of [path]. *)
Definition set_file (path text : string) (w : World) : World :=
  mkWorld (<[path := text]> (files w)) (dir_utility w) (spawned w) (clears w).

(** The world after a call of [subprocess.run]. *)
Definition record_spawn (sp : Spawn) (w : World) : World :=
  mkWorld (files w) (dir_utility w) (spawned w ++ [sp]) (clears w).

(** The exceptions followed through the interpreter: the [IndexError] of
    a lookup of its own code, and the [KeyboardInterrupt] of a user
    interrupt during [subprocess.run].  An exception raised inside a
    collaborator of [Env] (the [OSError] of [os.get_terminal_size] in the
    help renderers, a fault of [write] that is no [IOError]) is not
    represented: the collaborators are taken on the calls where they
    return. *)
Inductive Exn : Type := IndexError | KeyboardInterrupt.

Inductive Outcome (A : Type) : Type :=
| Ret (a : A)
| Raise (e : Exn).
Arguments Ret {A} a.
Arguments Raise {A} e.

(** Computations over the world that return or raise. *)
Definition M (A : Type) : Type := World -> Outcome A * World.

Definition ret {A} (a : A) : M A := fun w => (Ret a, w).
Definition raise {A} (e : Exn) : M A := fun w => (Raise e, w).
Definition bind {A B} (m : M A) (k : A -> M B) : M B :=
  fun w => match m w with
           | (Ret a, w') => k a w'
           | (Raise e, w') => (Raise e, w')
           end.
Notation "'let*' x := m 'in' k" := (bind m (fun x => k))
  (at level 10, x name, m at level 100, k at level 200).

(** The sixteen entries of [_command_map] name fifteen handlers. *)
Inductive Handler : Type :=
| ls_cmd | cd_cmd | pwd_cmd | mkdir_cmd | rmdir_cmd
| catCommand | touchCommand | rmCommand | cpCommand | mvCommand
| grepCommand | findCommand | headCommand | tailCommand | wcCommand.

(** The collaborators [execute] calls and whose bodies play no part here:
    [os.path.abspath], [shutil.which], [subprocess.run], the handlers of
    [_command_map], the help renderers, and whether [open] or [write] on a
    path fails with an [IOError] (its text). *)
Record Env : Type := mkEnv {
  abspath : string -> string;
  which : string -> World -> option string;
  subprocess_run : Spawn -> World -> RunOutcome * World;
  handle : Handler -> list string -> World -> Result * World;
  getCommandHelp : string -> World -> string * World;
  formatHelpTable : World -> string * World;
  io_error : string -> World -> option string
}.

(** ** components/dir_utility.py *)

Definition isabs (path : string) : bool := Py.startswith "/" path.

(** [os.path.join(a, b)] on POSIX. *)
Definition path_join (a b : string) : string :=
  if isabs b then b
  else match a with
       | EmptyString => b
       | _ => if Py.endswith "/" a then a +:+ b else a +:+ "/" +:+ b
       end.

Definition _resolve_path (E : Env) (self : DirectoryUtility) (path : string) : string :=
  match path with
  | EmptyString => current_directory self
  | _ =>
      if isabs path then abspath E path
      else abspath E (path_join (current_directory self) path)
  end.

(** ** commands/external_cmd.py *)

Definition interactiveCommands : list string :=
  [ "nano"; "vim"; "vi"; "emacs"; "gedit"; "kate"; "code";
    "htop"; "top"; "less"; "more"; "man"; "watch"; "btop";
    "ssh"; "telnet"; "ftp"; "sftp";
    "screen"; "tmux";
    "ranger"; "mc"; "ncdu"; "nnn";
    "dialog"; "whiptail"; "fzf";
    "gdb"; "python"; "python3"; "ipython"; "node"; "nodejs";
    "mysql"; "psql"; "sqlite3"; "mongo";
    "irb"; "pry";
    "ping"; "tail"; "journalctl"; "dmesg"; "tcpdump";
    "bash"; "zsh" ].

Definition isInteractiveCommand (command : string) : bool :=
  Py.elem (Py.lower command) interactiveCommands.

Definition streamingCommands : list string :=
  [ "ping"; "tail"; "watch"; "journalctl"; "dmesg"; "tcpdump" ].

Definition isStreamingCommand (command : string) (args : list string) : bool :=
  if Py.elem (Py.lower command) streamingCommands then true
  else if String.eqb (Py.lower command) "tail" && Py.elem "-f" args then true
  else if String.eqb (Py.lower command) "journalctl" && Py.elem "-f" args then true
  else false.

Definition builtinCommands : list string :=
  [ "ls"; "dir"; "cd"; "pwd"; "mkdir"; "rmdir";
    "cat"; "touch"; "rm"; "cp"; "mv";
    "grep"; "find"; "head"; "tail"; "wc";
    "clear"; "cls"; "echo"; "help"; "history"; "exit_de" ].

Definition isBuiltinCommand (command : string) : bool :=
  Py.elem (Py.lower command) builtinCommands.

(** [subprocess.run], recorded in the world. *)
Definition run (E : Env) (sp : Spawn) : World -> RunOutcome * World :=
  fun w =>
    let '(o, w') := subprocess_run E sp w in (o, record_spawn sp w').

Definition needsDirectTerminal (command : string) (args : list string) : bool :=
  isInteractiveCommand command || isStreamingCommand command args.

Definition executeExternalCommand (E : Env)
    (command : string) (args : list string) (current_directory : string)
  : M Result :=
  fun w =>
    match which E command w with
    | None =>
        (Ret (Error ("Команда '" +:+ command +:+ "' не найдена в системном PATH")), w)
    | Some _ =>
        if needsDirectTerminal command args then
          let '(o, w') := run E (mkSpawn (command :: args) current_directory false None) w in
          match o with
          | Completed returncode _ _ =>
              if (returncode =? 0)%Z then (Ret (Success ""), w')
              else (Ret (Error ("Команда завершилась ошибкой: "
                                +:+ Py.str_of_Z returncode)), w')
          | Interrupted =>
              (Ret (Error "Пользователь прервал выполнение комнды или программы"), w')
          | TimeoutExpired e | Failed e =>
              (Ret (Error ("Непредвиденная ошибка при выполнении: " +:+ e)), w')
          end
        else
          let '(o, w') := run E (mkSpawn (command :: args) current_directory true (Some 30%Z)) w in
          match o with
          | Completed returncode stdout stderr =>
              let output := match stderr with
                            | EmptyString => stdout
                            | _ => stdout +:+ stderr
                            end in
              if negb (returncode =? 0)%Z then
                (Ret (Error ("Команда завершилась с ошибкой:"
                             +:+ Py.str_of_Z returncode +:+ Py.nl +:+ output)), w')
              else
                (Ret (Success (match output with
                               | EmptyString => ""
                               | _ => Py.strip output
                               end)), w')
          | TimeoutExpired _ =>
              (Ret (Error ("Команда '" +:+ command
                           +:+ "' превысила лимит времени  выполнении в 30 секунд")), w')
          | Failed e => (Ret (Error ("Ошибка выполнения: " +:+ e)), w')
          | Interrupted => (Raise KeyboardInterrupt, w')
          end
    end.

(** ** commands/base.py *)

Module Command_Base.

Definition REDIRECT_OPERATORS : list string := [">"; ">>"; "<"; "2>"; "&>"].

Definition _command_map (command : string) : option Handler :=
  if String.eqb command "ls" then Some ls_cmd
  else if String.eqb command "dir" then Some ls_cmd
  else if String.eqb command "cd" then Some cd_cmd
  else if String.eqb command "pwd" then Some pwd_cmd
  else if String.eqb command "mkdir" then Some mkdir_cmd
  else if String.eqb command "rmdir" then Some rmdir_cmd
  else if String.eqb command "cat" then Some catCommand
  else if String.eqb command "touch" then Some touchCommand
  else if String.eqb command "rm" then Some rmCommand
  else if String.eqb command "cp" then Some cpCommand
  else if String.eqb command "mv" then Some mvCommand
  else if String.eqb command "grep" then Some grepCommand
  else if String.eqb command "find" then Some findCommand
  else if String.eqb command "head" then Some headCommand
  else if String.eqb command "tail" then Some tailCommand
  else if String.eqb command "wc" then Some wcCommand
  else None.

Definition _clear_aliases : list string := ["clear"; "cls"].

(** The tuple [_parse_redirects] returns.  A failure is the same tuple
    with the list [["error", message]] in the place of the args. *)
Definition Parsed : Type :=
  (list string * option string * option string * bool)%type.

Definition failure (message : string) : Parsed :=
  (["error"; message], None, None, false).

(** The [while] loop of [_parse_redirects] over the tokens from index
    [i] on, with the current [args], [output_file] and [append_mode]
    ([input_file] is never assigned). *)
Fixpoint parse_loop (args : list string) (output_file : option string)
         (append_mode : bool) (tokens : list string) : Parsed :=
  match tokens with
  | [] => (args, output_file, None, append_mode)
  | token :: rest =>
      if Py.elem token REDIRECT_OPERATORS then
        if String.eqb token ">" then
          match rest with
          | next :: rest' => parse_loop args (Some next) false rest'
          | [] => failure ("Оператор '" +:+ token +:+ "' требует имя файла")
          end
        else if String.eqb token ">>" then
          match rest with
          | next :: rest' => parse_loop args (Some next) true rest'
          | [] => failure ("Оператор '" +:+ token +:+ "' требует имя файла")
          end
        else if String.eqb token "<" then
          failure ("Перенаправление ввода '" +:+ token +:+ "' пока не реализовано")
        else if String.eqb token "2>" then
          failure ("Перенаправление stderr '" +:+ token +:+ "' пока не реализовано")
        else if String.eqb token "&>" then
          failure ("Перенаправление stdout и stderr '" +:+ token
                   +:+ "' пока не реализовано")
        else
          failure ("Неизвестный оператор перенаправления '" +:+ token +:+ "'")
      else parse_loop (args ++ [token]) output_file append_mode rest
  end.

Definition _parse_redirects (tokens : list string) : Parsed :=
  parse_loop [] None false tokens.

(** What the dispatch chain of [execute] hands on: a [return] out of
    [execute], or the [result] the redirection block then sees. *)
Inductive Dispatched : Type :=
| Return (r : Result)
| Result_ (result : Result).

Definition clear_cmd : M unit :=
  fun w => (Ret tt, mkWorld (files w) (dir_utility w) (spawned w) (S (clears w))).

Definition lift {A} (f : World -> A * World) : M A :=
  fun w => let '(a, w') := f w in (Ret a, w').

Definition dispatch (E : Env) (command : string) (args : list string)
    (history : option CommandHistory.t) (current_directory : string)
  : M Dispatched :=
  match _command_map command with
  | Some handler =>
      let* result := lift (handle E handler args) in ret (Result_ result)
  | None =>
      if String.eqb command "history" then
        match history with
        | None => ret (Return (Error "История недоступна"))
        | Some history =>
            match args with
            | [] => ret (Result_ (Success (CommandHistory.format history None)))
            | a :: _ =>
                match Py.int a with
                | None => ret (Return (Error "Лимит истории должен быть числом"))
                | Some n =>
                    ret (Result_ (Success
                           (CommandHistory.format history (Some (Z.max 1 n)))))
                end
            end
        end
      else if Py.elem command _clear_aliases then
        let* u := clear_cmd in ret (Result_ (Success "Shell очищен"))
      else if String.eqb command "echo" then
        ret (Result_ (Success (Py.join " " args)))
      else if String.eqb command "help" then
        match args with
        | cmdName :: _ =>
            let cmdName := if Py.startswith "--" cmdName
                           then Py.drop 2 cmdName else cmdName in
            let* text := lift (getCommandHelp E cmdName) in ret (Result_ (Success text))
        | [] =>
            let* text := lift (formatHelpTable E) in ret (Result_ (Success text))
        end
      else if negb (isBuiltinCommand command) then
        let* result := executeExternalCommand E command args current_directory in
        ret (Result_ result)
      else
        ret (Result_ (Error ("Команда '" +:+ command
          +:+ "' не найдена. Введите 'help' для получения доступных команд.")))
  end.

(** [open(path, mode)], [f.write(text)] and the close of the [with]
    block: mode [w] replaces the contents, mode [a] adds to them, and a
    missing file is created.  [inl e] is the [IOError] with text [e] of
    an [open] that fails, before the file is touched; a [write] that
    fails after [open] has emptied the file is not represented. *)
Definition write_file (E : Env) (path : string) (append_mode : bool)
    (text : string) (w : World) : (string + unit) * World :=
  match io_error E path w with
  | Some e => (inl e, w)
  | None =>
      let old := if append_mode then default "" (files w !! path) else "" in
      (inr tt, set_file path (old +:+ text) w)
  end.

Definition redirect (E : Env) (command output_file : string)
    (append_mode : bool) (result : Result) : M Result :=
  fun w =>
    let resolved_output_path :=
      match dir_utility w with
      | Some du => _resolve_path E du output_file
      | None => output_file
      end in
    let text := match result with Success t | Error t => t end in
    match write_file E resolved_output_path append_mode text w with
    | (inl e, w') =>
        (Ret (Error ("Ошибка при записи в файл " +:+ output_file +:+ ": " +:+ e)), w')
    | (inr _, w') =>
        match result with
        | Success _ =>
            (Ret (Success ("Вывод команды '" +:+ command +:+ "' перенаправлен в "
                           +:+ resolved_output_path)), w')
        | Error _ =>
            (Ret (Error ("Ошибка команды '" +:+ command +:+ "', подробности в "
                         +:+ resolved_output_path)), w')
        end
    end.

(** [execute(tokens, dir_utility, history, current_directory)]; the
    [dir_utility] object is the one of the world.  [tokens] is [[]] for
    both [None] and the empty list. *)
Definition execute (E : Env) (tokens : list string)
    (history : option CommandHistory.t) (current_directory : string)
  : M Result :=
  match tokens with
  | [] => ret (Error "Команда не указана")
  | _ =>
      let '(args_before_redirect, output_file, input_file, append_mode) :=
        _parse_redirects tokens in
      match args_before_redirect, output_file with
      | [], None =>
          (* [args_before_redirect[0]] on a list of length 0 *)
          raise IndexError
      | [], Some _ => ret (Error "Команда не указана до перенаправления")
      | command :: args, _ =>
          let command := Py.lower command in
          let* d := dispatch E command args history current_directory in
          match d with
          | Return r => ret r
          | Result_ result =>
              match output_file with
              | Some (String c f) =>
                  redirect E command (String c f) append_mode result
              | _ => ret result
              end
          end
      end
  end.

End Command_Base.

(** ** shell.py: one turn of the loop of [Main.run] *)

Inductive Turn : Type :=
| Exit                       (* [exit_de], or Ctrl+C: the loop ends *)
| Skip                       (* a blank line *)
| Shown (result : Result)    (* [ConsoleOutput.output(result[0], result[1])] *)
| Crashed.                   (* an exception printed by the catch-all *)

Definition turn (E : Env) (input_cmd : string) (history : CommandHistory.t)
    (w : World) : Turn * CommandHistory.t * World :=
  let current_directory :=
    match dir_utility w with
    | Some du => current_directory du
    | None => ""
    end in
  let history :=
    match Py.strip input_cmd with
    | EmptyString => history
    | _ => CommandHistory.add history input_cmd
    end in
  if String.eqb (Py.lower input_cmd) "exit_de" then (Exit, history, w)
  else
    match Py.strip input_cmd with
    | EmptyString => (Skip, history, w)
    | _ =>
        match ShellParser.tokenize input_cmd with
        | None => (Crashed, history, w)
        | Some tokens =>
            match Command_Base.execute E tokens (Some history) current_directory w with
            | (Ret result, w') => (Shown result, history, w')
            | (Raise IndexError, w') => (Crashed, history, w')
            | (Raise KeyboardInterrupt, w') => (Exit, history, w')
            end
        end
    end.

(** ** Vocabulary of the statements *)

(** Every character of [s] satisfies [p]. *)
Fixpoint all_chars (p : ascii -> bool) (s : string) : bool :=
  match s with
  | EmptyString => true
  | String c s' => p c && all_chars p s'
  end.

(** The two quote characters, as one-character strings. *)
Definition dquote : string := String "034" EmptyString.
Definition squote : string := String "'" EmptyString.
Definition tab : string := String "009" EmptyString.

(** A character that neither closes a quote opened by [q] nor escapes. *)
Definition inside (q : ascii) (c : ascii) : bool :=
  negb (Ascii.eqb c q) && negb (Ascii.eqb c "\").

(** No two neighbours of the list are equal. *)
Fixpoint no_repeat (l : list string) : bool :=
  match l with
  | a :: (b :: _) as rest => negb (String.eqb a b) && no_repeat rest
  | _ => true
  end.

(** An entry as [add] stores it: not empty, and with nothing to strip. *)
Definition stored (e : string) : Prop := e <> EmptyString /\ Py.strip e = e.

Definition history_ok (h : CommandHistory.t) : Prop :=
  Forall stored (CommandHistory._entries h) /\
  no_repeat (CommandHistory._entries h) = true /\
  (Z.of_nat (List.length (CommandHistory._entries h))
   <= CommandHistory.max_entries h)%Z.

(** The history after [history.add(c)] for each [c] of [cmds], in order. *)
Definition add_all (h : CommandHistory.t) (cmds : list string) : CommandHistory.t :=
  fold_left CommandHistory.add cmds h.

(** A token sequence the resolver reads to its end: words that are not
    resolver operators, and output operators each with its filename. *)
Inductive Item : Type :=
| Word (w : string)
| Out (append : bool) (filename : string).

Definition item_tokens (it : Item) : list string :=
  match it with
  | Word w => [w]
  | Out false f => [">"; f]
  | Out true f => [">>"; f]
  end.

Definition line_tokens (items : list Item) : list string :=
  flat_map item_tokens items.

Definition words (items : list Item) : list string :=
  flat_map (fun it => match it with Word w => [w] | Out _ _ => [] end) items.

Definition is_word (it : Item) : bool :=
  match it with
  | Word w => negb (Py.elem w Command_Base.REDIRECT_OPERATORS)
  | Out _ _ => true
  end.

(** The target and the append flag of the last output operator of
    [items], or [o] when there is none. *)
Fixpoint last_out (items : list Item) (o : option string * bool)
  : option string * bool :=
  match items with
  | [] => o
  | Word _ :: rest => last_out rest o
  | Out a f :: rest => last_out rest (Some f, a)
  end.

(** The scan of the resolver stops at [op], with [rest] after it: an
    output operator with no token after it, or an operator that is not
    implemented. *)
Definition stops_at (op : string) (rest : list string) : bool :=
  (String.eqb op ">" || String.eqb op ">>")
  && match rest with [] => true | _ :: _ => false end
  || String.eqb op "<" || String.eqb op "2>" || String.eqb op "&>".

(** The message of the failure at [op]. *)
Definition stop_message (op : string) : string :=
  if String.eqb op "<" then "Перенаправление ввода '<' пока не реализовано"
  else if String.eqb op "2>" then "Перенаправление stderr '2>' пока не реализовано"
  else if String.eqb op "&>" then
    "Перенаправление stdout и stderr '&>' пока не реализовано"
  else "Оператор '" +:+ op +:+ "' требует имя файла".

(** A computation that never raises [IndexError]. *)
Definition no_index {A} (m : M A) : Prop :=
  forall w, fst (m w) <> Raise IndexError.

(** Where [execute] writes for the target [output_file]. *)
Definition target_path (E : Env) (w : World) (output_file : string) : string :=
  match dir_utility w with
  | Some du => _resolve_path E du output_file
  | None => output_file
  end.

(** ** Sample environments *)

(** A world with no file and a [DirectoryUtility] at [/home/user]. *)
Definition world0 : World := mkWorld ∅ (Some (mkDU "/home/user")) [] 0.

(** An environment whose search path holds exactly [programs], each of
    which ends as [o]; paths are taken as given and no file operation
    fails. *)
Definition sample_env (programs : list string) (o : RunOutcome) : Env :=
  mkEnv (fun path => path)
        (fun command _ =>
           if Py.elem command programs then Some ("/usr/bin/" +:+ command) else None)
        (fun _ w => (o, w))
        (fun _ _ w => (Error EmptyString, w))
        (fun _ w => (EmptyString, w))
        (fun w => (EmptyString, w))
        (fun _ _ => None).


(** ** More of the code: vocabulary *)

(** A character of a plain word: not a blank, not a quote, not a
    backslash and not an angle bracket. *)
Definition plain_char (c : ascii) : bool :=
  negb (Ascii.eqb c " ") && negb (Ascii.eqb c "'") && negb (Ascii.eqb c "034")
  && negb (Ascii.eqb c "\") && negb (Ascii.eqb c "<") && negb (Ascii.eqb c ">").

(** A plain word: not empty, and made of plain characters. *)
Definition plain_word (s : string) : bool :=
  match s with
  | EmptyString => false
  | String _ _ => all_chars plain_char s
  end.

(** The rest of the line does not begin with [>]. *)
Definition no_gt_next (rest : string) : bool :=
  match rest with
  | EmptyString => true
  | String d _ => negb (Ascii.eqb d ">")
  end.

(** An item that is an output redirection. *)
Definition is_out (it : Item) : bool :=
  match it with
  | Out _ _ => true
  | Word _ => false
  end.

(** The names [execute] serves without a handler of [_command_map]. *)
Definition pseudo_commands : list string :=
  ["history"; "clear"; "cls"; "echo"; "help"; "exit_de"].

(** Neighbours that are equal reduced to one. *)
Fixpoint squeeze (l : list string) : list string :=
  match l with
  | a :: (b :: _) as rest =>
      if String.eqb a b then squeeze rest else a :: squeeze rest
  | _ => l
  end.

(** The last [n] elements of a list, all of them when there are fewer. *)
Definition lastn {A} (n : nat) (l : list A) : list A :=
  skipn (List.length l - n) l.

(** The commands [add] would store, one by one: stripped, and not blank. *)
Definition storable (cmds : list string) : list string :=
  List.filter (fun c => negb (String.eqb c EmptyString)) (map Py.strip cmds).

(** ** components/history.py, the rest *)

Module CommandHistoryMore.

(** [self._entries.clear()]. *)
Definition clear (self : CommandHistory.t) : CommandHistory.t :=
  CommandHistory.mk (CommandHistory.max_entries self) [].

(** [self._entries.copy()]. *)
Definition get_all (self : CommandHistory.t) : list string :=
  CommandHistory._entries self.

End CommandHistoryMore.

(** ** components/dir_utility.py, the rest *)

(** [(size + block_size - 1) // block_size] with blocks of 512 bytes. *)
Definition _calculate_blocks (size : Z) : Z :=
  let block_size := 512%Z in
  ((size + block_size - 1) / block_size)%Z.

(** ** More Python built-ins *)

Module PyMore.

(** [needle in hay] for two [str]. *)
Fixpoint contains (needle hay : string) : bool :=
  Py.startswith needle hay ||
  match hay with
  | EmptyString => false
  | String _ hay' => contains needle hay'
  end.

(** The lines a text file yields when iterated, each with its line end;
    [cur] is the line being read. *)
Fixpoint lines_from (cur : string) (text : string) : list string :=
  match text with
  | EmptyString =>
      match cur with
      | EmptyString => []
      | _ => [cur]
      end
  | String c text' =>
      if Ascii.eqb c "010" then (cur +:+ Py.nl) :: lines_from EmptyString text'
      else lines_from (cur +:+ String c EmptyString) text'
  end.

(** [for line in f] and [f.readlines()] over the text of [f]. *)
Definition readlines (text : string) : list string := lines_from EmptyString text.

(** [args[args.index(flag) + 1]] when [flag] is in [args] and is not its
    last element: the element after the first [flag]. *)
Fixpoint value_after (flag : string) (args : list string) : option string :=
  match args with
  | [] => None
  | a :: rest =>
      if String.eqb a flag then
        match rest with
        | b :: _ => Some b
        | [] => None
        end
      else value_after flag rest
  end.

End PyMore.

(** ** The operating system under the handlers *)

(** What the handlers ask of [os], [os.path] and [shutil], over the
    world: the tests of a path, the text [read] returns ([inr] is the
    text of the exception), the home directory of [expanduser], and the
    operations that change the file system ([Some e] is the text of
    the exception they raise).  [format_listing] stands for the four
    [_format_*] methods of [DirectoryUtility], by their [type_output];
    [run_find] and [run_wc] stand for [findCommand] and [wcCommand]. *)
Record Os : Type := mkOs {
  path_exists : string -> World -> bool;
  path_isdir : string -> World -> bool;
  path_isfile : string -> World -> bool;
  read_text : string -> World -> string + string;
  expanduser_home : string;
  makedirs : string -> World -> option string * World;
  rmtree : string -> World -> option string * World;
  os_rmdir : string -> World -> option string * World;
  os_remove : string -> World -> option string * World;
  copy2 : string -> string -> World -> option string * World;
  copytree : string -> string -> World -> option string * World;
  move : string -> string -> World -> option string * World;
  touch : string -> World -> option string * World;
  format_listing : string -> DirectoryUtility -> World -> string + string;
  run_find : list string -> World -> Result * World;
  run_wc : list string -> World -> Result * World
}.

(** The world with its [DirectoryUtility] object in the state [du]. *)
Definition set_du (du : DirectoryUtility) (w : World) : World :=
  mkWorld (files w) (Some du) (spawned w) (clears w).

(** ** components/dir_utility.py, the methods over the file system *)

Module DirUtil.

Definition get_current_directory (self : DirectoryUtility) : string :=
  current_directory self.

Definition list_directory (os : Os) (type_output : string)
    (self : DirectoryUtility) (w : World) : string :=
  if Py.elem type_output ["ls"; "ll"; "la"; "lla"] then
    match format_listing os type_output self w with
    | inl text => text
    | inr e => "Error: " +:+ e
    end
  else "Error: Invalid type_output: " +:+ type_output.

(** The flag returned, and the object after the call. *)
Definition change_directory (E : Env) (os : Os) (new_path : string)
    (self : DirectoryUtility) (w : World) : bool * DirectoryUtility :=
  let new_path := match new_path with
                  | EmptyString => expanduser_home os
                  | _ => new_path
                  end in
  let new_abs_path := _resolve_path E self new_path in
  if path_exists os new_abs_path w && path_isdir os new_abs_path w
  then (true, mkDU new_abs_path)
  else (false, self).

Definition create_directory (E : Env) (os : Os) (new_path : string)
    (self : DirectoryUtility) (w : World) : (bool * string) * World :=
  match new_path with
  | EmptyString => ((false, "Path is required"), w)
  | _ =>
      let new_abs_path := _resolve_path E self new_path in
      if path_exists os new_abs_path w then
        ((false, "Directory already exists: " +:+ new_abs_path), w)
      else
        match makedirs os new_abs_path w with
        | (None, w') => ((true, "Directory created: " +:+ new_abs_path), w')
        | (Some e, w') => ((false, "Failed to create directory: " +:+ e), w')
        end
  end.

Definition remove_directory (E : Env) (os : Os) (path : string) (recursive : bool)
    (self : DirectoryUtility) (w : World) : (bool * string) * World :=
  match path with
  | EmptyString => ((false, "Path is required"), w)
  | _ =>
      let target_path := _resolve_path E self path in
      if negb (path_exists os target_path w) then
        ((false, "Directory does not exist: " +:+ target_path), w)
      else if negb (path_isdir os target_path w) then
        ((false, "Not a directory: " +:+ target_path), w)
      else
        match (if recursive then rmtree os target_path w
               else os_rmdir os target_path w) with
        | (None, w') => ((true, "Directory removed: " +:+ target_path), w')
        | (Some e, w') => ((false, "Failed to remove directory: " +:+ e), w')
        end
  end.

End DirUtil.

(** ** commands/dir_cmd.py *)

Module dir_cmd.

Definition ls_cmd (os : Os) (args : list string) (w : World) : Result * World :=
  match dir_utility w with
  | None => (Error "Directory utility not provided", w)
  | Some du =>
      let output_type :=
        if Py.elem "-l" args && Py.elem "-a" args then "lla"
        else if Py.elem "-l" args then "ll"
        else if Py.elem "-a" args then "la"
        else "ls" in
      (Success (DirUtil.list_directory os output_type du w), w)
  end.

Definition cd_cmd (E : Env) (os : Os) (args : list string) (w : World)
  : Result * World :=
  match dir_utility w with
  | None => (Error "Directory utility not provided", w)
  | Some du =>
      let path := match args with
                  | a :: _ => a
                  | [] => EmptyString
                  end in
      match DirUtil.change_directory E os path du w with
      | (true, du') =>
          (Success ("Changed to " +:+ DirUtil.get_current_directory du'), set_du du' w)
      | (false, _) => (Error ("Directory not found: " +:+ path), w)
      end
  end.

Definition pwd_cmd (args : list string) (w : World) : Result * World :=
  match dir_utility w with
  | None => (Error "Directory utility not provided", w)
  | Some du => (Success (DirUtil.get_current_directory du), w)
  end.

End dir_cmd.

(** ** commands/dir_actions_cmd.py *)

Module dir_actions_cmd.

Definition answer (r : (bool * string) * World) : Result * World :=
  match r with
  | ((true, message), w') => (Success message, w')
  | ((false, message), w') => (Error message, w')
  end.

Definition mkdir_cmd (E : Env) (os : Os) (args : list string) (w : World)
  : Result * World :=
  match dir_utility w with
  | None => (Error "Directory utility not provided", w)
  | Some du =>
      match args with
      | [] => (Error "Path or directory name is required", w)
      | a :: _ => answer (DirUtil.create_directory E os a du w)
      end
  end.

Definition rmdir_cmd (E : Env) (os : Os) (args : list string) (w : World)
  : Result * World :=
  match dir_utility w with
  | None => (Error "Directory utility not provided", w)
  | Some du =>
      match args with
      | [] => (Error "Path or directory name is required", w)
      | a :: _ => answer (DirUtil.remove_directory E os a true du w)
      end
  end.

End dir_actions_cmd.

(** ** commands/file_cmd.py *)

Module file_cmd.

(** [os.path.join(currentDir, name)], or [name] when it is absolute. *)
Definition path_of (du : DirectoryUtility) (name : string) : string :=
  let joined := path_join (DirUtil.get_current_directory du) name in
  if isabs name then name else joined.

Definition recursive_flags : list string := ["-r"; "-R"; "--recursive"].

(** The outcome of a file-system operation as the handlers report it. *)
Definition report (ok : string) (failed : string) (r : option string * World)
  : Result * World :=
  match r with
  | (None, w') => (Success ok, w')
  | (Some e, w') => (Error (failed +:+ e), w')
  end.

Definition catCommand (os : Os) (args : list string) (w : World) : Result * World :=
  match dir_utility w with
  | None => (Error "Утилита директорий не предоставлена", w)
  | Some dirUtility =>
      match args with
      | [] => (Error "Укажите имя файла. Пример: cat readme.txt", w)
      | filename :: _ =>
          let filePath := path_of dirUtility filename in
          if negb (path_exists os filePath w) then
            (Error ("Файл не найден: " +:+ filePath), w)
          else if negb (path_isfile os filePath w) then
            (Error ("Это не файл: " +:+ filePath), w)
          else
            match read_text os filePath w with
            | inl content => (Success content, w)
            | inr e => (Error ("Ошибка при чтении файла: " +:+ e), w)
            end
      end
  end.

Definition touchCommand (os : Os) (args : list string) (w : World) : Result * World :=
  match dir_utility w with
  | None => (Error "Утилита директорий не предоставлена", w)
  | Some dirUtility =>
      match args with
      | [] => (Error "Укажите имя файла. Пример: touch newfile.txt", w)
      | filename :: _ =>
          let filePath := path_of dirUtility filename in
          match touch os filePath w with
          | (None, w') =>
              if path_exists os filePath w'
              then (Success ("Файл создан или обновлен: " +:+ filePath), w')
              else (Success ("Файл создан: " +:+ filePath), w')
          | (Some e, w') => (Error ("Ошибка при создании файла: " +:+ e), w')
          end
      end
  end.

(** [for arg in reversed(args): if arg not in flags: target = arg; break]:
    the last argument that is no flag. *)
Fixpoint last_operand (args : list string) : option string :=
  match args with
  | [] => None
  | a :: rest =>
      match last_operand rest with
      | Some t => Some t
      | None => if Py.elem a recursive_flags then None else Some a
      end
  end.

Definition rmCommand (os : Os) (args : list string) (w : World) : Result * World :=
  match dir_utility w with
  | None => (Error "Утилита директорий не предоставлена", w)
  | Some dirUtility =>
      match args with
      | [] => (Error "Укажите имя файла или директории. Пример: rm file.txt", w)
      | _ =>
          let recursive :=
            Py.elem "-r" args || Py.elem "-R" args || Py.elem "--recursive" args in
          match last_operand args with
          | None | Some EmptyString => (Error "Укажите имя файла или директории", w)
          | Some target =>
              let targetPath := path_of dirUtility target in
              if negb (path_exists os targetPath w) then
                (Error ("Файл или директория не найдены: " +:+ targetPath), w)
              else if path_isdir os targetPath w then
                if recursive then
                  report ("Директория удалена: " +:+ targetPath)
                    "Ошибка при удалении: " (rmtree os targetPath w)
                else
                  (Error ("Для удаления директории используйте флаг -r: rm -r "
                          +:+ target), w)
              else
                report ("Файл удален: " +:+ targetPath)
                  "Ошибка при удалении: " (os_remove os targetPath w)
          end
      end
  end.

(** The arguments that are no flags, in order. *)
Definition operands (args : list string) : list string :=
  List.filter (fun a => negb (Py.elem a recursive_flags)) args.

Definition cpCommand (os : Os) (args : list string) (w : World) : Result * World :=
  match dir_utility w with
  | None => (Error "Утилита директорий не предоставлена", w)
  | Some dirUtility =>
      if (List.length args <? 2)%nat then
        (Error "Укажите источник и назначение. Пример: cp file.txt backup.txt", w)
      else
        let recursive :=
          Py.elem "-r" args || Py.elem "-R" args || Py.elem "--recursive" args in
        match operands args with
        | String c s :: String d t :: _ =>
            let source := String c s in
            let destination := String d t in
            let sourcePath := path_of dirUtility source in
            let destPath := path_of dirUtility destination in
            if negb (path_exists os sourcePath w) then
              (Error ("Источник не найден: " +:+ sourcePath), w)
            else if path_isdir os sourcePath w then
              if recursive then
                report ("Директория скопирована: " +:+ sourcePath +:+ " -> " +:+ destPath)
                  "Ошибка при копировании: " (copytree os sourcePath destPath w)
              else
                (Error ("Для копирования директории используйте флаг -r: cp -r "
                        +:+ source +:+ " " +:+ destination), w)
            else
              report ("Файл скопирован: " +:+ sourcePath +:+ " -> " +:+ destPath)
                "Ошибка при копировании: " (copy2 os sourcePath destPath w)
        | _ =>
            (Error "Укажите источник и назначение. Пример: cp file.txt backup.txt", w)
        end
  end.

Definition mvCommand (os : Os) (args : list string) (w : World) : Result * World :=
  match dir_utility w with
  | None => (Error "Утилита директорий не предоставлена", w)
  | Some dirUtility =>
      match args with
      | source :: destination :: _ =>
          let sourcePath := path_of dirUtility source in
          let destPath := path_of dirUtility destination in
          if negb (path_exists os sourcePath w) then
            (Error ("Источник не найден: " +:+ sourcePath), w)
          else
            report ("Перемещено: " +:+ sourcePath +:+ " -> " +:+ destPath)
              "Ошибка при перемещении: " (move os sourcePath destPath w)
      | _ => (Error "Укажите источник и назначение. Пример: mv old.txt new.txt", w)
      end
  end.

End file_cmd.

(** ** commands/search_cmd.py *)

Module search_cmd.

(** [enumerate(f, 1)] filtered by [searchText in line]. *)
Fixpoint matches (searchText : string) (lineNum : Z) (lines : list string)
  : list string :=
  match lines with
  | [] => []
  | line :: rest =>
      if PyMore.contains searchText line
      then (Py.str_of_Z lineNum +:+ ": " +:+ Py.rstrip line)
             :: matches searchText (lineNum + 1) rest
      else matches searchText (lineNum + 1) rest
  end.

Definition grepCommand (os : Os) (args : list string) (w : World) : Result * World :=
  match dir_utility w with
  | None => (Error "Утилита директорий не предоставлена", w)
  | Some dirUtility =>
      match args with
      | searchText :: filename :: _ =>
          let filePath := file_cmd.path_of dirUtility filename in
          if negb (path_exists os filePath w) || negb (path_isfile os filePath w) then
            (Error ("Файл не найден: " +:+ filePath), w)
          else
            match read_text os filePath w with
            | inl content =>
                match matches searchText 1 (PyMore.readlines content) with
                | [] => (Success ("Текст '" +:+ searchText +:+ "' не найден в файле"), w)
                | found => (Success (Py.join Py.nl found), w)
                end
            | inr e => (Error ("Ошибка при поиске: " +:+ e), w)
            end
      | _ =>
          (Error ("Укажите текст для поиска и файл. Пример: grep "
                  +:+ dquote +:+ "hello" +:+ dquote +:+ " file.txt"), w)
      end
  end.

(** The count of [head] and [tail]: 10, or the number after the first
    [-n] when there is one and [int] reads it. *)
Definition numLines (args : list string) : Z :=
  if Py.elem "-n" args then
    match PyMore.value_after "-n" args with
    | Some v =>
        match Py.int v with
        | Some n => n
        | None => 10%Z
        end
    | None => 10%Z
    end
  else 10%Z.

Definition headCommand (os : Os) (args : list string) (w : World) : Result * World :=
  match dir_utility w with
  | None => (Error "Утилита директорий не предоставлена", w)
  | Some dirUtility =>
      match Py.last_item args with
      | None => (Error "Укажите имя файла. Пример: head file.txt", w)
      | Some filename =>
          let filePath := file_cmd.path_of dirUtility filename in
          if negb (path_exists os filePath w) || negb (path_isfile os filePath w) then
            (Error ("Файл не найден: " +:+ filePath), w)
          else
            match read_text os filePath w with
            | inl content =>
                let lines :=
                  map Py.rstrip
                      (firstn (Z.to_nat (numLines args)) (PyMore.readlines content)) in
                (Success (Py.join Py.nl lines), w)
            | inr e => (Error ("Ошибка при чтении файла: " +:+ e), w)
            end
      end
  end.

Definition tailCommand (os : Os) (args : list string) (w : World) : Result * World :=
  match dir_utility w with
  | None => (Error "Утилита директорий не предоставлена", w)
  | Some dirUtility =>
      match Py.last_item args with
      | None => (Error "Укажите имя файла. Пример: tail file.txt", w)
      | Some filename =>
          let filePath := file_cmd.path_of dirUtility filename in
          if negb (path_exists os filePath w) || negb (path_isfile os filePath w) then
            (Error ("Файл не найден: " +:+ filePath), w)
          else
            match read_text os filePath w with
            | inl content =>
                let lines := PyMore.readlines content in
                let lastLines :=
                  if (numLines args <? Z.of_nat (List.length lines))%Z
                  then Py.slice_from (- numLines args) lines
                  else lines in
                (Success (Py.join Py.nl (map Py.rstrip lastLines)), w)
            | inr e => (Error ("Ошибка при чтении файла: " +:+ e), w)
            end
      end
  end.

End search_cmd.

(** ** The handlers of [_command_map], by name *)

Definition run_handler (E : Env) (os : Os) (h : Handler) (args : list string)
  : World -> Result * World :=
  match h with
  | ls_cmd => dir_cmd.ls_cmd os args
  | cd_cmd => dir_cmd.cd_cmd E os args
  | pwd_cmd => dir_cmd.pwd_cmd args
  | mkdir_cmd => dir_actions_cmd.mkdir_cmd E os args
  | rmdir_cmd => dir_actions_cmd.rmdir_cmd E os args
  | catCommand => file_cmd.catCommand os args
  | touchCommand => file_cmd.touchCommand os args
  | rmCommand => file_cmd.rmCommand os args
  | cpCommand => file_cmd.cpCommand os args
  | mvCommand => file_cmd.mvCommand os args
  | grepCommand => search_cmd.grepCommand os args
  | findCommand => run_find os args
  | headCommand => search_cmd.headCommand os args
  | tailCommand => search_cmd.tailCommand os args
  | wcCommand => run_wc os args
  end.

(** The environment [E] with the handlers above over [os]. *)
Definition with_handlers (E : Env) (os : Os) : Env :=
  mkEnv (abspath E) (which E) (subprocess_run E) (run_handler E os)
        (getCommandHelp E) (formatHelpTable E) (io_error E).

(** The world with the file at [path] removed. *)
Definition remove_file (path : string) (w : World) : World :=
  mkWorld (delete path (files w)) (dir_utility w) (spawned w) (clears w).

(** ** What is asked of the file system *)

(** A text read in text mode, as [open(path, 'r')] gives it: universal
    newlines turn a carriage return with the line feed after it, and a
    carriage return alone, into one line feed. *)
Fixpoint universal_newlines (s : string) : string :=
  match s with
  | EmptyString => EmptyString
  | String c rest =>
      if Ascii.eqb c "013" then
        match rest with
        | String d rest' =>
            if Ascii.eqb d "010" then String "010" (universal_newlines rest')
            else String "010" (universal_newlines rest)
        | EmptyString => String "010" EmptyString
        end
      else String c (universal_newlines rest)
  end.

(** A text of ASCII characters only: its bytes are its characters, and
    decoding it as UTF-8 drops and changes nothing. *)
Definition ascii_text (s : string) : bool := all_chars (Py.ascii_in 0 127) s.

(** A text without carriage return. *)
Definition no_carriage_return (s : string) : bool :=
  all_chars (fun c => negb (Ascii.eqb c "013")) s.

(** The file system shows the file of the world at [path]: when the
    world holds an ASCII text there, the path exists, is a regular file,
    and a read in text mode gives that text with its newlines
    translated. *)
Definition reads_store (os : Os) (path : string) : Prop :=
  forall text w,
    files w !! path = Some text ->
    ascii_text text = true ->
    path_exists os path w = true /\ path_isfile os path w = true /\
    read_text os path w = inl (universal_newlines text).

(** A flag of [rm] and [cp] is among the arguments. *)
Definition has_flag (args : list string) : bool :=
  existsb (fun a => Py.elem a file_cmd.recursive_flags) args.

(** [needle] occurs in [hay]. *)
Definition occurs (needle hay : string) : Prop :=
  exists before after, hay = before +:+ needle +:+ after.

(** ** A sample file system *)

(** A file system with the fixed directories [dirs], whose regular
    files are the files of the world, read in text mode with universal
    newlines: files can be created, removed, copied and moved, and no
    directory can be created, removed or listed. *)
Definition sample_os (dirs : list string) : Os :=
  let held := fun p w => bool_decide (is_Some (files w !! p)) in
  let denied := Some "[Errno 13] Permission denied" in
  let missing := Some "[Errno 2] No such file or directory" in
  mkOs (fun p w => Py.elem p dirs || held p w)
       (fun p _ => Py.elem p dirs)
       (fun p w => negb (Py.elem p dirs) && held p w)
       (fun p w => match files w !! p with
                   | Some text => inl (universal_newlines text)
                   | None => inr "[Errno 2] No such file or directory"
                   end)
       "/home/user"
       (fun _ w => (denied, w))
       (fun _ w => (denied, w))
       (fun _ w => (denied, w))
       (fun p w => if held p w then (None, remove_file p w) else (missing, w))
       (fun s d w => match files w !! s with
                     | Some text => (None, set_file d text w)
                     | None => (missing, w)
                     end)
       (fun _ _ w => (denied, w))
       (fun s d w => match files w !! s with
                     | Some text => (None, set_file d text (remove_file s w))
                     | None => (missing, w)
                     end)
       (fun p w => if held p w then (None, w) else (None, set_file p EmptyString w))
       (fun _ _ _ => inr "[Errno 13] Permission denied")
       (fun _ w => (Error EmptyString, w))
       (fun _ w => (Error EmptyString, w)).

(** [os] with [os.rmdir] replaced by [f]. *)
Definition with_os_rmdir (f : string -> World -> option string * World) (os : Os) : Os :=
  mkOs (path_exists os) (path_isdir os) (path_isfile os) (read_text os)
       (expanduser_home os) (makedirs os) (rmtree os) f (os_remove os)
       (copy2 os) (copytree os) (move os) (touch os) (format_listing os)
       (run_find os) (run_wc os).

(** [os] with [shutil.rmtree] replaced by [f]. *)
Definition with_rmtree (f : string -> World -> option string * World) (os : Os) : Os :=
  mkOs (path_exists os) (path_isdir os) (path_isfile os) (read_text os)
       (expanduser_home os) (makedirs os) f (os_rmdir os) (os_remove os)
       (copy2 os) (copytree os) (move os) (touch os) (format_listing os)
       (run_find os) (run_wc os).

(** The lines of a file with their numbers, counted from 1. *)
Definition numbered (lines : list string) : list (nat * string) :=
  combine (seq 1 (List.length lines)) lines.

(** A line as [grep] shows it under its number. *)
Definition shown (entry : nat * string) : string :=
  Py.str_of_Z (Z.of_nat (fst entry)) +:+ ": " +:+ Py.rstrip (snd entry).

(** [n] blanks. *)
Fixpoint blanks (n : nat) : string :=
  match n with
  | O => EmptyString
  | S n' => String " " (blanks n')
  end.

(** Case analysis on every test of an [if] left in the goal. *)
Ltac case_ifs :=
  repeat match goal with
         | |- context [if ?b then _ else _] => destruct b
         end.

(** ** The index loop of [tokenize] and the scan agree *)

Section TokenizeLoop.
Import ShellParser.

Lemma drop_cons n s c r :
  Py.drop n s = String c r ->
  String.get n s = Some c /\ Py.drop (S n) s = r /\ (n < String.length s)%nat.
Proof.
  revert n. induction s as [|a s IH]; intros [|n] H; simpl in *; try discriminate.
  - inversion H; subst. repeat split; lia.
  - destruct (IH _ H) as (Hg & Hd & Hl). repeat split; try assumption. lia.
Qed.

Lemma drop_nil n s :
  Py.drop n s = EmptyString -> (String.length s <= n)%nat.
Proof.
  revert n. induction s as [|a s IH]; intros [|n] H; simpl in *;
    try discriminate; try lia.
  specialize (IH _ H). lia.
Qed.

Lemma substring_two n s c d r :
  Py.drop n s = String c (String d r) ->
  substring n 2 s = String c (String d EmptyString).
Proof.
  revert n. induction s as [|a s IH]; intros [|n] H; simpl in *; try discriminate.
  - inversion H; subst. destruct r; reflexivity.
  - auto.
Qed.

Lemma loop_scan fuel line :
  forall toks cur sq dq esc n rest,
    Py.drop n line = rest ->
    (String.length rest <= fuel)%nat ->
    exists st,
      loop fuel line (mkState toks cur sq dq esc n) = Some st /\
      flush (tokens st) (current_token st) = scan toks cur sq dq esc rest.
Proof.
  induction fuel as [|fuel IH]; intros toks cur sq dq esc n rest Hd Hlen.
  - destruct rest; [|simpl in Hlen; lia].
    apply drop_nil in Hd. simpl.
    replace (n <? String.length line)%nat with false
      by (symmetry; apply Nat.ltb_ge; lia).
    eexists; split; reflexivity.
  - destruct rest as [|c rest].
    + apply drop_nil in Hd. simpl.
      replace (n <? String.length line)%nat with false
        by (symmetry; apply Nat.ltb_ge; lia).
      eexists; split; reflexivity.
    + pose proof (drop_cons _ _ _ _ Hd) as (Hg & Hd1 & Hl).
      assert (Hfuel : (String.length rest <= fuel)%nat) by (simpl in Hlen; lia).
      cbn [loop i]. replace (n <? String.length line)%nat with true
        by (symmetry; apply Nat.ltb_lt; lia).
      cbn [step]. rewrite Hg. cbn [scan].
      replace (n + 1)%nat with (S n) by lia.
      destruct esc; [apply IH; assumption|].
      destruct (Ascii.eqb c "\"); [apply IH; assumption|].
      destruct rest as [|d rest'].
      * (* the last character: no two-character lookahead *)
        pose proof (drop_nil _ _ Hd1) as Hend.
        replace (S n <? String.length line)%nat with false
          by (symmetry; apply Nat.ltb_ge; lia).
        rewrite andb_false_r. cbn [andb].
        case_ifs; apply IH; assumption.
      * pose proof (drop_cons _ _ _ _ Hd1) as (_ & Hd2 & Hl2).
        rewrite (substring_two _ _ _ _ _ Hd).
        replace (S n <? String.length line)%nat with true
          by (symmetry; apply Nat.ltb_lt; lia).
        rewrite andb_true_r.
        destruct (negb (sq || dq) && Py.elem (String c (String d "")) REDIRECT_OPERATORS).
        { replace (n + 2)%nat with (S (S n)) by lia.
          apply IH; [assumption | simpl in Hfuel; lia]. }
        case_ifs; apply IH; assumption.
Qed.

(** [tokenize] returns on every line, and returns what [scan] does. *)
Lemma tokenize_scan line :
  tokenize line = Some (scan [] EmptyString false false false line).
Proof.
  unfold tokenize, init.
  destruct (loop_scan (String.length line) line [] EmptyString false false false
              0 line eq_refl (le_n _)) as (st & Hl & Hs).
  rewrite Hl, Hs. reflexivity.
Qed.

End TokenizeLoop.

(** ** Small facts about strings *)

Section Strings.

Lemma str_app_cons c s t : String c s +:+ t = String c (s +:+ t).
Proof. reflexivity. Qed.

Lemma str_app_nil_l s : EmptyString +:+ s = s.
Proof. reflexivity. Qed.

Lemma str_app_nil_r s : s +:+ EmptyString = s.
Proof. induction s as [|c s IH]; [reflexivity|]. rewrite str_app_cons, IH. reflexivity. Qed.

Lemma str_app_assoc s t u : (s +:+ t) +:+ u = s +:+ (t +:+ u).
Proof.
  induction s as [|c s IH]; [reflexivity|].
  rewrite !str_app_cons, IH. reflexivity.
Qed.

Lemma str_app_snoc s c t : (s +:+ ShellParser.char_str c) +:+ t = s +:+ String c t.
Proof. rewrite str_app_assoc. reflexivity. Qed.

End Strings.

(** ** The tokenizer, law by law *)

Section TokenizerLaws.
Import ShellParser.

(** No operator of the tokenizer starts with a blank, a tab or a quote,
    so the two-character lookahead never fires on them. *)
Lemma no_op_from c d :
  Ascii.eqb c ">" = false -> Ascii.eqb c "<" = false -> Ascii.eqb c "2" = false ->
  Py.elem (String c (String d EmptyString)) REDIRECT_OPERATORS = false.
Proof.
  intros H1 H2 H3. unfold Py.elem, REDIRECT_OPERATORS. simpl.
  rewrite H1, H2, H3. reflexivity.
Qed.

(** One iteration of the scan, with the rest of the scan folded. *)
Lemma scan_cons toks cur sq dq esc c rest :
  scan toks cur sq dq esc (String c rest)
  = if esc then scan toks (cur +:+ char_str c) sq dq false rest
    else if Ascii.eqb c "\" then scan toks cur sq dq true rest
    else match rest with
         | String d rest' =>
             if negb (sq || dq)
                && Py.elem (String c (String d EmptyString)) REDIRECT_OPERATORS
             then scan (flush toks cur ++ [String c (String d EmptyString)])
                       EmptyString sq dq false rest'
             else one_char toks cur sq dq c rest
         | EmptyString => one_char toks cur sq dq c rest
         end.
Proof. destruct esc; [reflexivity|]. destruct rest; reflexivity. Qed.

Lemma scan_end toks cur sq dq esc :
  scan toks cur sq dq esc EmptyString = flush toks cur.
Proof. reflexivity. Qed.

(** Outside quotes a blank ends the word and yields no token itself. *)
Lemma scan_blank toks cur rest :
  scan toks cur false false false (String " " rest)
  = scan (flush toks cur) EmptyString false false false rest.
Proof.
  rewrite scan_cons. cbn [Ascii.eqb Bool.eqb].
  destruct rest as [|d rest]; [reflexivity|].
  rewrite no_op_from by reflexivity. reflexivity.
Qed.

(** A backslash makes the next character part of the word, whatever the
    quoting, and is itself dropped. *)
Lemma scan_escape toks cur sq dq c rest :
  scan toks cur sq dq false (String "\" (String c rest))
  = scan toks (cur +:+ char_str c) sq dq false rest.
Proof. rewrite scan_cons. cbn [Ascii.eqb Bool.eqb]. rewrite scan_cons. reflexivity. Qed.

(** Inside a quote opened by [q], a character other than [q] and the
    backslash is word content. *)
Lemma scan_inside_double toks cur c rest :
  inside "034" c = true ->
  scan toks cur false true false (String c rest)
  = scan toks (cur +:+ char_str c) false true false rest.
Proof.
  unfold inside. intros [Hq Hb]%andb_prop.
  apply negb_true_iff in Hq, Hb.
  rewrite scan_cons, Hb. cbn [negb orb andb].
  assert (H1 : one_char toks cur false true c rest
               = scan toks (cur +:+ char_str c) false true false rest).
  { unfold one_char. cbn [negb orb andb]. rewrite Hq.
    rewrite !andb_false_r. reflexivity. }
  destruct rest; exact H1.
Qed.

Lemma scan_inside_single toks cur c rest :
  inside "'" c = true ->
  scan toks cur true false false (String c rest)
  = scan toks (cur +:+ char_str c) true false false rest.
Proof.
  unfold inside. intros [Hq Hb]%andb_prop.
  apply negb_true_iff in Hq, Hb.
  rewrite scan_cons, Hb. cbn [negb orb andb].
  assert (H1 : one_char toks cur true false c rest
               = scan toks (cur +:+ char_str c) true false false rest).
  { unfold one_char. cbn [negb orb andb]. rewrite Hq.
    rewrite !andb_false_r. reflexivity. }
  destruct rest; exact H1.
Qed.

Lemma scan_body_double body : forall toks cur rest,
  all_chars (inside "034") body = true ->
  scan toks cur false true false (body +:+ rest)
  = scan toks (cur +:+ body) false true false rest.
Proof.
  induction body as [|c body IH]; intros toks cur rest H.
  - rewrite str_app_nil_r. reflexivity.
  - simpl in H. apply andb_prop in H as [Hc Hb].
    rewrite str_app_cons, scan_inside_double, IH, str_app_snoc by assumption.
    reflexivity.
Qed.

Lemma scan_body_single body : forall toks cur rest,
  all_chars (inside "'") body = true ->
  scan toks cur true false false (body +:+ rest)
  = scan toks (cur +:+ body) true false false rest.
Proof.
  induction body as [|c body IH]; intros toks cur rest H.
  - rewrite str_app_nil_r. reflexivity.
  - simpl in H. apply andb_prop in H as [Hc Hb].
    rewrite str_app_cons, scan_inside_single, IH, str_app_snoc by assumption.
    reflexivity.
Qed.

(** An unquoted, unescaped quote character switches its mode on and is
    dropped; the same character switches it off again. *)
Lemma scan_open_double toks cur rest :
  scan toks cur false false false (String "034" rest)
  = scan toks cur false true false rest.
Proof.
  rewrite scan_cons. cbn [Ascii.eqb Bool.eqb].
  destruct rest as [|d rest]; [reflexivity|].
  rewrite no_op_from by reflexivity. reflexivity.
Qed.

Lemma scan_close_double toks cur rest :
  scan toks cur false true false (String "034" rest)
  = scan toks cur false false false rest.
Proof. rewrite scan_cons. destruct rest; reflexivity. Qed.

Lemma scan_open_single toks cur rest :
  scan toks cur false false false (String "'" rest)
  = scan toks cur true false false rest.
Proof.
  rewrite scan_cons. cbn [Ascii.eqb Bool.eqb].
  destruct rest as [|d rest]; [reflexivity|].
  rewrite no_op_from by reflexivity. reflexivity.
Qed.

Lemma scan_close_single toks cur rest :
  scan toks cur true false false (String "'" rest)
  = scan toks cur false false false rest.
Proof. rewrite scan_cons. destruct rest; reflexivity. Qed.

Lemma no_op_char c :
  Ascii.eqb c ">" = false -> Ascii.eqb c "<" = false ->
  Py.elem (char_str c) REDIRECT_OPERATORS = false.
Proof.
  intros H1 H2. unfold Py.elem, REDIRECT_OPERATORS, char_str. simpl.
  rewrite H1, H2. destruct (Ascii.eqb c "2"); reflexivity.
Qed.

(** A whitespace character other than the blank is none of the
    characters the scan looks for. *)
Lemma other_space c :
  Py.isspace c = true -> Ascii.eqb c " " = false ->
  Ascii.eqb c "\" = false /\ Ascii.eqb c "'" = false /\
  Ascii.eqb c "034" = false /\ Ascii.eqb c ">" = false /\
  Ascii.eqb c "<" = false /\ Ascii.eqb c "2" = false.
Proof.
  destruct c as [[] [] [] [] [] [] [] []]; intros Hs Hb;
    try discriminate Hs; try discriminate Hb; repeat split; reflexivity.
Qed.

(** Only the blank separates: outside quotes any other whitespace
    character, a tab for one, is word content. *)
Lemma scan_other_space c toks cur rest :
  Py.isspace c = true -> Ascii.eqb c " " = false ->
  scan toks cur false false false (String c rest)
  = scan toks (cur +:+ char_str c) false false false rest.
Proof.
  intros Hs Hb. destruct (other_space c Hs Hb) as (H1 & H2 & H3 & H4 & H5 & H6).
  rewrite scan_cons, H1.
  assert (Hone : one_char toks cur false false c rest
                 = scan toks (cur +:+ char_str c) false false false rest).
  { unfold one_char. rewrite no_op_char, H2, H3, Hb by assumption. reflexivity. }
  destruct rest as [|d rest]; [exact Hone|].
  rewrite no_op_from by assumption. exact Hone.
Qed.

End TokenizerLaws.

(** ** Claims about the tokenizer *)

(** C1, as the claim states it, fails at a tab: a tab is whitespace, it
    stands unquoted and unescaped between [a] and [b], and the line is
    one token. *)
Lemma tokenize_tab_is_one_token :
  Py.isspace "009" = true /\
  ShellParser.tokenize ("a" +:+ tab +:+ "b") = Some ["a" +:+ tab +:+ "b"].
Proof. split; reflexivity. Qed.

(** C1 (amended): on every line [tokenize] returns the scan of the line;
    an unquoted, unescaped blank (U+0020) ends the word and is no token,
    and it is the only separator: any other whitespace character, such
    as a tab, is word content; a quoted body between
    two double or two single quotes joins the word without its quotes; a
    backslash makes the next character word content in any quoting state.
    [ls -l] gives [ls] and [-l]; [echo "a b"] gives [echo] and [a b], and
    dispatching these gives [Success "a b"]; [echo a\ b] gives [echo] and
    [a b]. *)
Theorem tokenize_blank_quote_escape :
  (forall line,
      ShellParser.tokenize line
      = Some (ShellParser.scan [] EmptyString false false false line)) /\
  (forall toks cur rest,
      ShellParser.scan toks cur false false false (String " " rest)
      = ShellParser.scan (ShellParser.flush toks cur) EmptyString
          false false false rest) /\
  (forall c toks cur rest,
      Py.isspace c = true -> Ascii.eqb c " " = false ->
      ShellParser.scan toks cur false false false (String c rest)
      = ShellParser.scan toks (cur +:+ String c EmptyString)
          false false false rest) /\
  (forall toks cur body rest,
      all_chars (inside "034") body = true ->
      ShellParser.scan toks cur false false false
        (dquote +:+ body +:+ dquote +:+ rest)
      = ShellParser.scan toks (cur +:+ body) false false false rest) /\
  (forall toks cur body rest,
      all_chars (inside "'") body = true ->
      ShellParser.scan toks cur false false false
        (squote +:+ body +:+ squote +:+ rest)
      = ShellParser.scan toks (cur +:+ body) false false false rest) /\
  (forall toks cur sq dq c rest,
      ShellParser.scan toks cur sq dq false (String "\" (String c rest))
      = ShellParser.scan toks (cur +:+ String c EmptyString) sq dq false rest) /\
  ShellParser.tokenize "ls -l" = Some ["ls"; "-l"] /\
  ShellParser.tokenize ("echo " +:+ dquote +:+ "a b" +:+ dquote)
  = Some ["echo"; "a b"] /\
  (forall E history current_directory w,
      Command_Base.execute E ["echo"; "a b"] history current_directory w
      = (Ret (Success "a b"), w)) /\
  ShellParser.tokenize "echo a\ b" = Some ["echo"; "a b"].
Proof.
  split; [exact tokenize_scan|].
  split; [exact scan_blank|].
  split; [exact scan_other_space|].
  split.
  { intros toks cur body rest H. unfold dquote. rewrite str_app_cons, str_app_nil_l.
    rewrite scan_open_double, scan_body_double by assumption.
    rewrite str_app_cons, str_app_nil_l. apply scan_close_double. }
  split.
  { intros toks cur body rest H. unfold squote. rewrite str_app_cons, str_app_nil_l.
    rewrite scan_open_single, scan_body_single by assumption.
    rewrite str_app_cons, str_app_nil_l. apply scan_close_single. }
  split; [exact scan_escape|].
  repeat split; reflexivity.
Qed.

Lemma tokenize_blank_quote_escape_witness :
  ShellParser.scan [] "echo" false false false
    (dquote +:+ "a b" +:+ dquote +:+ " c")
  = ShellParser.scan [] ("echo" +:+ "a b") false false false " c".
Proof.
  apply (proj1 (proj2 (proj2 (proj2 tokenize_blank_quote_escape)))).
  reflexivity.
Defined.

(** C9: [tokenize] returns a token list on every line: its loop never
    reads outside the line and ends within [len(command_line)]
    iterations.  When a quote is opened and not closed, the characters
    after it (none of them a backslash) are all part of the word then
    being read, which is the last token; and at the end of the line the
    word being read is emitted exactly when it is not empty. *)
Theorem tokenize_total :
  (forall line, exists toks, ShellParser.tokenize line = Some toks) /\
  (forall line, exists st,
      ShellParser.loop (String.length line) line ShellParser.init = Some st) /\
  (forall toks cur body,
      all_chars (inside "034") body = true ->
      ShellParser.scan toks cur false false false (dquote +:+ body)
      = ShellParser.flush toks (cur +:+ body)) /\
  (forall toks cur body,
      all_chars (inside "'") body = true ->
      ShellParser.scan toks cur false false false (squote +:+ body)
      = ShellParser.flush toks (cur +:+ body)) /\
  (forall toks cur sq dq esc,
      ShellParser.scan toks cur sq dq esc EmptyString
      = match cur with
        | EmptyString => toks
        | String _ _ => toks ++ [cur]
        end) /\
  ShellParser.tokenize ("echo " +:+ dquote +:+ "a b") = Some ["echo"; "a b"] /\
  ShellParser.tokenize ("echo " +:+ squote +:+ "a b") = Some ["echo"; "a b"] /\
  ShellParser.tokenize ("echo " +:+ dquote) = Some ["echo"].
Proof.
  split; [intros line; eexists; apply tokenize_scan|].
  split.
  { intros line.
    destruct (loop_scan (String.length line) line [] EmptyString false false false
                0 line eq_refl (le_n _)) as (st & Hl & _).
    exists st. exact Hl. }
  split.
  { intros toks cur body H. unfold dquote. rewrite str_app_cons, str_app_nil_l.
    rewrite scan_open_double. rewrite <- (str_app_nil_r body) at 1.
    rewrite scan_body_double by assumption. reflexivity. }
  split.
  { intros toks cur body H. unfold squote. rewrite str_app_cons, str_app_nil_l.
    rewrite scan_open_single. rewrite <- (str_app_nil_r body) at 1.
    rewrite scan_body_single by assumption. reflexivity. }
  split; [intros toks cur sq dq esc; destruct cur; reflexivity|].
  repeat split; reflexivity.
Qed.

Lemma tokenize_total_witness :
  ShellParser.scan ["echo"] EmptyString false false false (dquote +:+ "a > b")
  = ShellParser.flush ["echo"] (EmptyString +:+ "a > b").
Proof.
  apply (proj1 (proj2 (proj2 tokenize_total))). reflexivity.
Defined.

(** ** [strip] *)

Section Strip.

Lemma rstrip_keeps_head c s :
  Py.isspace c = false -> Py.rstrip (String c s) = String c (Py.rstrip s).
Proof. intros H. simpl. destruct (Py.rstrip s); rewrite ?H; reflexivity. Qed.

Lemma lstrip_head s c r : Py.lstrip s = String c r -> Py.isspace c = false.
Proof.
  induction s as [|a s IH]; simpl; [discriminate|].
  destruct (Py.isspace a) eqn:Ha; [exact IH|].
  intros H. inversion H; subst. exact Ha.
Qed.

Lemma lstrip_fixed c s : Py.isspace c = false -> Py.lstrip (String c s) = String c s.
Proof. intros H. simpl. rewrite H. reflexivity. Qed.

Lemma rstrip_idem s : Py.rstrip (Py.rstrip s) = Py.rstrip s.
Proof.
  induction s as [|c s IH]; [reflexivity|].
  simpl. destruct (Py.rstrip s) as [|d r] eqn:Hr.
  - destruct (Py.isspace c) eqn:Hc; [reflexivity|]. simpl. rewrite Hc. reflexivity.
  - change (Py.rstrip (String c (String d r))) with
      (match Py.rstrip (String d r) with
       | EmptyString => if Py.isspace c then EmptyString else String c EmptyString
       | r0 => String c r0
       end).
    rewrite IH. reflexivity.
Qed.

(** The result of [strip] has no whitespace left to strip. *)
Lemma strip_idem s : Py.strip (Py.strip s) = Py.strip s.
Proof.
  unfold Py.strip. destruct (Py.lstrip s) as [|c r] eqn:Hl; [reflexivity|].
  pose proof (lstrip_head _ _ _ Hl) as Hc.
  rewrite (rstrip_keeps_head _ _ Hc), (lstrip_fixed _ _ Hc).
  rewrite <- (rstrip_keeps_head _ _ Hc). apply rstrip_idem.
Qed.

End Strip.

(** ** The history store *)

Section History.
Import CommandHistory.

Lemma no_repeat_snoc l x :
  no_repeat l = true ->
  match Py.last_item l with Some e => String.eqb e x | None => false end = false ->
  no_repeat (l ++ [x]) = true.
Proof.
  induction l as [|a [|b l] IH]; intros Hn Hl; [reflexivity| |].
  - simpl in *. rewrite Hl. reflexivity.
  - change (no_repeat (a :: b :: l ++ [x]) = true).
    change (negb (String.eqb a b) && no_repeat (b :: l) = true) in Hn.
    apply andb_prop in Hn as [Hab Hn].
    change (negb (String.eqb a b) && no_repeat ((b :: l) ++ [x]) = true).
    rewrite Hab. apply IH; assumption.
Qed.

Lemma no_repeat_tail a l : no_repeat (a :: l) = true -> no_repeat l = true.
Proof. destruct l; [reflexivity|]. simpl. intros [_ H]%andb_prop. exact H. Qed.

Lemma no_repeat_skipn n : forall l, no_repeat l = true -> no_repeat (skipn n l) = true.
Proof.
  induction n as [|n IH]; intros l H; [exact H|].
  destruct l as [|a l]; [reflexivity|].
  apply IH. exact (no_repeat_tail _ _ H).
Qed.

Lemma Forall_stored_skipn n : forall l, Forall stored l -> Forall stored (skipn n l).
Proof.
  induction n as [|n IH]; intros l H; [exact H|].
  destruct l as [|a l]; [constructor|].
  apply IH. inversion H; assumption.
Qed.

(** [entries[-max:]] of a list longer than [max >= 1] drops the oldest
    [len - max] entries. *)
Lemma slice_last (l : list string) (m : Z) :
  (1 <= m)%Z -> (m < Z.of_nat (List.length l))%Z ->
  Py.slice_from (- m) l = skipn (List.length l - Z.to_nat m) l.
Proof.
  intros H1 H2. unfold Py.slice_from.
  replace (- m <? 0)%Z with true by (symmetry; apply Z.ltb_lt; lia).
  f_equal. lia.
Qed.

Lemma add_blank h c : Py.strip c = EmptyString -> add h c = h.
Proof. intros H. unfold add. rewrite H. reflexivity. Qed.

Lemma add_repeated h c :
  Py.last_item (_entries h) = Some (Py.strip c) -> add h c = h.
Proof.
  intros H. unfold add. destruct (Py.strip c) as [|a s]; [reflexivity|].
  rewrite H, String.eqb_refl. reflexivity.
Qed.

Lemma add_ok h c : (1 <= max_entries h)%Z -> history_ok h -> history_ok (add h c).
Proof.
  intros Hmax (Hst & Hnr & Hlen). unfold add.
  destruct (Py.strip c) as [|a s] eqn:Hc; [repeat split; assumption|].
  set (dup := match Py.last_item (_entries h) with
              | Some e => String.eqb e (String a s)
              | None => false
              end).
  destruct dup eqn:Hdup; [repeat split; assumption|].
  assert (Hst' : Forall stored (_entries h ++ [String a s])).
  { apply Forall_app. split; [assumption|]. constructor; [|constructor].
    split; [discriminate|]. rewrite <- Hc. apply strip_idem. }
  assert (Hnr' : no_repeat (_entries h ++ [String a s]) = true)
    by (apply no_repeat_snoc; assumption).
  destruct (max_entries h <? Z.of_nat (List.length (_entries h ++ [String a s])))%Z
    eqn:Hover.
  - apply Z.ltb_lt in Hover.
    rewrite slice_last by assumption.
    unfold history_ok. cbn [_entries max_entries].
    split; [apply Forall_stored_skipn; assumption|].
    split; [apply no_repeat_skipn; assumption|].
    rewrite length_skipn. lia.
  - apply Z.ltb_ge in Hover. unfold history_ok. cbn [_entries max_entries].
    repeat split; assumption.
Qed.

Lemma add_max h c : max_entries (add h c) = max_entries h.
Proof.
  unfold add. destruct (Py.strip c); [reflexivity|].
  destruct (match Py.last_item (_entries h) with
            | Some e => String.eqb e _ | None => false end); [reflexivity|].
  destruct (_ <? _)%Z; reflexivity.
Qed.

Lemma add_all_ok cmds : forall h,
  (1 <= max_entries h)%Z -> history_ok h -> history_ok (add_all h cmds).
Proof.
  induction cmds as [|c cmds IH]; intros h Hmax Hok; [exact Hok|].
  apply IH; [rewrite add_max; exact Hmax | apply add_ok; assumption].
Qed.

Lemma add_all_max cmds : forall h, max_entries (add_all h cmds) = max_entries h.
Proof.
  induction cmds as [|c cmds IH]; intros h; [reflexivity|].
  change (add_all h (c :: cmds)) with (add_all (add h c) cmds).
  rewrite IH. apply add_max.
Qed.

(** A new command arriving at a full store pushes out the oldest entry. *)
Lemma add_full h c :
  (1 <= max_entries h)%Z ->
  Z.of_nat (List.length (_entries h)) = max_entries h ->
  Py.strip c <> EmptyString ->
  Py.last_item (_entries h) <> Some (Py.strip c) ->
  _entries (add h c) = skipn 1 (_entries h ++ [Py.strip c]).
Proof.
  intros Hmax Hlen Hc Hlast. unfold add.
  destruct (Py.strip c) as [|a s]; [congruence|].
  destruct (Py.last_item (_entries h)) as [e|] eqn:He.
  - destruct (String.eqb e (String a s)) eqn:Heq.
    { apply String.eqb_eq in Heq. congruence. }
    assert (Hover : (max_entries h
                     <? Z.of_nat (List.length (_entries h ++ [String a s])))%Z = true).
    { apply Z.ltb_lt. rewrite length_app. simpl. lia. }
    rewrite Hover, slice_last by (try apply Z.ltb_lt in Hover; assumption).
    cbn [_entries]. f_equal. rewrite length_app. simpl. lia.
  - assert (Hover : (max_entries h
                     <? Z.of_nat (List.length (_entries h ++ [String a s])))%Z = true).
    { apply Z.ltb_lt. rewrite length_app. simpl. lia. }
    rewrite Hover, slice_last by (try apply Z.ltb_lt in Hover; assumption).
    cbn [_entries]. f_equal. rewrite length_app. simpl. lia.
Qed.

End History.

(** C10: after any sequence of [add]s to a fresh store of capacity
    [m >= 1] (1000 by default, as [shell.py] creates it), every retained
    entry is a non-empty string with nothing to strip, no two neighbours
    are equal, and at most [m] entries are retained; [add] of a blank
    command, or of the command that is already the newest entry, changes
    nothing; and a new command arriving at a full store drops the oldest
    entry and becomes the newest. *)
Theorem history_add_invariant :
  CommandHistory.default_max_entries = 1000%Z /\
  (forall (m : Z) (cmds : list string),
      (1 <= m)%Z ->
      Forall stored (CommandHistory._entries (add_all (CommandHistory.new m) cmds)) /\
      no_repeat (CommandHistory._entries (add_all (CommandHistory.new m) cmds)) = true /\
      (Z.of_nat (List.length
                   (CommandHistory._entries (add_all (CommandHistory.new m) cmds)))
       <= m)%Z) /\
  (forall h c, Py.strip c = EmptyString -> CommandHistory.add h c = h) /\
  (forall h c,
      Py.last_item (CommandHistory._entries h) = Some (Py.strip c) ->
      CommandHistory.add h c = h) /\
  (forall h c,
      (1 <= CommandHistory.max_entries h)%Z ->
      Z.of_nat (List.length (CommandHistory._entries h)) = CommandHistory.max_entries h ->
      Py.strip c <> EmptyString ->
      Py.last_item (CommandHistory._entries h) <> Some (Py.strip c) ->
      CommandHistory._entries (CommandHistory.add h c)
      = skipn 1 (CommandHistory._entries h ++ [Py.strip c])).
Proof.
  split; [reflexivity|].
  split.
  { intros m cmds Hm.
    assert (Hok : history_ok (add_all (CommandHistory.new m) cmds)).
    { apply add_all_ok; [exact Hm|].
      repeat split; [constructor | simpl; lia]. }
    destruct Hok as (H1 & H2 & H3).
    rewrite add_all_max in H3. repeat split; assumption. }
  split; [exact add_blank|].
  split; [exact add_repeated|].
  exact add_full.
Qed.

Lemma history_add_invariant_witness :
  (1 <= 2)%Z /\
  Forall stored
    (CommandHistory._entries
       (add_all (CommandHistory.new 2) ["ls"; "ls"; "  "; " pwd "; "cd /"])) /\
  CommandHistory._entries
    (add_all (CommandHistory.new 2) ["ls"; "ls"; "  "; " pwd "; "cd /"])
  = ["pwd"; "cd /"].
Proof.
  split; [lia|]. split; [|reflexivity].
  apply (proj1 (proj2 history_add_invariant) 2%Z); lia.
Defined.

(** ** The redirect resolver *)

Section Resolver.
Import Command_Base.

Lemma parse_word args o a t rest :
  Py.elem t REDIRECT_OPERATORS = false ->
  parse_loop args o a (t :: rest) = parse_loop (args ++ [t]) o a rest.
Proof. intros H. cbn [parse_loop]. rewrite H. reflexivity. Qed.

Lemma parse_out args o a (app : bool) f rest :
  parse_loop args o a ((if app then ">>" else ">") :: f :: rest)
  = parse_loop args (Some f) app rest.
Proof. destruct app; reflexivity. Qed.

Lemma parse_out_last args o a (app : bool) :
  parse_loop args o a [if app then ">>" else ">"]
  = failure ("Оператор '" +:+ (if app then ">>" else ">") +:+ "' требует имя файла").
Proof. destruct app; reflexivity. Qed.

Lemma parse_items items : forall args o a rest,
  forallb is_word items = true ->
  parse_loop args o a (line_tokens items ++ rest)
  = parse_loop (args ++ words items)
      (fst (last_out items (o, a))) (snd (last_out items (o, a))) rest.
Proof.
  induction items as [|[w|app f] items IH]; intros args o a rest H.
  - cbn. rewrite List.app_nil_r. reflexivity.
  - cbn [forallb is_word] in H. apply andb_prop in H as [Hw H].
    apply negb_true_iff in Hw.
    change (line_tokens (Word w :: items) ++ rest)
      with (w :: (line_tokens items ++ rest)).
    rewrite parse_word, IH by assumption.
    change (words (Word w :: items)) with ([w] ++ words items).
    rewrite List.app_assoc. reflexivity.
  - cbn [forallb is_word andb] in H.
    replace (line_tokens (Out app f :: items) ++ rest)
      with ((if app then ">>" else ">") :: f :: (line_tokens items ++ rest))
      by (destruct app; reflexivity).
    rewrite parse_out, IH by assumption. reflexivity.
Qed.

Lemma last_out_app items1 items2 o :
  last_out (items1 ++ items2) o = last_out items2 (last_out items1 o).
Proof.
  revert o. induction items1 as [|[w|a f] items1 IH]; intros o; cbn; auto.
Qed.

Lemma last_out_words ws o : last_out (map Word ws) o = o.
Proof. induction ws as [|w ws IH]; cbn; auto. Qed.

End Resolver.

(** ** Every token sequence is read to its end or fails at an operator *)

Section Shape.
Import Command_Base.

Lemma resolver_operator t :
  Py.elem t REDIRECT_OPERATORS = true ->
  t = ">" \/ t = ">>" \/ t = "<" \/ t = "2>" \/ t = "&>".
Proof.
  unfold Py.elem, REDIRECT_OPERATORS. cbn [existsb].
  rewrite !orb_true_iff, !String.eqb_eq. intuition (try discriminate).
Qed.

Lemma tokens_shape n : forall tokens,
  (List.length tokens <= n)%nat ->
  (exists items, forallb is_word items = true /\ tokens = line_tokens items) \/
  (exists items op rest,
      forallb is_word items = true /\
      tokens = line_tokens items ++ op :: rest /\
      stops_at op rest = true).
Proof.
  induction n as [|n IH]; intros tokens Hlen.
  { destruct tokens; [|simpl in Hlen; lia]. left. exists []. split; reflexivity. }
  destruct tokens as [|t ts]; [left; exists []; split; reflexivity|].
  simpl in Hlen.
  destruct (Py.elem t REDIRECT_OPERATORS) eqn:Hop.
  - assert (Hout : forall (app : bool) f ts',
               ts = f :: ts' -> t = (if app then ">>" else ">") ->
               (exists items, forallb is_word items = true /\ t :: ts = line_tokens items) \/
               (exists items op rest,
                   forallb is_word items = true /\
                   t :: ts = line_tokens items ++ op :: rest /\
                   stops_at op rest = true)).
    { intros app f ts' -> ->.
      destruct (IH ts') as [(items & Hw & ->)|(items & op & rest & Hw & -> & Hs)];
        [simpl in Hlen; lia | |].
      - left. exists (Out app f :: items). split; [exact Hw|]. destruct app; reflexivity.
      - right. exists (Out app f :: items), op, rest.
        split; [exact Hw|]. split; [destruct app; reflexivity | exact Hs]. }
    destruct (resolver_operator _ Hop) as [->|[->|[->|[->| ->]]]].
    + destruct ts as [|f ts']; [|exact (Hout false f ts' eq_refl eq_refl)].
      right. exists [], ">", []. repeat split.
    + destruct ts as [|f ts']; [|exact (Hout true f ts' eq_refl eq_refl)].
      right. exists [], ">>", []. repeat split.
    + right. exists [], "<", ts. repeat split.
    + right. exists [], "2>", ts. repeat split.
    + right. exists [], "&>", ts. repeat split.
  - destruct (IH ts) as [(items & Hw & ->)|(items & op & rest & Hw & -> & Hs)];
      [lia | |].
    + left. exists (Word t :: items). split; [|reflexivity].
      cbn [forallb is_word]. rewrite Hop, Hw. reflexivity.
    + right. exists (Word t :: items), op, rest. split; [|split; [reflexivity|exact Hs]].
      cbn [forallb is_word]. rewrite Hop, Hw. reflexivity.
Qed.

(** At an operator where the scan stops, the resolver fails with the
    message of that operator. *)
Lemma parse_stop args o a op rest :
  stops_at op rest = true ->
  parse_loop args o a (op :: rest) = failure (stop_message op).
Proof.
  unfold stops_at. rewrite !orb_true_iff, andb_true_iff, orb_true_iff, !String.eqb_eq.
  intros [[[[[-> | ->] Hr] | ->] | ->] | ->]; try reflexivity;
    destruct rest; try discriminate; reflexivity.
Qed.

Lemma parse_stops items op rest :
  forallb is_word items = true ->
  stops_at op rest = true ->
  _parse_redirects (line_tokens items ++ op :: rest) = failure (stop_message op).
Proof.
  intros Hw Hs. unfold _parse_redirects. rewrite parse_items by assumption.
  apply parse_stop. exact Hs.
Qed.

Lemma parse_reads items :
  forallb is_word items = true ->
  _parse_redirects (line_tokens items)
  = (words items, fst (last_out items (None, false)), None,
     snd (last_out items (None, false))).
Proof.
  intros H. unfold _parse_redirects.
  rewrite <- (List.app_nil_r (line_tokens items)).
  rewrite parse_items by assumption. reflexivity.
Qed.

End Shape.

Section Dispatcher.
Import Command_Base.
Variable E : Env.

(** What [execute] does with a failure of the resolver: the check meant
    to return it asks for an empty list, which a failure never is, so the
    pair [["error", message]] is dispatched as the command [error] with
    the message as its argument. *)
Lemma execute_failure tokens message history current_directory w :
  tokens <> [] ->
  _parse_redirects tokens = failure message ->
  execute E tokens history current_directory w
  = executeExternalCommand E "error" [message] current_directory w.
Proof.
  intros Hne Hp. unfold execute. destruct tokens as [|t tokens]; [congruence|].
  rewrite Hp. unfold failure.
  change (Py.lower "error") with "error".
  change (dispatch E "error" [message] history current_directory)
    with (let* result := executeExternalCommand E "error" [message] current_directory
          in ret (Result_ result)).
  unfold bind. destruct (executeExternalCommand _ _ _ _ _) as [[r|e] w']; reflexivity.
Qed.

(** The resolver never returns an empty args list without a target for
    a non-empty token list. *)
Lemma parse_not_empty tokens :
  tokens <> [] ->
  fst (fst (fst (_parse_redirects tokens))) <> [] \/
  snd (fst (fst (_parse_redirects tokens))) <> None.
Proof.
  intros Hne.
  destruct (tokens_shape (List.length tokens) tokens (le_n _))
    as [(items & Hw & ->)|(items & op & rest & Hw & -> & Hs)].
  - rewrite parse_reads by assumption. cbn [fst snd].
    clear Hw. assert (H : forall o, o <> None \/ words items <> [] \/
                         line_tokens items = [] \/
                         fst (last_out items (o, false)) <> None) by
      (intros o; destruct items as [|[w|a f] items];
         [right; right; left; reflexivity | right; left; discriminate | ];
       right; right; right;
       assert (G : forall its o' a', fst (last_out its (Some o', a')) <> None)
         by (induction its as [|[w|a2 f2] its IH]; intros o' a'; cbn;
             [discriminate | apply IH | apply IH]);
       apply G).
    destruct (H None) as [H1|[H1|[H1|H1]]]; [congruence | left; exact H1 | congruence | right; exact H1].
  - rewrite parse_stops by assumption. left. discriminate.
Qed.

Lemma no_index_ret {A} (a : A) : no_index (ret a).
Proof. intros w. discriminate. Qed.

Lemma no_index_lift {A} (f : World -> A * World) : no_index (lift f).
Proof. intros w. unfold lift. destruct (f w). discriminate. Qed.

Lemma no_index_bind {A B} (m : M A) (k : A -> M B) :
  no_index m -> (forall a, no_index (k a)) -> no_index (bind m k).
Proof.
  intros Hm Hk w. unfold bind. specialize (Hm w).
  destruct (m w) as [[a|e] w']; [apply Hk|].
  cbn [fst] in *. intros H. apply Hm. inversion H. reflexivity.
Qed.

Lemma no_index_external command args current_directory :
  no_index (executeExternalCommand E command args current_directory).
Proof.
  intros w. unfold executeExternalCommand, run.
  destruct (which E command w); [|discriminate].
  destruct (needsDirectTerminal command args).
  - destruct (subprocess_run E _ w) as [[rc out err|e| |e] w'];
      try discriminate. destruct (rc =? 0)%Z; discriminate.
  - destruct (subprocess_run E _ w) as [[rc out err|e| |e] w'];
      try discriminate. destruct (negb (rc =? 0)%Z); discriminate.
Qed.

Lemma no_index_dispatch command args history current_directory :
  no_index (dispatch E command args history current_directory).
Proof.
  unfold dispatch.
  destruct (_command_map command);
    [apply no_index_bind; [apply no_index_lift | intros; apply no_index_ret]|].
  destruct (String.eqb command "history").
  { destruct history; [|apply no_index_ret].
    destruct args; [apply no_index_ret|].
    destruct (Py.int _); apply no_index_ret. }
  destruct (Py.elem command _clear_aliases).
  { apply no_index_bind; [intros w; discriminate | intros; apply no_index_ret]. }
  destruct (String.eqb command "echo"); [apply no_index_ret|].
  destruct (String.eqb command "help").
  { destruct args;
      (apply no_index_bind; [apply no_index_lift | intros; apply no_index_ret]). }
  destruct (negb (isBuiltinCommand command)); [|apply no_index_ret].
  apply no_index_bind; [apply no_index_external | intros; apply no_index_ret].
Qed.

(** So the lookup [args_before_redirect[0]] on an empty list is never
    reached: [execute] raises no [IndexError]. *)
Lemma execute_no_index_error tokens history current_directory :
  no_index (execute E tokens history current_directory).
Proof.
  unfold execute. destruct tokens as [|t ts]; [apply no_index_ret|].
  pose proof (parse_not_empty (t :: ts) ltac:(discriminate)) as Hp.
  destruct (_parse_redirects (t :: ts)) as [[[args o] inp] a]. cbn [fst snd] in Hp.
  destruct args as [|command args].
  - destruct o as [f|]; [apply no_index_ret|]. destruct Hp; congruence.
  - apply no_index_bind; [apply no_index_dispatch|].
    intros [r|result]; [apply no_index_ret|].
    destruct o as [[|c f]|]; try apply no_index_ret.
    intros w. unfold redirect. destruct (write_file _ _ _ _ _) as [[e|u] w2];
      [discriminate|]. destruct result; discriminate.
Qed.

End Dispatcher.

(** ** Claims about the resolver and the dispatcher *)

(** C2 (the code at the failing input [cat f <]): the resolver, reaching
    [<], [2>] or [&>], fails at once with a message that names the
    operator and says that it is not implemented; the tokenizer reads
    [cat f <] as [cat], [f], [<]; but [execute] does not return that
    failure: it runs the external command [error] with the message as
    its argument, so on a search path without such a program the line
    is answered ["Команда 'error' не найдена в системном PATH"]. *)
Theorem unimplemented_operator_message_is_lost :
  (forall args o a rest,
      Command_Base.parse_loop args o a ("<" :: rest)
      = Command_Base.failure "Перенаправление ввода '<' пока не реализовано") /\
  (forall args o a rest,
      Command_Base.parse_loop args o a ("2>" :: rest)
      = Command_Base.failure "Перенаправление stderr '2>' пока не реализовано") /\
  (forall args o a rest,
      Command_Base.parse_loop args o a ("&>" :: rest)
      = Command_Base.failure
          "Перенаправление stdout и stderr '&>' пока не реализовано") /\
  ShellParser.tokenize "cat f <" = Some ["cat"; "f"; "<"] /\
  (forall E history current_directory w,
      Command_Base.execute E ["cat"; "f"; "<"] history current_directory w
      = executeExternalCommand E "error"
          ["Перенаправление ввода '<' пока не реализовано"] current_directory w) /\
  turn (sample_env [] Interrupted) "cat f <" (CommandHistory.new 1000) world0
  = (Shown (Error "Команда 'error' не найдена в системном PATH"),
     CommandHistory.mk 1000 ["cat f <"], world0).
Proof.
  repeat split; try reflexivity.
  intros E history current_directory w.
  apply execute_failure; [discriminate | reflexivity].
Qed.

(** C3 (the code at the failing input [echo hi >]): the resolver,
    reaching [>] or [>>] as the last token, fails with the message that
    the operator needs a filename, and otherwise takes the next token as
    the output target, with the append flag of the operator, without
    adding it to the args; but [execute] does not return that failure: it
    runs the external command [error] with the message as its argument.
    On a search path without such a program the line is answered by the
    not-found error of that command; on a search path with a program
    [error] that exits with status 0 the program is spawned and the line
    is answered with a success. *)
Theorem missing_filename_message_is_lost :
  (forall args o a,
      Command_Base.parse_loop args o a [">"]
      = Command_Base.failure "Оператор '>' требует имя файла") /\
  (forall args o a,
      Command_Base.parse_loop args o a [">>"]
      = Command_Base.failure "Оператор '>>' требует имя файла") /\
  (forall args o a f rest,
      Command_Base.parse_loop args o a (">" :: f :: rest)
      = Command_Base.parse_loop args (Some f) false rest) /\
  (forall args o a f rest,
      Command_Base.parse_loop args o a (">>" :: f :: rest)
      = Command_Base.parse_loop args (Some f) true rest) /\
  ShellParser.tokenize "echo hi >" = Some ["echo"; "hi"; ">"] /\
  (forall E history current_directory w,
      Command_Base.execute E ["echo"; "hi"; ">"] history current_directory w
      = executeExternalCommand E "error"
          ["Оператор '>' требует имя файла"] current_directory w) /\
  turn (sample_env [] Interrupted) "echo hi >" (CommandHistory.new 1000) world0
  = (Shown (Error "Команда 'error' не найдена в системном PATH"),
     CommandHistory.mk 1000 ["echo hi >"], world0) /\
  turn (sample_env ["error"] (Completed 0 EmptyString EmptyString))
       "echo hi >" (CommandHistory.new 1000) world0
  = (Shown (Success EmptyString),
     CommandHistory.mk 1000 ["echo hi >"],
     mkWorld ∅ (Some (mkDU "/home/user"))
       [mkSpawn ["error"; "Оператор '>' требует имя файла"] "/home/user"
          true (Some 30%Z)] 0).
Proof.
  repeat split; try reflexivity.
  intros E history current_directory w.
  apply execute_failure; [discriminate | reflexivity].
Qed.

(** C5: a token sequence made of words and of output operators, each
    with its filename, resolves without an error to its words, in order,
    and to the target and the append flag of the last output operator
    alone, however many output operators came before it.  Every token
    sequence is such a sequence, or is one followed by an operator at
    which the scan stops (an output operator with nothing after it, or
    [<], [2>], [&>]), and then the failure is the one of that operator:
    no failure comes from a repeated output operator. *)
Theorem last_output_redirect_wins :
  (forall items,
      forallb is_word items = true ->
      Command_Base._parse_redirects (line_tokens items)
      = (words items, fst (last_out items (None, false)), None,
         snd (last_out items (None, false)))) /\
  (forall tokens,
      (exists items,
          forallb is_word items = true /\ tokens = line_tokens items) \/
      (exists items op rest,
          forallb is_word items = true /\
          tokens = line_tokens items ++ op :: rest /\
          stops_at op rest = true /\
          Command_Base._parse_redirects tokens
          = Command_Base.failure (stop_message op))) /\
  (forall items a f ws o,
      last_out (items ++ Out a f :: map Word ws) o = (Some f, a)) /\
  Command_Base._parse_redirects ["echo"; "a"; ">"; "x"; ">>"; "y"; "b"]
  = (["echo"; "a"; "b"], Some "y", None, true) /\
  Command_Base._parse_redirects ["echo"; ">>"; "x"; ">"; "y"]
  = (["echo"], Some "y", None, false).
Proof.
  split; [exact parse_reads|].
  split.
  { intros tokens.
    destruct (tokens_shape (List.length tokens) tokens (le_n _))
      as [(items & Hw & ->)|(items & op & rest & Hw & -> & Hs)].
    - left. exists items. split; [exact Hw | reflexivity].
    - right. exists items, op, rest.
      repeat split; try assumption. apply parse_stops; assumption. }
  split.
  { intros items a f ws o. rewrite last_out_app. cbn [last_out].
    apply last_out_words. }
  split; reflexivity.
Qed.

Lemma last_output_redirect_wins_witness :
  Command_Base._parse_redirects
    (line_tokens [Word "echo"; Out false "x"; Word "a"; Out true "y"; Out false "z"])
  = (["echo"; "a"], Some "z", None, false).
Proof.
  apply (proj1 last_output_redirect_wins
           [Word "echo"; Out false "x"; Word "a"; Out true "y"; Out false "z"]).
  reflexivity.
Defined.




(** ** The [history] command *)

Section HistoryCommand.
Import CommandHistory.

(** [entries[-k:]] for [k >= 1] keeps the last [k] entries, all of them
    when there are fewer. *)
Lemma slice_last_k (l : list string) (k : Z) :
  (1 <= k)%Z -> Py.slice_from (- k) l = skipn (List.length l - Z.to_nat k) l.
Proof.
  intros H. unfold Py.slice_from.
  replace (- k <? 0)%Z with true by (symmetry; apply Z.ltb_lt; lia).
  f_equal. lia.
Qed.

Lemma lines_skipn n : forall l idx,
  lines (idx + Z.of_nat n) (skipn n l) = skipn n (lines idx l).
Proof.
  induction n as [|n IH]; intros l idx.
  - change (Z.of_nat 0) with 0%Z. rewrite Z.add_0_r. reflexivity.
  - destruct l as [|e l]; [reflexivity|].
    cbn [skipn lines]. rewrite <- IH.
    replace (idx + Z.of_nat (S n))%Z with (idx + 1 + Z.of_nat n)%Z by lia.
    reflexivity.
Qed.

Lemma lines_nth l : forall idx j e,
  nth_error l j = Some e ->
  nth_error (lines idx l) j
  = Some (Py.str_of_Z (idx + Z.of_nat j) +:+ ". " +:+ e).
Proof.
  induction l as [|a l IH]; intros idx j e H; [destruct j; discriminate|].
  destruct j as [|j].
  - simpl in *. inversion H; subst. do 3 f_equal. lia.
  - cbn [nth_error lines] in *. rewrite (IH _ _ _ H). do 3 f_equal. lia.
Qed.

(** With a limit [k >= 1] the rendering is the last [k] lines of the
    rendering without a limit. *)
Lemma format_limit h k :
  (1 <= k)%Z -> _entries h <> [] ->
  format h (Some k)
  = Py.join Py.nl
      (skipn (List.length (_entries h) - Z.to_nat k) (lines 1 (_entries h))).
Proof.
  intros Hk Hne. unfold format. destruct (_entries h) as [|e l] eqn:He; [congruence|].
  rewrite slice_last_k by assumption.
  set (n := (List.length (e :: l) - Z.to_nat k)%nat).
  rewrite <- lines_skipn. do 2 f_equal.
  rewrite length_skipn. subst n. lia.
Qed.

End HistoryCommand.

(** C7, as the claim states it, fails at the limit [0]: [0] is numeric,
    and [history 0] over the entries [a], [b] renders one entry, the
    last, where the last 0 entries are none. *)
Lemma history_limit_zero_shows_one :
  Py.int "0" = Some 0%Z /\
  fst (Command_Base.execute (sample_env [] Interrupted) ["history"; "0"]
         (Some (CommandHistory.mk 1000 ["a"; "b"])) "/" world0)
  = Ret (Success "2. b").
Proof. split; reflexivity. Qed.

(** C7 (amended): [history] with a first argument that [int] rejects
    returns the error that the limit must be a number; with a first
    argument that [int] reads as [n] it renders with the limit
    [max(1, n)]; the rendering with a limit [k >= 1] is the last [k]
    lines of the rendering of all entries (every line, when there are at
    most [k]), and line [j] of that rendering, counted from 0, carries
    the number [j + 1].  After five entries, [history 2] renders the
    last two as [4. d] and [5. e]. *)
Theorem history_command_limit :
  (forall E a rest h current_directory,
      Py.int a = None ->
      Command_Base.dispatch E "history" (a :: rest) (Some h) current_directory
      = ret (Command_Base.Return (Error "Лимит истории должен быть числом"))) /\
  (forall E a rest h current_directory n,
      Py.int a = Some n ->
      Command_Base.dispatch E "history" (a :: rest) (Some h) current_directory
      = ret (Command_Base.Result_
               (Success (CommandHistory.format h (Some (Z.max 1 n)))))) /\
  (forall h k,
      (1 <= k)%Z -> CommandHistory._entries h <> [] ->
      CommandHistory.format h (Some k)
      = Py.join Py.nl
          (skipn (List.length (CommandHistory._entries h) - Z.to_nat k)
                 (CommandHistory.lines 1 (CommandHistory._entries h))) /\
      CommandHistory.format h None
      = Py.join Py.nl (CommandHistory.lines 1 (CommandHistory._entries h))) /\
  (forall entries j e,
      nth_error entries j = Some e ->
      nth_error (CommandHistory.lines 1 entries) j
      = Some (Py.str_of_Z (1 + Z.of_nat j) +:+ ". " +:+ e)) /\
  (forall E w,
      Command_Base.execute E ["history"; "2"]
        (Some (CommandHistory.mk 1000 ["a"; "b"; "c"; "d"; "e"])) "/" w
      = (Ret (Success ("4. d" +:+ Py.nl +:+ "5. e")), w)) /\
  (forall E w,
      Command_Base.execute E ["history"; "two"]
        (Some (CommandHistory.mk 1000 ["a"; "b"; "c"; "d"; "e"])) "/" w
      = (Ret (Error "Лимит истории должен быть числом"), w)).
Proof.
  split.
  { intros E a rest h cd H. unfold Command_Base.dispatch.
    change (Command_Base._command_map "history") with (@None Handler).
    change (String.eqb "history" "history") with true. cbv iota.
    rewrite H. reflexivity. }
  split.
  { intros E a rest h cd n H. unfold Command_Base.dispatch.
    change (Command_Base._command_map "history") with (@None Handler).
    change (String.eqb "history" "history") with true. cbv iota.
    rewrite H. reflexivity. }
  split.
  { intros h k Hk Hne. split; [apply format_limit; assumption|].
    unfold CommandHistory.format.
    destruct (CommandHistory._entries h) as [|e l] eqn:He; [congruence|].
    do 2 f_equal. lia. }
  split; [intros entries j e H; apply lines_nth; exact H|].
  split; reflexivity.
Qed.

Lemma history_command_limit_witness :
  Command_Base.dispatch (sample_env [] Interrupted) "history" ["2.5"]
    (Some (CommandHistory.new 1000)) "/"
  = ret (Command_Base.Return (Error "Лимит истории должен быть числом")).
Proof.
  apply (proj1 history_command_limit). reflexivity.
Defined.

(** ** External commands *)

Section External.
Variable E : Env.

Lemma external_not_found command args current_directory w :
  which E command w = None ->
  executeExternalCommand E command args current_directory w
  = (Ret (Error ("Команда '" +:+ command +:+ "' не найдена в системном PATH")), w).
Proof. intros H. unfold executeExternalCommand. rewrite H. reflexivity. Qed.

(** A Standard command: found on the search path and not run on the
    terminal.  Its one spawn captures the output and carries the timeout
    of 30 seconds. *)
Lemma external_standard command args current_directory w p o w1 :
  which E command w = Some p ->
  needsDirectTerminal command args = false ->
  subprocess_run E (mkSpawn (command :: args) current_directory true (Some 30%Z)) w
  = (o, w1) ->
  executeExternalCommand E command args current_directory w
  = (match o with
     | Completed returncode stdout stderr =>
         if (returncode =? 0)%Z
         then Ret (Success (Py.strip (stdout +:+ stderr)))
         else Ret (Error ("Команда завершилась с ошибкой:"
                          +:+ Py.str_of_Z returncode +:+ Py.nl
                          +:+ (stdout +:+ stderr)))
     | TimeoutExpired _ =>
         Ret (Error ("Команда '" +:+ command
                     +:+ "' превысила лимит времени  выполнении в 30 секунд"))
     | Failed e => Ret (Error ("Ошибка выполнения: " +:+ e))
     | Interrupted => Raise KeyboardInterrupt
     end,
     record_spawn (mkSpawn (command :: args) current_directory true (Some 30%Z)) w1).
Proof.
  intros Hw Hs Hr. unfold executeExternalCommand, run. rewrite Hw, Hs, Hr.
  destruct o as [rc out err| e | | e]; try reflexivity.
  assert (Hout : match err with
                 | EmptyString => out
                 | String _ _ => out +:+ err
                 end = out +:+ err)
    by (destruct err; [rewrite str_app_nil_r|]; reflexivity).
  rewrite Hout. destruct (rc =? 0)%Z; [|reflexivity].
  cbn [negb]. destruct (out +:+ err); reflexivity.
Qed.

End External.

(** The success of a Standard command carries the output stripped at
    both ends, not at its end alone. *)
Lemma external_success_strips_both_ends :
  needsDirectTerminal "prog" [] = false /\
  fst (executeExternalCommand
         (sample_env ["prog"] (Completed 0 (" x" +:+ Py.nl) EmptyString))
         "prog" [] "/" world0)
  = Ret (Success "x") /\
  Py.rstrip (" x" +:+ Py.nl) = " x".
Proof. repeat split; reflexivity. Qed.

(** The outcomes of a Standard command that the code turns into a
    result: a command that is not on the search path gets the
    not-found error and nothing is spawned.  A Standard command, found on
    the search path, is spawned once with its output captured and a
    timeout of 30 seconds: on exit status 0 the answer is a success with
    the captured standard output followed by the captured standard error,
    whitespace stripped at both ends; on another status, an error with
    the status and that output; on expiry of the timeout, an error that
    names the command and the 30 seconds; on any other exception of the
    spawn, an error with its text. *)
Theorem external_standard_outcomes :
  (forall E command args current_directory w,
      which E command w = None ->
      executeExternalCommand E command args current_directory w
      = (Ret (Error ("Команда '" +:+ command +:+ "' не найдена в системном PATH")), w)) /\
  (forall E command args current_directory w p w1 returncode stdout stderr,
      which E command w = Some p ->
      needsDirectTerminal command args = false ->
      subprocess_run E (mkSpawn (command :: args) current_directory true (Some 30%Z)) w
      = (Completed returncode stdout stderr, w1) ->
      executeExternalCommand E command args current_directory w
      = (if (returncode =? 0)%Z
         then Ret (Success (Py.strip (stdout +:+ stderr)))
         else Ret (Error ("Команда завершилась с ошибкой:"
                          +:+ Py.str_of_Z returncode +:+ Py.nl
                          +:+ (stdout +:+ stderr))),
         record_spawn
           (mkSpawn (command :: args) current_directory true (Some 30%Z)) w1)) /\
  (forall E command args current_directory w p w1 e,
      which E command w = Some p ->
      needsDirectTerminal command args = false ->
      subprocess_run E (mkSpawn (command :: args) current_directory true (Some 30%Z)) w
      = (TimeoutExpired e, w1) ->
      executeExternalCommand E command args current_directory w
      = (Ret (Error ("Команда '" +:+ command
                     +:+ "' превысила лимит времени  выполнении в 30 секунд")),
         record_spawn
           (mkSpawn (command :: args) current_directory true (Some 30%Z)) w1)) /\
  (forall E command args current_directory w p w1 e,
      which E command w = Some p ->
      needsDirectTerminal command args = false ->
      subprocess_run E (mkSpawn (command :: args) current_directory true (Some 30%Z)) w
      = (Failed e, w1) ->
      executeExternalCommand E command args current_directory w
      = (Ret (Error ("Ошибка выполнения: " +:+ e)),
         record_spawn
           (mkSpawn (command :: args) current_directory true (Some 30%Z)) w1)).
Proof.
  split; [exact external_not_found|].
  split.
  { intros E command args cd w p w1 rc out err Hw Hs Hr.
    rewrite (external_standard _ _ _ _ _ _ _ _ Hw Hs Hr).
    destruct (rc =? 0)%Z; reflexivity. }
  split.
  { intros E command args cd w p w1 e Hw Hs Hr.
    exact (external_standard _ _ _ _ _ _ _ _ Hw Hs Hr). }
  intros E command args cd w p w1 e Hw Hs Hr.
  exact (external_standard _ _ _ _ _ _ _ _ Hw Hs Hr).
Qed.

Lemma external_standard_outcomes_witness :
  executeExternalCommand
    (sample_env ["make"] (Completed 2 "out " "err")) "make" ["all"] "/src" world0
  = (Ret (Error ("Команда завершилась с ошибкой:2" +:+ Py.nl +:+ "out err")),
     record_spawn (mkSpawn ["make"; "all"] "/src" true (Some 30%Z)) world0).
Proof.
  apply (proj1 (proj2 external_standard_outcomes)
           (sample_env ["make"] (Completed 2 "out " "err")) "make" ["all"] "/src"
           world0 "/usr/bin/make" world0 2%Z "out " "err");
    reflexivity.
Defined.

(** C6 (the code at the failing input, a Standard command that the user
    interrupts): the Standard branch catches [subprocess.TimeoutExpired]
    and [Exception], and [KeyboardInterrupt] is neither, so the interrupt
    is no result: it leaves [executeExternalCommand] and [execute] as an
    exception, once the spawn is made, and in the loop of [Main.run] it
    ends the session.  The terminal branch, for the same interrupt,
    answers with the error that the user stopped the command. *)
Theorem standard_interrupt_is_not_caught :
  (forall E command args current_directory w p w1,
      which E command w = Some p ->
      needsDirectTerminal command args = false ->
      subprocess_run E (mkSpawn (command :: args) current_directory true (Some 30%Z)) w
      = (Interrupted, w1) ->
      executeExternalCommand E command args current_directory w
      = (Raise KeyboardInterrupt,
         record_spawn
           (mkSpawn (command :: args) current_directory true (Some 30%Z)) w1)) /\
  (forall E command args current_directory w p w1,
      which E command w = Some p ->
      needsDirectTerminal command args = true ->
      subprocess_run E (mkSpawn (command :: args) current_directory false None) w
      = (Interrupted, w1) ->
      executeExternalCommand E command args current_directory w
      = (Ret (Error "Пользователь прервал выполнение комнды или программы"),
         record_spawn (mkSpawn (command :: args) current_directory false None) w1)) /\
  needsDirectTerminal "make" ["all"] = false /\
  ShellParser.tokenize "make all" = Some ["make"; "all"] /\
  Command_Base.execute (sample_env ["make"] Interrupted) ["make"; "all"]
    (Some (CommandHistory.mk 1000 ["make all"])) "/home/user" world0
  = (Raise KeyboardInterrupt,
     record_spawn (mkSpawn ["make"; "all"] "/home/user" true (Some 30%Z)) world0) /\
  turn (sample_env ["make"] Interrupted) "make all" (CommandHistory.new 1000) world0
  = (Exit, CommandHistory.mk 1000 ["make all"],
     record_spawn (mkSpawn ["make"; "all"] "/home/user" true (Some 30%Z)) world0).
Proof.
  split.
  { intros E command args cd w p w1 Hw Hs Hr.
    exact (external_standard E command args cd w p Interrupted w1 Hw Hs Hr). }
  split.
  { intros E command args cd w p w1 Hw Hs Hr.
    unfold executeExternalCommand, run. rewrite Hw, Hs, Hr. reflexivity. }
  repeat split; reflexivity.
Qed.

(** ** Output redirection *)

Section Redirection.
Import Command_Base.
Variable E : Env.

Lemma execute_echo_redirect (app : bool) text c f history current_directory w :
  io_error E (target_path E w (String c f)) w = None ->
  Py.elem text REDIRECT_OPERATORS = false ->
  execute E ["echo"; text; if app then ">>" else ">"; String c f]
    history current_directory w
  = (Ret (Success ("Вывод команды 'echo' перенаправлен в "
                   +:+ target_path E w (String c f))),
     set_file (target_path E w (String c f))
       ((if app then default EmptyString (files w !! target_path E w (String c f))
         else EmptyString) +:+ text) w).
Proof.
  intros Hio Ht. unfold execute, _parse_redirects.
  change (Py.elem "echo" REDIRECT_OPERATORS) with false in *.
  rewrite (parse_word [] None false "echo") by reflexivity.
  rewrite parse_word by exact Ht.
  rewrite parse_out. cbn [parse_loop List.app].
  change (Py.lower "echo") with "echo".
  change (dispatch E "echo" [text] history current_directory)
    with (ret (Result_ (Success (Py.join " " [text])))).
  unfold bind, ret, redirect, write_file. fold (target_path E w (String c f)).
  rewrite Hio. reflexivity.
Qed.

End Redirection.

Section RedirectionFacts.

Lemma set_file_read path text w : files (set_file path text w) !! path = Some text.
Proof. unfold set_file. cbn [files]. apply lookup_insert_eq. Qed.

Lemma set_file_other path text w other :
  other <> path -> files (set_file path text w) !! other = files w !! other.
Proof. intros H. unfold set_file. cbn [files]. apply lookup_insert_ne. congruence. Qed.

Lemma set_file_twice path text1 text2 w :
  set_file path text2 (set_file path text1 w) = set_file path text2 w.
Proof. unfold set_file. cbn [files dir_utility spawned clears]. f_equal. apply insert_insert_eq. Qed.

Lemma target_path_set_file E path text w output_file :
  target_path E (set_file path text w) output_file = target_path E w output_file.
Proof. reflexivity. Qed.

End RedirectionFacts.

(** C4: wherever [out.txt] resolves to and whatever that file held, if
    it can be opened for writing then [echo hi > out.txt] returns the
    success that says the output of [echo] went to that path, in place of
    the payload, and leaves the file holding exactly [hi] and every other
    file as it was; and [echo a >> out.txt] followed by
    [echo b >> out.txt] leaves the file holding what it held before
    followed by exactly [ab]: [ab] alone when it was absent or empty. *)
Theorem echo_redirect_writes_payload :
  ShellParser.tokenize "echo hi > out.txt" = Some ["echo"; "hi"; ">"; "out.txt"] /\
  ShellParser.tokenize "echo a >> out.txt" = Some ["echo"; "a"; ">>"; "out.txt"] /\
  (forall E history current_directory w,
      io_error E (target_path E w "out.txt") w = None ->
      Command_Base.execute E ["echo"; "hi"; ">"; "out.txt"] history current_directory w
      = (Ret (Success ("Вывод команды 'echo' перенаправлен в "
                       +:+ target_path E w "out.txt")),
         set_file (target_path E w "out.txt") "hi" w)) /\
  (forall path text w,
      files (set_file path text w) !! path = Some text /\
      forall other, other <> path ->
                    files (set_file path text w) !! other = files w !! other) /\
  (forall E history current_directory w,
      (forall w', io_error E (target_path E w "out.txt") w' = None) ->
      snd (Command_Base.execute E ["echo"; "b"; ">>"; "out.txt"] history current_directory
             (snd (Command_Base.execute E ["echo"; "a"; ">>"; "out.txt"]
                     history current_directory w)))
      = set_file (target_path E w "out.txt")
          (default EmptyString (files w !! target_path E w "out.txt") +:+ "ab") w) /\
  files (snd (Command_Base.execute (sample_env [] Interrupted)
                ["echo"; "b"; ">>"; "out.txt"] None "/home/user"
                (snd (Command_Base.execute (sample_env [] Interrupted)
                        ["echo"; "a"; ">>"; "out.txt"] None "/home/user" world0))))
    !! "/home/user/out.txt" = Some "ab".
Proof.
  split; [reflexivity|]. split; [reflexivity|].
  split.
  { intros E history cd w Hio.
    exact (execute_echo_redirect E false "hi" "o" "ut.txt" history cd w Hio eq_refl). }
  split.
  { intros path text w. split; [apply set_file_read|].
    intros other H. apply set_file_other. exact H. }
  split.
  { intros E history cd w Hio.
    rewrite (execute_echo_redirect E true "a" "o" "ut.txt" history cd w (Hio w) eq_refl).
    cbn [snd].
    set (w1 := set_file (target_path E w "out.txt") _ w).
    rewrite (execute_echo_redirect E true "b" "o" "ut.txt" history cd w1 (Hio w1) eq_refl).
    cbn [snd]. subst w1. rewrite target_path_set_file, set_file_read. cbn [default].
    rewrite set_file_twice. unfold id. rewrite str_app_assoc. reflexivity. }
  reflexivity.
Qed.

Lemma echo_redirect_writes_payload_witness :
  Command_Base.execute (sample_env [] Interrupted) ["echo"; "hi"; ">"; "out.txt"]
    None "/home/user" (set_file "/home/user/out.txt" "old text" world0)
  = (Ret (Success "Вывод команды 'echo' перенаправлен в /home/user/out.txt"),
     set_file "/home/user/out.txt" "hi"
       (set_file "/home/user/out.txt" "old text" world0)).
Proof.
  apply (proj1 (proj2 (proj2 echo_redirect_writes_payload))
           (sample_env [] Interrupted) None "/home/user"
           (set_file "/home/user/out.txt" "old text" world0)).
  reflexivity.
Defined.

(** * More of the code *)

(** ** Lower case *)

Section Lower.

Lemma lower_char_idem c : Py.lower_char (Py.lower_char c) = Py.lower_char c.
Proof. destruct c as [[] [] [] [] [] [] [] []]; reflexivity. Qed.

Lemma lower_idem s : Py.lower (Py.lower s) = Py.lower s.
Proof.
  induction s as [|c s IH]; [reflexivity|].
  cbn [Py.lower]. rewrite lower_char_idem, IH. reflexivity.
Qed.

Lemma elem_In x l : Py.elem x l = true <-> In x l.
Proof.
  unfold Py.elem. rewrite existsb_exists. split.
  - intros (y & Hy & Heq). apply String.eqb_eq in Heq. subst. exact Hy.
  - intros H. exists x. split; [exact H | apply String.eqb_refl].
Qed.

Lemma elem_subset l1 l2 x :
  forallb (fun s => Py.elem s l2) l1 = true ->
  Py.elem x l1 = true -> Py.elem x l2 = true.
Proof.
  intros Hsub Hx. rewrite forallb_forall in Hsub.
  apply Hsub. apply elem_In. exact Hx.
Qed.

End Lower.

(** ** Classes of external commands *)

(** X1: whether an external command runs on the terminal depends on its
    name alone, lower-cased: every streaming name is an interactive name
    too, so the streaming test, with its look at the [-f] flag, adds
    nothing to the interactive test. *)
Theorem terminal_class_ignores_arguments :
  (forall command args,
      needsDirectTerminal command args = isInteractiveCommand command) /\
  (forall command args,
      isStreamingCommand command args
      = Py.elem (Py.lower command) streamingCommands) /\
  (forall command args,
      needsDirectTerminal (Py.lower command) args
      = needsDirectTerminal command args).
Proof.
  assert (Hsub : forall x, Py.elem x streamingCommands = true ->
                           Py.elem x interactiveCommands = true)
    by (intros x; apply elem_subset; reflexivity).
  assert (Hstream : forall command args,
             isStreamingCommand command args
             = Py.elem (Py.lower command) streamingCommands).
  { intros command args. unfold isStreamingCommand.
    destruct (Py.elem (Py.lower command) streamingCommands) eqn:Hs; [reflexivity|].
    destruct (String.eqb (Py.lower command) "tail") eqn:Ht.
    { apply String.eqb_eq in Ht. rewrite Ht in Hs. discriminate Hs. }
    destruct (String.eqb (Py.lower command) "journalctl") eqn:Hj.
    { apply String.eqb_eq in Hj. rewrite Hj in Hs. discriminate Hs. }
    reflexivity. }
  assert (Hneeds : forall command args,
             needsDirectTerminal command args = isInteractiveCommand command).
  { intros command args. unfold needsDirectTerminal. rewrite Hstream.
    unfold isInteractiveCommand.
    destruct (Py.elem (Py.lower command) interactiveCommands) eqn:Hi; [reflexivity|].
    destruct (Py.elem (Py.lower command) streamingCommands) eqn:Hs; [|reflexivity].
    rewrite (Hsub _ Hs) in Hi. discriminate Hi. }
  split; [exact Hneeds|]. split; [exact Hstream|].
  intros command args. rewrite !Hneeds. unfold isInteractiveCommand.
  rewrite lower_idem. reflexivity.
Qed.

(** ** External commands on the terminal *)

Section Terminal.
Variable E : Env.

Lemma external_terminal command args current_directory w p o w1 :
  which E command w = Some p ->
  needsDirectTerminal command args = true ->
  subprocess_run E (mkSpawn (command :: args) current_directory false None) w
  = (o, w1) ->
  executeExternalCommand E command args current_directory w
  = (Ret (match o with
          | Completed returncode _ _ =>
              if (returncode =? 0)%Z then Success EmptyString
              else Error ("Команда завершилась ошибкой: "
                          +:+ Py.str_of_Z returncode)
          | Interrupted =>
              Error "Пользователь прервал выполнение комнды или программы"
          | TimeoutExpired e | Failed e =>
              Error ("Непредвиденная ошибка при выполнении: " +:+ e)
          end),
     record_spawn (mkSpawn (command :: args) current_directory false None) w1).
Proof.
  intros Hw Hs Hr. unfold executeExternalCommand, run. rewrite Hw, Hs, Hr.
  destruct o as [rc out err| e | | e]; try reflexivity.
  destruct (rc =? 0)%Z; reflexivity.
Qed.

(** How [executeExternalCommand] can end. *)
Lemma external_ends command args current_directory w :
  (exists r, fst (executeExternalCommand E command args current_directory w) = Ret r) \/
  (fst (executeExternalCommand E command args current_directory w)
   = Raise KeyboardInterrupt /\
   needsDirectTerminal command args = false /\
   fst (subprocess_run E
          (mkSpawn (command :: args) current_directory true (Some 30%Z)) w)
   = Interrupted).
Proof.
  unfold executeExternalCommand, run.
  destruct (which E command w); [|left; eexists; reflexivity].
  destruct (needsDirectTerminal command args).
  - left. destruct (subprocess_run E _ w) as [[rc out err|e| |e] w'];
      try (eexists; reflexivity).
    destruct (rc =? 0)%Z; eexists; reflexivity.
  - destruct (subprocess_run E _ w) as [[rc out err|e| |e] w'];
      try (left; eexists; reflexivity).
    + left. destruct (negb (rc =? 0)%Z); eexists; reflexivity.
    + right. repeat split.
Qed.

End Terminal.

(** X2: a command of the terminal class that is found on the search
    path is spawned once, with no capture of its output and no timeout,
    and always answers with a result: a success with an empty payload on
    exit status 0, an error with the status on another status, the
    cancellation error when the user interrupts it, and an error with the
    text of any other exception. *)
Theorem external_terminal_outcomes :
  forall E command args current_directory w p o w1,
    which E command w = Some p ->
    needsDirectTerminal command args = true ->
    subprocess_run E (mkSpawn (command :: args) current_directory false None) w
    = (o, w1) ->
    executeExternalCommand E command args current_directory w
    = (Ret (match o with
            | Completed returncode _ _ =>
                if (returncode =? 0)%Z then Success EmptyString
                else Error ("Команда завершилась ошибкой: "
                            +:+ Py.str_of_Z returncode)
            | Interrupted =>
                Error "Пользователь прервал выполнение комнды или программы"
            | TimeoutExpired e | Failed e =>
                Error ("Непредвиденная ошибка при выполнении: " +:+ e)
            end),
       record_spawn (mkSpawn (command :: args) current_directory false None) w1).
Proof. exact external_terminal. Qed.

Lemma external_terminal_outcomes_witness :
  executeExternalCommand (sample_env ["vim"] Interrupted) "vim" ["notes.txt"] "/home/user" world0
  = (Ret (Error "Пользователь прервал выполнение комнды или программы"),
     record_spawn (mkSpawn ["vim"; "notes.txt"] "/home/user" false None) world0).
Proof.
  apply (external_terminal_outcomes (sample_env ["vim"] Interrupted) "vim" ["notes.txt"]
           "/home/user" world0 "/usr/bin/vim" Interrupted world0); reflexivity.
Defined.

(** ** The tokens of a line *)

Section Tokens.
Import ShellParser.

Lemma operator_not_empty op :
  Py.elem op REDIRECT_OPERATORS = true -> op <> EmptyString.
Proof. intros H ->. discriminate H. Qed.

Lemma flush_not_empty toks cur :
  Forall (fun t => t <> EmptyString) toks ->
  Forall (fun t => t <> EmptyString) (flush toks cur).
Proof.
  intros H. destruct cur; [exact H|].
  apply Forall_app. split; [exact H|]. constructor; [discriminate | constructor].
Qed.

Lemma snoc_not_empty toks t :
  Forall (fun t => t <> EmptyString) toks -> t <> EmptyString ->
  Forall (fun t => t <> EmptyString) (toks ++ [t]).
Proof.
  intros H Ht. apply Forall_app. split; [exact H|].
  constructor; [exact Ht | constructor].
Qed.

Lemma step_not_empty line st st' :
  step line st = Some st' ->
  Forall (fun t => t <> EmptyString) (tokens st) ->
  Forall (fun t => t <> EmptyString) (tokens st').
Proof.
  destruct st as [toks cur sq dq esc n]. cbn [step tokens].
  destruct (String.get n line) as [c|]; [|discriminate].
  intros H Hall.
  destruct esc; [inversion H; subst; exact Hall|].
  destruct (Ascii.eqb c "\"); [inversion H; subst; exact Hall|].
  destruct (negb (sq || dq) && (n + 1 <? String.length line)%nat
            && Py.elem (substring n 2 line) REDIRECT_OPERATORS) eqn:H2.
  { inversion H; subst. cbn [tokens].
    apply andb_prop in H2 as [_ H2].
    apply snoc_not_empty;
      [apply flush_not_empty; exact Hall | apply operator_not_empty; exact H2]. }
  destruct (negb (sq || dq) && Py.elem (char_str c) REDIRECT_OPERATORS).
  { inversion H; subst. cbn [tokens].
    apply snoc_not_empty; [apply flush_not_empty; exact Hall | discriminate]. }
  destruct (Ascii.eqb c "'" && negb dq); [inversion H; subst; exact Hall|].
  destruct (Ascii.eqb c "034" && negb sq); [inversion H; subst; exact Hall|].
  destruct (Ascii.eqb c " " && negb (sq || dq)).
  { inversion H; subst. cbn [tokens]. apply flush_not_empty; exact Hall. }
  inversion H; subst. exact Hall.
Qed.

Lemma loop_not_empty fuel line : forall st st',
  loop fuel line st = Some st' ->
  Forall (fun t => t <> EmptyString) (tokens st) ->
  Forall (fun t => t <> EmptyString) (tokens st').
Proof.
  induction fuel as [|fuel IH]; intros st st' H Hall; cbn [loop] in H.
  - destruct (i st <? String.length line)%nat; [discriminate|].
    inversion H; subst. exact Hall.
  - destruct (i st <? String.length line)%nat; [|inversion H; subst; exact Hall].
    destruct (step line st) as [st1|] eqn:Hs; [|discriminate].
    apply (IH st1 st' H). exact (step_not_empty _ _ _ Hs Hall).
Qed.

End Tokens.

(** X3: no token of a line is the empty string: a pair of quotes with
    nothing between them, or a run of blanks, yields no token. *)
Theorem tokens_are_not_empty :
  forall line,
    exists toks,
      ShellParser.tokenize line = Some toks /\
      Forall (fun t => t <> EmptyString) toks.
Proof.
  intros line. unfold ShellParser.tokenize.
  destruct (ShellParser.loop (String.length line) line ShellParser.init)
    as [st|] eqn:Hl.
  - eexists. split; [reflexivity|].
    apply flush_not_empty. apply (loop_not_empty _ _ _ _ Hl). constructor.
  - pose proof (tokenize_scan line) as H. unfold ShellParser.tokenize in H.
    rewrite Hl in H. discriminate H.
Qed.

(** ** Plain words *)

Section PlainWords.
Import ShellParser.

Lemma plain_char_facts c :
  plain_char c = true ->
  Ascii.eqb c " " = false /\ Ascii.eqb c "'" = false /\
  Ascii.eqb c "034" = false /\ Ascii.eqb c "\" = false /\
  Ascii.eqb c "<" = false /\ Ascii.eqb c ">" = false.
Proof.
  unfold plain_char. rewrite !andb_true_iff, !negb_true_iff. tauto.
Qed.

Lemma no_op_before c d :
  Ascii.eqb c ">" = false -> Ascii.eqb c "<" = false -> Ascii.eqb d ">" = false ->
  Py.elem (String c (String d EmptyString)) REDIRECT_OPERATORS = false.
Proof.
  intros H1 H2 H3. unfold Py.elem, REDIRECT_OPERATORS. simpl.
  rewrite H1, H2, H3. destruct (Ascii.eqb c "2"); reflexivity.
Qed.

(** Outside quotes a plain character not followed by [>] joins the word. *)
Lemma scan_plain_char c toks cur rest :
  plain_char c = true -> no_gt_next rest = true ->
  scan toks cur false false false (String c rest)
  = scan toks (cur +:+ char_str c) false false false rest.
Proof.
  intros Hc Hn. destruct (plain_char_facts c Hc) as (Hb & Hq & Hd & Hs & Hl & Hg).
  rewrite scan_cons, Hs.
  assert (Hone : one_char toks cur false false c rest
                 = scan toks (cur +:+ char_str c) false false false rest).
  { unfold one_char. rewrite no_op_char, Hq, Hd, Hb by assumption. reflexivity. }
  destruct rest as [|d rest]; [exact Hone|].
  cbn [no_gt_next] in Hn. apply negb_true_iff in Hn.
  rewrite no_op_before by assumption. exact Hone.
Qed.

Lemma no_gt_next_app u rest :
  all_chars plain_char u = true -> no_gt_next rest = true ->
  no_gt_next (u +:+ rest) = true.
Proof.
  destruct u as [|c u]; intros Hu Hr; [exact Hr|].
  cbn [all_chars] in Hu. apply andb_prop in Hu as [Hc _].
  destruct (plain_char_facts c Hc) as (_ & _ & _ & _ & _ & Hg).
  rewrite str_app_cons. cbn [no_gt_next]. rewrite Hg. reflexivity.
Qed.

Lemma scan_plain u : forall toks cur rest,
  all_chars plain_char u = true -> no_gt_next rest = true ->
  scan toks cur false false false (u +:+ rest)
  = scan toks (cur +:+ u) false false false rest.
Proof.
  induction u as [|c u IH]; intros toks cur rest Hu Hr.
  - rewrite str_app_nil_r. reflexivity.
  - cbn [all_chars] in Hu. apply andb_prop in Hu as [Hc Hu].
    rewrite str_app_cons, scan_plain_char
      by (try assumption; apply no_gt_next_app; assumption).
    rewrite IH, str_app_snoc by assumption. reflexivity.
Qed.

Lemma plain_word_chars w :
  plain_word w = true -> w <> EmptyString /\ all_chars plain_char w = true.
Proof. destruct w; [discriminate|]. intros H. split; [discriminate | exact H]. Qed.

Lemma scan_words ws : forall toks,
  forallb plain_word ws = true ->
  scan toks EmptyString false false false (Py.join " " ws) = toks ++ ws.
Proof.
  induction ws as [|w ws IH]; intros toks H.
  - rewrite List.app_nil_r. reflexivity.
  - cbn [forallb] in H. apply andb_prop in H as [Hw Hws].
    destruct (plain_word_chars w Hw) as [Hne Hall].
    destruct ws as [|w2 ws].
    + cbn [Py.join]. rewrite <- (str_app_nil_r w) at 1.
      rewrite scan_plain by (try assumption; reflexivity).
      rewrite str_app_nil_l. destruct w; [congruence | reflexivity].
    + change (Py.join " " (w :: w2 :: ws))
        with (w +:+ String " " (Py.join " " (w2 :: ws))).
      rewrite scan_plain by (try assumption; reflexivity).
      rewrite str_app_nil_l, scan_blank, IH by assumption.
      destruct w; [congruence|]. cbn [flush]. rewrite <- List.app_assoc. reflexivity.
Qed.

(** A plain word is no operator of the resolver. *)
Lemma plain_word_is_word w :
  plain_word w = true -> Py.elem w Command_Base.REDIRECT_OPERATORS = false.
Proof.
  intros Hw. destruct (Py.elem w Command_Base.REDIRECT_OPERATORS) eqn:He; [|reflexivity].
  destruct (resolver_operator _ He) as [->|[->|[->|[->| ->]]]]; discriminate Hw.
Qed.

Lemma plain_words_items ws :
  forallb plain_word ws = true ->
  forallb is_word (map Word ws) = true /\
  line_tokens (map Word ws) = ws /\ words (map Word ws) = ws /\
  last_out (map Word ws) (None, false) = (None, false).
Proof.
  induction ws as [|w ws IH]; intros H; [repeat split|].
  cbn [forallb] in H. apply andb_prop in H as [Hw Hws].
  destruct (IH Hws) as (H1 & H2 & H3 & H4).
  repeat split.
  - cbn [map forallb is_word]. rewrite plain_word_is_word, H1 by assumption. reflexivity.
  - change (line_tokens (map Word (w :: ws))) with (w :: line_tokens (map Word ws)).
    rewrite H2. reflexivity.
  - change (words (map Word (w :: ws))) with (w :: words (map Word ws)).
    rewrite H3. reflexivity.
  - exact H4.
Qed.

End PlainWords.

(** X4: a line of plain words (no blank, quote, backslash or angle
    bracket in them) joined by single blanks tokenizes into exactly
    those words: [tokenize] undoes [" ".join]. *)
Theorem tokenize_join_round_trip :
  forall ws,
    forallb plain_word ws = true ->
    ShellParser.tokenize (Py.join " " ws) = Some ws.
Proof.
  intros ws H. rewrite tokenize_scan, scan_words by assumption. reflexivity.
Qed.

Lemma tokenize_join_round_trip_witness :
  ShellParser.tokenize (Py.join " " ["grep"; "-n"; "main()"; "src/app.py"])
  = Some ["grep"; "-n"; "main()"; "src/app.py"].
Proof. apply tokenize_join_round_trip. reflexivity. Defined.

(** X5: outside quotes a two-character operator of the tokenizer ends
    the word before it and is the next token wherever it begins, also in
    the middle of a word: in [v2>out] the [2] goes to the operator, and
    the tokens are [v], [2>], [out]. *)
Theorem two_char_operator_splits_word :
  forall op toks cur rest,
    In op [">>"; ">&"; "<&"; "<>"; "<<"; "2>"] ->
    ShellParser.scan toks cur false false false (op +:+ rest)
    = ShellParser.scan (ShellParser.flush toks cur ++ [op]) EmptyString
        false false false rest.
Proof.
  intros op toks cur rest H. cbn [In] in H.
  destruct H as [<-|[<-|[<-|[<-|[<-|[<-|[]]]]]]]; reflexivity.
Qed.

Lemma two_char_operator_splits_word_witness :
  ShellParser.scan ["echo"] "v" false false false ("2>" +:+ "out")
  = ShellParser.scan (ShellParser.flush ["echo"] "v" ++ ["2>"]) EmptyString
      false false false "out".
Proof. apply two_char_operator_splits_word. cbn [In]. auto 10. Defined.

(** ** More of the dispatcher *)

Section DispatcherMore.
Import Command_Base.
Variable E : Env.

(** A character that lower-casing leaves outside [a..z] was that
    character already. *)
Lemma lower_char_inv a :
  Py.ascii_in 97 122 (Py.lower_char a) = false -> Py.lower_char a = a.
Proof. destruct a as [[] [] [] [] [] [] [] []]; intros H; first [reflexivity | discriminate H]. Qed.

Lemma lower_inv s t :
  all_chars (fun c => negb (Py.ascii_in 97 122 c)) t = true ->
  Py.lower s = t -> s = t.
Proof.
  revert t. induction s as [|a s IH]; intros [|b t] Ht H; try discriminate; [reflexivity|].
  cbn [Py.lower] in H. inversion H; subst. cbn [all_chars] in Ht.
  apply andb_prop in Ht as [Hb Ht]. apply negb_true_iff in Hb.
  rewrite (lower_char_inv a Hb). f_equal. exact (IH _ Ht eq_refl).
Qed.

(** Lower-casing makes no operator of a word. *)
Lemma lower_not_operator c :
  Py.elem c REDIRECT_OPERATORS = false ->
  Py.elem (Py.lower c) REDIRECT_OPERATORS = false.
Proof.
  intros H. destruct (Py.elem (Py.lower c) REDIRECT_OPERATORS) eqn:Hl; [|reflexivity].
  assert (Hc : Py.lower c = c).
  { destruct (resolver_operator _ Hl) as [Ho|[Ho|[Ho|[Ho|Ho]]]];
      rewrite Ho; symmetry; apply lower_inv; solve [reflexivity | exact Ho]. }
  rewrite Hc in Hl. congruence.
Qed.

(** What the resolver makes of the tokens after the first words does
    not depend on those words. *)
Lemma parse_loop_prefix rest o a :
  (exists m, forall args, parse_loop args o a rest = failure m) \/
  (exists ws o' a', forall args, parse_loop args o a rest = (args ++ ws, o', None, a')).
Proof.
  destruct (tokens_shape (List.length rest) rest (le_n _))
    as [(items & Hw & ->)|(items & op & rest' & Hw & -> & Hs)].
  - right. exists (words items), (fst (last_out items (o, a))), (snd (last_out items (o, a))).
    intros args. rewrite <- (List.app_nil_r (line_tokens items)).
    rewrite parse_items by assumption. reflexivity.
  - left. exists (stop_message op). intros args.
    rewrite parse_items by assumption. apply parse_stop. exact Hs.
Qed.

Lemma execute_lower c rest history current_directory w :
  Py.elem c REDIRECT_OPERATORS = false ->
  execute E (c :: rest) history current_directory w
  = execute E (Py.lower c :: rest) history current_directory w.
Proof.
  intros Hc. pose proof (lower_not_operator c Hc) as Hl.
  unfold execute, _parse_redirects.
  rewrite (parse_word [] None false c rest Hc).
  rewrite (parse_word [] None false (Py.lower c) rest Hl).
  destruct (parse_loop_prefix rest None false) as [(m & Hm)|(ws & o' & a' & Hr)].
  - rewrite !Hm. reflexivity.
  - rewrite !Hr. cbn [List.app]. rewrite lower_idem. reflexivity.
Qed.

Lemma only_out_items items :
  forallb is_out items = true ->
  forallb is_word items = true /\ words items = [] /\
  (items <> [] -> exists f a, last_out items (None, false) = (Some f, a)).
Proof.
  intros H. assert (G : forall o, forallb is_word items = true /\ words items = [] /\
                       (items <> [] -> exists f a, last_out items o = (Some f, a)) /\
                       (forall f0 a0, exists f a, last_out items (Some f0, a0) = (Some f, a))).
  { induction items as [|[w|a f] items IH]; intros o.
    - repeat split; [congruence | intros f0 a0; exists f0, a0; reflexivity].
    - discriminate H.
    - cbn [forallb is_out andb] in H. destruct (IH H (Some f, a)) as (H1 & H2 & H3 & H4).
      repeat split; [exact H1 | exact H2 | |].
      + intros _. cbn [last_out]. apply H4.
      + intros f0 a0. cbn [last_out]. apply H4. }
  destruct (G (None, false)) as (H1 & H2 & H3 & _). repeat split; assumption.
Qed.

Lemma line_tokens_not_nil items : items <> [] -> line_tokens items <> [].
Proof. destruct items as [|[w|[] f] items]; [congruence| | |]; discriminate. Qed.

End DispatcherMore.

(** X6: the lookup [args_before_redirect[0]] that [execute] makes
    inside its check of the resolver's failure, under the test that the
    list is empty and there is no output file, is never reached: for a
    token list that is not empty the resolver never returns an empty
    list of args without an output file.  So no [IndexError] of that
    lookup leaves [execute]. *)
Theorem execute_index_lookup_is_unreachable :
  (forall tokens args output_file input_file append_mode,
      tokens <> [] ->
      Command_Base._parse_redirects tokens
      = (args, output_file, input_file, append_mode) ->
      args = [] ->
      exists f, output_file = Some f) /\
  (forall E tokens history current_directory,
      no_index (Command_Base.execute E tokens history current_directory)).
Proof.
  split.
  - intros tokens args o i a Hne Hp Hargs.
    destruct (parse_not_empty tokens Hne) as [H|H]; rewrite Hp in H; cbn [fst snd] in H.
    + congruence.
    + destruct o as [f|]; [exists f; reflexivity | congruence].
  - intros E tokens history cd. apply execute_no_index_error.
Qed.

Lemma execute_index_lookup_is_unreachable_witness :
  exists f, Some "out.txt" = Some f.
Proof.
  apply (proj1 execute_index_lookup_is_unreachable [">"; "out.txt"] []
           (Some "out.txt") None false); [discriminate | reflexivity | reflexivity].
Defined.

(** X7: a line that holds output redirections and no command, such as
    [> out.txt], is answered with the error that no command stands
    before the redirection, and nothing is written: the target is
    neither created nor emptied. *)
Theorem redirection_without_command :
  forall E items history current_directory w,
    items <> [] ->
    forallb is_out items = true ->
    Command_Base.execute E (line_tokens items) history current_directory w
    = (Ret (Error "Команда не указана до перенаправления"), w).
Proof.
  intros E items history cd w Hne Hout.
  destruct (only_out_items items Hout) as (Hw & Hws & Hlast).
  destruct (Hlast Hne) as (f & a & Hl).
  unfold Command_Base.execute.
  destruct (line_tokens items) as [|t ts] eqn:Ht;
    [exfalso; exact (line_tokens_not_nil items Hne Ht)|].
  rewrite <- Ht, (parse_reads items Hw), Hws, Hl. reflexivity.
Qed.

Lemma redirection_without_command_witness :
  Command_Base.execute (sample_env [] Interrupted)
    (line_tokens [Out false "out.txt"; Out true "log.txt"]) None "/home/user"
    (set_file "/home/user/out.txt" "kept" world0)
  = (Ret (Error "Команда не указана до перенаправления"),
     set_file "/home/user/out.txt" "kept" world0).
Proof.
  apply redirection_without_command; [discriminate | reflexivity].
Defined.

(** X8: the command name is read without regard to case: a token list
    and the same list with its first word lower-cased are executed alike,
    in result and in effect. *)
Theorem command_name_ignores_case :
  forall E c rest history current_directory w,
    Py.elem c Command_Base.REDIRECT_OPERATORS = false ->
    Command_Base.execute E (c :: rest) history current_directory w
    = Command_Base.execute E (Py.lower c :: rest) history current_directory w.
Proof. exact execute_lower. Qed.

Lemma command_name_ignores_case_witness :
  Command_Base.execute (sample_env [] Interrupted) ["ECHO"; "Hi"] None "/" world0
  = Command_Base.execute (sample_env [] Interrupted) [Py.lower "ECHO"; "Hi"] None "/" world0.
Proof. apply command_name_ignores_case. reflexivity. Defined.

(** ** The names the dispatcher knows *)

Section Names.
Import Command_Base.

Lemma builtin_table y :
  Py.elem y builtinCommands
  = match _command_map y with
    | Some _ => true
    | None => Py.elem y pseudo_commands
    end.
Proof.
  unfold _command_map, builtinCommands, pseudo_commands, Py.elem. cbn [existsb].
  repeat match goal with
         | |- context [String.eqb y ?k] =>
             let H := fresh "H" in
             destruct (String.eqb y k) eqn:H;
             [apply String.eqb_eq in H; subst y; reflexivity|]
         end.
  reflexivity.
Qed.

(** A lower-case name that is not builtin goes to the external command. *)
Lemma dispatch_external E y args history current_directory :
  Py.lower y = y ->
  Py.elem y builtinCommands = false ->
  dispatch E y args history current_directory
  = (let* result := executeExternalCommand E y args current_directory in
     ret (Result_ result)).
Proof.
  intros Hy Hb. pose proof (builtin_table y) as Ht. rewrite Hb in Ht.
  unfold dispatch. destruct (_command_map y); [discriminate Ht|].
  unfold pseudo_commands, Py.elem in Ht. cbn [existsb] in Ht.
  symmetry in Ht. rewrite !orb_false_iff in Ht.
  destruct Ht as (Hh & Hc & Hcl & He & Hhe & Hx & _).
  rewrite Hh. unfold _clear_aliases, Py.elem. cbn [existsb].
  rewrite Hc, Hcl, He, Hhe. cbn [orb].
  unfold isBuiltinCommand. rewrite Hy, Hb. reflexivity.
Qed.

End Names.

(** X9: a name is builtin exactly when, lower-cased, it has a handler
    in [_command_map] or is one of [history], [clear], [cls], [echo],
    [help] and [exit_de]: the two tables of names agree, and only
    [exit_de] is builtin without being served by [execute]. *)
Theorem builtin_names_are_the_served_names :
  forall command,
    isBuiltinCommand command
    = match Command_Base._command_map (Py.lower command) with
      | Some _ => true
      | None => Py.elem (Py.lower command) pseudo_commands
      end.
Proof. intros command. unfold isBuiltinCommand. apply builtin_table. Qed.

(** X10: a command that is neither builtin nor on the search path,
    given with plain arguments and an output redirection, has its
    not-found message written to the target as the whole contents, and
    the line is answered with the error that points to that file. *)
Theorem unknown_command_error_goes_to_file :
  forall E c ws f history current_directory w,
    Py.elem c Command_Base.REDIRECT_OPERATORS = false ->
    forallb plain_word ws = true ->
    f <> EmptyString ->
    isBuiltinCommand c = false ->
    which E (Py.lower c) w = None ->
    io_error E (target_path E w f) w = None ->
    Command_Base.execute E (c :: ws ++ [">"; f]) history current_directory w
    = (Ret (Error ("Ошибка команды '" +:+ Py.lower c +:+ "', подробности в "
                   +:+ target_path E w f)),
       set_file (target_path E w f)
         ("Команда '" +:+ Py.lower c +:+ "' не найдена в системном PATH") w).
Proof.
  intros E c ws f history cd w Hc Hws Hf Hb Hwhich Hio.
  destruct (plain_words_items ws Hws) as (Hw & Hlt & Hwords & Hlast).
  unfold Command_Base.execute, Command_Base._parse_redirects.
  rewrite (parse_word [] None false c _ Hc).
  replace (ws ++ [">"; f]) with (line_tokens (map Word ws) ++ [">"; f])
    by (rewrite Hlt; reflexivity).
  rewrite (parse_items (map Word ws) _ None false [">"; f] Hw), Hwords, Hlast.
  cbn [fst snd Command_Base.parse_loop Py.elem existsb String.eqb Ascii.eqb
       Bool.eqb orb Command_Base.REDIRECT_OPERATORS List.app].
  rewrite dispatch_external by (apply lower_idem || exact Hb).
  unfold bind. rewrite (external_not_found E _ _ _ _ Hwhich).
  destruct f as [|ch f]; [congruence|].
  unfold Command_Base.redirect, Command_Base.write_file, ret.
  fold (target_path E w (String ch f)). rewrite Hio. reflexivity.
Qed.

Lemma unknown_command_error_goes_to_file_witness :
  Command_Base.execute (sample_env [] Interrupted)
    ("Frobnicate" :: ["-v"; "x"] ++ [">"; "log"]) None "/home/user" world0
  = (Ret (Error "Ошибка команды 'frobnicate', подробности в /home/user/log"),
     set_file "/home/user/log"
       "Команда 'frobnicate' не найдена в системном PATH" world0).
Proof.
  apply (unknown_command_error_goes_to_file (sample_env [] Interrupted)
           "Frobnicate" ["-v"; "x"] "log" None "/home/user" world0);
    solve [reflexivity | discriminate].
Defined.

(** X11: a [history] command whose limit is not a number returns its
    error before the redirection block: whatever output redirections
    follow, nothing is written. *)
Theorem history_error_skips_redirection :
  forall E a outs h current_directory w,
    Py.elem a Command_Base.REDIRECT_OPERATORS = false ->
    Py.int a = None ->
    forallb is_out outs = true ->
    Command_Base.execute E ("history" :: a :: line_tokens outs) (Some h)
      current_directory w
    = (Ret (Error "Лимит истории должен быть числом"), w).
Proof.
  intros E a outs h cd w Ha Hint Houts.
  destruct (only_out_items outs Houts) as (Hw & Hws & _).
  unfold Command_Base.execute, Command_Base._parse_redirects.
  rewrite (parse_word [] None false "history" _ eq_refl).
  rewrite (parse_word _ None false a _ Ha).
  rewrite <- (List.app_nil_r (line_tokens outs)).
  rewrite (parse_items outs _ None false [] Hw), Hws.
  cbn [Command_Base.parse_loop List.app].
  change (Py.lower "history") with "history".
  unfold Command_Base.dispatch.
  change (Command_Base._command_map "history") with (@None Handler).
  change (String.eqb "history" "history") with true. cbv iota.
  rewrite Hint. reflexivity.
Qed.

Lemma history_error_skips_redirection_witness :
  Command_Base.execute (sample_env [] Interrupted)
    ("history" :: "ten" :: line_tokens [Out false "h.txt"])
    (Some (CommandHistory.mk 1000 ["ls"])) "/home/user"
    (set_file "/home/user/h.txt" "kept" world0)
  = (Ret (Error "Лимит истории должен быть числом"),
     set_file "/home/user/h.txt" "kept" world0).
Proof.
  apply history_error_skips_redirection; reflexivity.
Defined.

(** ** The history store as a function of the commands *)

Section HistoryMore.
Import CommandHistory.

Lemma last_item_snoc (l : list string) x : Py.last_item (l ++ [x]) = Some x.
Proof.
  induction l as [|a l IH]; [reflexivity|].
  destruct l as [|b l]; [reflexivity|]. exact IH.
Qed.

Lemma last_item_skipn n : forall l : list string,
  (n < List.length l)%nat -> Py.last_item (skipn n l) = Py.last_item l.
Proof.
  induction n as [|n IH]; intros l H; [reflexivity|].
  destruct l as [|a l]; [simpl in H; lia|].
  simpl in H. cbn [skipn]. rewrite IH by lia.
  destruct l; [simpl in H; lia | reflexivity].
Qed.

Lemma squeeze_not_nil a l : squeeze (a :: l) <> [].
Proof.
  revert a. induction l as [|b l IH]; intros a; [discriminate|].
  cbn [squeeze]. destruct (String.eqb a b); [apply IH | discriminate].
Qed.

Lemma last_item_cons a (l : list string) :
  l <> [] -> Py.last_item (a :: l) = Py.last_item l.
Proof. destruct l; [congruence | reflexivity]. Qed.

Lemma squeeze_snoc l x :
  squeeze (l ++ [x])
  = match Py.last_item (squeeze l) with
    | Some e => if String.eqb e x then squeeze l else squeeze l ++ [x]
    | None => [x]
    end.
Proof.
  induction l as [|a l IH]; [reflexivity|].
  destruct l as [|b l].
  - cbn. destruct (String.eqb a x) eqn:H; [|reflexivity].
    apply String.eqb_eq in H. subst. reflexivity.
  - change (squeeze ((a :: b :: l) ++ [x]))
      with (if String.eqb a b then squeeze ((b :: l) ++ [x])
            else a :: squeeze ((b :: l) ++ [x])).
    change (squeeze (a :: b :: l))
      with (if String.eqb a b then squeeze (b :: l) else a :: squeeze (b :: l)).
    destruct (String.eqb a b); [exact IH|].
    rewrite IH, last_item_cons by apply squeeze_not_nil.
    destruct (Py.last_item (squeeze (b :: l))) as [e|] eqn:He.
    + destruct (String.eqb e x); reflexivity.
    + exfalso. destruct (squeeze (b :: l)) as [|y s] eqn:Hs;
        [exact (squeeze_not_nil _ _ Hs)|].
      clear -He. revert y He. induction s as [|z s IHs]; intros y He;
        [discriminate | exact (IHs z He)].
Qed.

Lemma lastn_snoc m (l : list string) x :
  (1 <= m)%nat -> lastn m (lastn m l ++ [x]) = lastn m (l ++ [x]).
Proof.
  intros Hm. unfold lastn.
  rewrite !length_app, length_skipn. cbn [List.length].
  rewrite !List.skipn_app, List.skipn_skipn, length_skipn.
  f_equal; f_equal; lia.
Qed.

Lemma lastn_short m (l : list string) : (List.length l <= m)%nat -> lastn m l = l.
Proof. intros H. unfold lastn. replace (List.length l - m)%nat with 0%nat by lia. reflexivity. Qed.

Lemma last_item_lastn m (l : list string) :
  (1 <= m)%nat -> Py.last_item (lastn m l) = Py.last_item l.
Proof.
  intros Hm. destruct l as [|a l]; [reflexivity|].
  unfold lastn. apply last_item_skipn. simpl. lia.
Qed.

Lemma storable_snoc cmds c :
  storable (cmds ++ [c])
  = storable cmds ++ (if String.eqb (Py.strip c) EmptyString then [] else [Py.strip c]).
Proof.
  unfold storable. rewrite List.map_app, List.filter_app. cbn [map List.filter].
  destruct (String.eqb (Py.strip c) EmptyString); reflexivity.
Qed.

(** One [add] on a store that holds the last [m] of a squeezed list. *)
Lemma add_step h c l :
  (1 <= max_entries h)%Z ->
  _entries h = lastn (Z.to_nat (max_entries h)) (squeeze l) ->
  _entries (add h c)
  = lastn (Z.to_nat (max_entries h))
      (squeeze (l ++ (if String.eqb (Py.strip c) EmptyString then [] else [Py.strip c]))).
Proof.
  intros Hm He. unfold add.
  destruct (Py.strip c) as [|a s] eqn:Hc.
  { cbn [String.eqb]. rewrite List.app_nil_r. exact He. }
  cbn [String.eqb]. rewrite squeeze_snoc.
  assert (Hlast : Py.last_item (_entries h) = Py.last_item (squeeze l))
    by (rewrite He; apply last_item_lastn; lia).
  rewrite Hlast.
  set (x := String a s).
  assert (Hgrow :
            _entries
              (if (max_entries h <? Z.of_nat (List.length (_entries h ++ [x])))%Z
               then mk (max_entries h)
                       (Py.slice_from (- max_entries h) (_entries h ++ [x]))
               else mk (max_entries h) (_entries h ++ [x]))
            = lastn (Z.to_nat (max_entries h)) (squeeze l ++ [x])).
  { rewrite <- lastn_snoc by lia. rewrite <- He.
    destruct (max_entries h <? _)%Z eqn:Hover.
    - apply Z.ltb_lt in Hover. cbn [_entries].
      rewrite slice_last_k by lia. reflexivity.
    - apply Z.ltb_ge in Hover. cbn [_entries].
      symmetry. apply lastn_short. lia. }
  destruct (Py.last_item (squeeze l)) as [e|] eqn:Hl.
  - destruct (String.eqb e x) eqn:Hex; [exact He | exact Hgrow].
  - assert (Hs : squeeze l = []).
    { destruct (squeeze l) as [|y t]; [reflexivity|]. exfalso.
      clear -Hl. revert y Hl. induction t as [|z t IHt]; intros y Hl;
        [discriminate | exact (IHt z Hl)]. }
    rewrite Hgrow, Hs. reflexivity.
Qed.

Lemma add_all_snoc h cmds c : add_all h (cmds ++ [c]) = add (add_all h cmds) c.
Proof. unfold add_all. rewrite fold_left_app. reflexivity. Qed.

Lemma add_all_entries m cmds :
  (1 <= m)%Z ->
  _entries (add_all (new m) cmds) = lastn (Z.to_nat m) (squeeze (storable cmds)).
Proof.
  intros Hm. induction cmds as [|c cmds IH] using rev_ind.
  - unfold lastn. reflexivity.
  - rewrite add_all_snoc, storable_snoc.
    pose proof (add_all_max cmds (new m)) as Hmax. cbn [new max_entries] in Hmax.
    pose proof (add_step (add_all (new m) cmds) c (storable cmds)) as Hs.
    rewrite Hmax in Hs. exact (Hs Hm IH).
Qed.

Lemma format_all h k :
  (1 <= k)%Z -> (Z.of_nat (List.length (_entries h)) <= k)%Z ->
  format h (Some k) = format h None.
Proof.
  intros Hk Hlen. destruct (_entries h) as [|e l] eqn:He.
  - unfold format. rewrite He. reflexivity.
  - rewrite format_limit by (try assumption; congruence).
    unfold format. rewrite He.
    assert (Hz : (List.length (e :: l) - Z.to_nat k)%nat = 0%nat)
      by lia.
    rewrite Hz. cbn [skipn].
    replace (Z.of_nat (List.length (e :: l)) - Z.of_nat (List.length (e :: l)) + 1)%Z
      with 1%Z by lia.
    reflexivity.
Qed.

End HistoryMore.

(** X12: the store after any sequence of [add]s to a fresh store of
    capacity [m >= 1] is a function of the commands: strip each, drop the
    blank ones, reduce every run of equal neighbours to one, and keep the
    last [m]. *)
Theorem history_is_last_of_squeezed_commands :
  forall (m : Z) (cmds : list string),
    (1 <= m)%Z ->
    CommandHistory._entries (add_all (CommandHistory.new m) cmds)
    = lastn (Z.to_nat m) (squeeze (storable cmds)).
Proof. exact add_all_entries. Qed.

Lemma history_is_last_of_squeezed_commands_witness :
  CommandHistory._entries
    (add_all (CommandHistory.new 3) ["ls"; " ls "; "pwd"; ""; "pwd"; "ls"; "cd /"; "cd /"; "ls"])
  = ["ls"; "cd /"; "ls"].
Proof.
  rewrite (history_is_last_of_squeezed_commands 3) by lia. reflexivity.
Defined.

(** X13: a limit that is at least the number of retained entries
    renders what no limit renders. *)
Theorem history_limit_beyond_length :
  forall h k,
    (1 <= k)%Z ->
    (Z.of_nat (List.length (CommandHistory._entries h)) <= k)%Z ->
    CommandHistory.format h (Some k) = CommandHistory.format h None.
Proof. exact format_all. Qed.

Lemma history_limit_beyond_length_witness :
  CommandHistory.format (CommandHistory.mk 1000 ["ls"; "pwd"]) (Some 5%Z)
  = CommandHistory.format (CommandHistory.mk 1000 ["ls"; "pwd"]) None.
Proof. apply history_limit_beyond_length; simpl; lia. Defined.

(** X14: [clear] empties the store and keeps its capacity: the
    rendering then says that the history is empty, whatever the limit,
    and the next command that is not blank becomes the only entry, also
    when it repeats the newest entry from before the [clear]. *)
Theorem history_clear_forgets :
  forall h,
    CommandHistoryMore.get_all (CommandHistoryMore.clear h) = [] /\
    CommandHistory.max_entries (CommandHistoryMore.clear h)
    = CommandHistory.max_entries h /\
    (forall limit,
        CommandHistory.format (CommandHistoryMore.clear h) limit = "History is empty") /\
    (forall c,
        (1 <= CommandHistory.max_entries h)%Z ->
        Py.strip c <> EmptyString ->
        CommandHistoryMore.get_all
          (CommandHistory.add (CommandHistoryMore.clear h) c) = [Py.strip c]).
Proof.
  intros h. repeat split.
  intros c Hm Hc. unfold CommandHistoryMore.get_all, CommandHistoryMore.clear,
    CommandHistory.add.
  destruct (Py.strip c) as [|a s]; [congruence|].
  cbn [CommandHistory._entries CommandHistory.max_entries Py.last_item List.app
       List.length].
  replace (CommandHistory.max_entries h <? Z.of_nat 1)%Z with false
    by (symmetry; apply Z.ltb_ge; lia).
  reflexivity.
Qed.

Lemma history_clear_forgets_witness :
  CommandHistoryMore.get_all
    (CommandHistory.add
       (CommandHistoryMore.clear (CommandHistory.mk 1000 ["ls"; "pwd"])) " pwd ")
  = [Py.strip " pwd "].
Proof.
  apply (proj2 (proj2 (proj2 (history_clear_forgets (CommandHistory.mk 1000 ["ls"; "pwd"])))));
    [simpl; lia | discriminate].
Defined.

(** ** Blocks of a file *)

(** X15: [_calculate_blocks] is the least number of blocks of 512 bytes
    that hold [size] bytes: that many blocks hold them, and one block
    less does not. *)
Theorem blocks_are_the_ceiling :
  forall size : Z,
    (512 * (_calculate_blocks size - 1) < size <= 512 * _calculate_blocks size)%Z.
Proof.
  intros size. unfold _calculate_blocks.
  pose proof (Z.div_mod (size + 512 - 1) 512 ltac:(lia)) as Hd.
  pose proof (Z.mod_pos_bound (size + 512 - 1) 512 ltac:(lia)) as Hb.
  lia.
Qed.

(** ** The directory commands *)

(** X16: whatever [cd] answers, it leaves the files, the record of the
    programs run and the terminal as they were.  When it succeeds, its
    message names a path that is a directory, and [pwd] asked next, with
    any arguments, answers that path; when it fails, nothing at all has
    changed. *)
Theorem cd_then_pwd E os args w r w' :
  dir_cmd.cd_cmd E os args w = (r, w') ->
  files w' = files w /\ spawned w' = spawned w /\ clears w' = clears w /\
  match r with
  | Success m =>
      exists p, m = "Changed to " +:+ p /\ path_isdir os p w = true /\
                forall args', dir_cmd.pwd_cmd args' w' = (Success p, w')
  | Error _ => w' = w
  end.
Proof.
  unfold dir_cmd.cd_cmd. destruct (dir_utility w) as [du|] eqn:Hdu.
  - unfold DirUtil.change_directory.
    set (path := match args with a :: _ => a | [] => EmptyString end).
    set (target := _resolve_path E du
                     match path with EmptyString => expanduser_home os | _ => path end).
    destruct (path_exists os target w && path_isdir os target w) eqn:Hok;
      intros H; inversion H; subst r w'; clear H.
    + apply andb_true_iff in Hok. destruct Hok as [_ Hdir].
      split; [reflexivity|]. split; [reflexivity|]. split; [reflexivity|].
      exists target. split; [reflexivity|]. split; [exact Hdir|].
      intros args'. reflexivity.
    + repeat split.
  - intros H. inversion H. subst. repeat split.
Qed.

Lemma cd_then_pwd_witness :
  files (set_du (mkDU "/tmp") world0) = files world0 /\
  spawned (set_du (mkDU "/tmp") world0) = spawned world0 /\
  clears (set_du (mkDU "/tmp") world0) = clears world0 /\
  exists p, "Changed to /tmp" = "Changed to " +:+ p /\
            path_isdir (sample_os ["/tmp"]) p world0 = true /\
            forall args', dir_cmd.pwd_cmd args' (set_du (mkDU "/tmp") world0)
                          = (Success p, set_du (mkDU "/tmp") world0).
Proof.
  exact (cd_then_pwd (sample_env [] Interrupted) (sample_os ["/tmp"]) ["/tmp"] world0
           (Success "Changed to /tmp") (set_du (mkDU "/tmp") world0) eq_refl).
Defined.

(** X17: [rmdir] removes a directory with all that is in it.  For a
    target that exists and is a directory the answer and the world after
    it are those of [shutil.rmtree], whatever [os.rmdir], which refuses a
    directory that is not empty, would have done. *)
Theorem rmdir_removes_recursively E os f c a rest du w :
  dir_utility w = Some du ->
  path_exists os (_resolve_path E du (String c a)) w = true ->
  path_isdir os (_resolve_path E du (String c a)) w = true ->
  dir_actions_cmd.rmdir_cmd E (with_os_rmdir f os) (String c a :: rest) w
  = match rmtree os (_resolve_path E du (String c a)) w with
    | (None, w') =>
        (Success ("Directory removed: " +:+ _resolve_path E du (String c a)), w')
    | (Some e, w') => (Error ("Failed to remove directory: " +:+ e), w')
    end.
Proof.
  intros Hdu Hex Hdir. unfold dir_actions_cmd.rmdir_cmd, DirUtil.remove_directory.
  rewrite Hdu. cbn [path_exists path_isdir rmtree with_os_rmdir].
  rewrite Hex, Hdir. cbn [negb].
  destruct (rmtree os (_resolve_path E du (String c a)) w) as [[e|] w']; reflexivity.
Qed.

Lemma rmdir_removes_recursively_witness :
  dir_actions_cmd.rmdir_cmd (sample_env [] Interrupted)
    (with_os_rmdir (fun _ w => (None, w)) (sample_os ["/tmp"])) ["/tmp"; "x"] world0
  = (Error "Failed to remove directory: [Errno 13] Permission denied", world0).
Proof.
  exact (rmdir_removes_recursively (sample_env [] Interrupted) (sample_os ["/tmp"])
           (fun _ w => (None, w)) "/" "tmp" ["x"] (mkDU "/home/user") world0
           eq_refl eq_refl eq_refl).
Defined.

(** ** The file commands *)

Lemma flag_members args :
  Py.elem "-r" args || Py.elem "-R" args || Py.elem "--recursive" args = has_flag args.
Proof.
  unfold has_flag, Py.elem, file_cmd.recursive_flags.
  induction args as [|a args IH]; [reflexivity|].
  cbn [existsb] in *. rewrite <- IH.
  rewrite (String.eqb_sym a "-r"), (String.eqb_sym a "-R"),
    (String.eqb_sym a "--recursive").
  destruct (String.eqb "-r" a), (String.eqb "-R" a), (String.eqb "--recursive" a),
    (existsb (String.eqb "-r") args), (existsb (String.eqb "-R") args),
    (existsb (String.eqb "--recursive") args); reflexivity.
Qed.

Lemma has_flag_app l1 l2 : has_flag (l1 ++ l2) = has_flag l1 || has_flag l2.
Proof. apply existsb_app. Qed.

Lemma has_flag_one t : has_flag [t] = Py.elem t file_cmd.recursive_flags.
Proof. unfold has_flag. cbn [existsb]. apply orb_false_r. Qed.

Lemma last_operand_snoc args t :
  Py.elem t file_cmd.recursive_flags = false ->
  file_cmd.last_operand (args ++ [t]) = Some t.
Proof.
  intros Ht. induction args as [|a args IH].
  - cbn [List.app file_cmd.last_operand]. rewrite Ht. reflexivity.
  - cbn [List.app file_cmd.last_operand]. rewrite IH. reflexivity.
Qed.

Lemma rm_same os (args1 args2 : list string) w :
  (args1 = [] <-> args2 = []) ->
  has_flag args1 = has_flag args2 ->
  file_cmd.last_operand args1 = file_cmd.last_operand args2 ->
  file_cmd.rmCommand os args1 w = file_cmd.rmCommand os args2 w.
Proof.
  intros Hnil Hflag Hlast. unfold file_cmd.rmCommand.
  destruct (dir_utility w) as [du|]; [|reflexivity].
  rewrite !flag_members, Hflag, Hlast.
  destruct args1 as [|a1 l1], args2 as [|a2 l2]; try reflexivity.
  - destruct Hnil as [H _]. discriminate (H eq_refl).
  - destruct Hnil as [_ H]. discriminate (H eq_refl).
Qed.

(** X18: [rm] looks at one target only, the last argument that is no
    flag: the arguments before it count for nothing but the flags among
    them, so [rm a b c] removes [c] and leaves [a] and [b] alone. *)
Theorem rm_uses_last_operand os args t w :
  Py.elem t file_cmd.recursive_flags = false ->
  file_cmd.rmCommand os (args ++ [t]) w
  = file_cmd.rmCommand os ((if has_flag args then ["-r"] else []) ++ [t]) w.
Proof.
  intros Ht. apply rm_same.
  - split; intros H.
    + destruct args; discriminate H.
    + destruct (has_flag args); discriminate H.
  - rewrite !has_flag_app, has_flag_one, Ht.
    destruct (has_flag args); reflexivity.
  - rewrite !last_operand_snoc by exact Ht. reflexivity.
Qed.

Lemma rm_uses_last_operand_witness :
  file_cmd.rmCommand (sample_os []) ["a.txt"; "-R"; "b.txt"; "c.txt"]
    (set_file "/home/user/a.txt" "a" (set_file "/home/user/c.txt" "c" world0))
  = (Success "Файл удален: /home/user/c.txt",
     remove_file "/home/user/c.txt"
       (set_file "/home/user/a.txt" "a" (set_file "/home/user/c.txt" "c" world0))).
Proof.
  exact (eq_trans
           (rm_uses_last_operand (sample_os []) ["a.txt"; "-R"; "b.txt"] "c.txt"
              (set_file "/home/user/a.txt" "a" (set_file "/home/user/c.txt" "c" world0))
              eq_refl)
           eq_refl).
Defined.

(** X19: without one of the flags [-r], [-R] and [--recursive] among
    its arguments [rm] removes no directory: either the world is left as
    it was, or what happened is [os.remove] on a path that is no
    directory. *)
Theorem rm_without_flag_keeps_directories os args w r w' :
  has_flag args = false ->
  file_cmd.rmCommand os args w = (r, w') ->
  w' = w \/
  exists p, path_isdir os p w = false /\ w' = snd (os_remove os p w).
Proof.
  intros Hflag. unfold file_cmd.rmCommand.
  destruct (dir_utility w) as [du|]; [|intros H; inversion H; left; reflexivity].
  rewrite flag_members, Hflag.
  destruct args as [|a l]; [intros H; inversion H; left; reflexivity|].
  destruct (file_cmd.last_operand (a :: l)) as [[|c t]|];
    try (intros H; inversion H; left; reflexivity).
  set (p := file_cmd.path_of du (String c t)).
  destruct (path_exists os p w); cbn [negb];
    [|intros H; inversion H; left; reflexivity].
  destruct (path_isdir os p w) eqn:Hdir;
    [intros H; inversion H; left; reflexivity|].
  unfold file_cmd.report.
  destruct (os_remove os p w) as [[e|] w1] eqn:Hrm; intros H; inversion H; subst;
    right; exists p; rewrite Hrm; split; [exact Hdir|reflexivity|exact Hdir|reflexivity].
Qed.

Lemma rm_without_flag_keeps_directories_witness :
  world0 = world0 \/
  exists p, path_isdir (sample_os ["/home/user/docs"]) p world0 = false /\
            world0 = snd (os_remove (sample_os ["/home/user/docs"]) p world0).
Proof.
  exact (rm_without_flag_keeps_directories (sample_os ["/home/user/docs"]) ["docs"] world0
           (Error "Для удаления директории используйте флаг -r: rm -r docs") world0
           eq_refl eq_refl).
Defined.

Lemma operands_flag s args :
  In s (file_cmd.operands args) -> Py.elem s file_cmd.recursive_flags = false.
Proof.
  unfold file_cmd.operands. intros H. apply List.filter_In in H.
  destruct H as [_ H]. apply negb_true_iff in H. exact H.
Qed.

Lemma operands_length args :
  (List.length (file_cmd.operands args) <= List.length args)%nat.
Proof. apply List.filter_length_le. Qed.

(** X20: [cp] takes its source and its destination to be the first two
    arguments that are no flags, wherever the flags stand, and looks at
    no argument after them. *)
Theorem cp_uses_first_two_operands os args s d rest w :
  file_cmd.operands args = s :: d :: rest ->
  file_cmd.cpCommand os args w
  = file_cmd.cpCommand os ((if has_flag args then ["-r"] else []) ++ [s; d]) w.
Proof.
  intros Hop.
  assert (Hs : Py.elem s file_cmd.recursive_flags = false).
  { apply (operands_flag s args). rewrite Hop. left. reflexivity. }
  assert (Hd : Py.elem d file_cmd.recursive_flags = false).
  { apply (operands_flag d args). rewrite Hop. right. left. reflexivity. }
  assert (Hlen : (List.length args <? 2)%nat = false).
  { apply Nat.ltb_ge. pose proof (operands_length args) as H.
    rewrite Hop in H. cbn [List.length] in H. lia. }
  unfold file_cmd.cpCommand.
  destruct (dir_utility w) as [du|]; [|reflexivity].
  rewrite !flag_members, Hlen, Hop.
  assert (Hop2 : file_cmd.operands ((if has_flag args then ["-r"] else []) ++ [s; d])
                 = [s; d]).
  { unfold file_cmd.operands.
    destruct (has_flag args); cbn [List.app List.filter];
      rewrite ?Hs, ?Hd; reflexivity. }
  assert (Hlen2 : (List.length ((if has_flag args then ["-r"] else []) ++ [s; d]) <? 2)%nat
                  = false).
  { destruct (has_flag args); reflexivity. }
  assert (Hflag2 : has_flag ((if has_flag args then ["-r"] else []) ++ [s; d])
                   = has_flag args).
  { rewrite has_flag_app. unfold has_flag at 3. cbn [existsb]. rewrite Hs, Hd.
    destruct (has_flag args); reflexivity. }
  rewrite Hlen2, Hop2, Hflag2.
  destruct s as [|c s]; [reflexivity|]. destruct d as [|c' d]; reflexivity.
Qed.

Lemma cp_uses_first_two_operands_witness :
  file_cmd.cpCommand (sample_os []) ["a.txt"; "-r"; "b.txt"; "c.txt"]
    (set_file "/home/user/a.txt" "a" world0)
  = (Success "Файл скопирован: /home/user/a.txt -> /home/user/b.txt",
     set_file "/home/user/b.txt" "a" (set_file "/home/user/a.txt" "a" world0)).
Proof.
  exact (eq_trans
           (cp_uses_first_two_operands (sample_os []) ["a.txt"; "-r"; "b.txt"; "c.txt"]
              "a.txt" "b.txt" ["c.txt"] (set_file "/home/user/a.txt" "a" world0) eq_refl)
           eq_refl).
Defined.

(** ** The search commands *)

Lemma skipn_min {A} (l : list A) n :
  skipn (Nat.min n (List.length l)) l = skipn n l.
Proof.
  destruct (Nat.le_gt_cases n (List.length l)) as [H|H].
  - rewrite Nat.min_l by exact H. reflexivity.
  - rewrite Nat.min_r by lia. rewrite !List.skipn_all2 by lia. reflexivity.
Qed.

(** X21: on a file that has no more lines than the count asked for,
    [head] and [tail] give the same answer. *)
Theorem head_tail_agree_on_short_files os args w du filename content :
  dir_utility w = Some du ->
  Py.last_item args = Some filename ->
  read_text os (file_cmd.path_of du filename) w = inl content ->
  (Z.of_nat (List.length (PyMore.readlines content)) <= search_cmd.numLines args)%Z ->
  search_cmd.headCommand os args w = search_cmd.tailCommand os args w.
Proof.
  intros Hdu Hlast Hread Hlen.
  unfold search_cmd.headCommand, search_cmd.tailCommand.
  rewrite Hdu, Hlast.
  destruct (negb (path_exists os (file_cmd.path_of du filename) w)
            || negb (path_isfile os (file_cmd.path_of du filename) w)); [reflexivity|].
  rewrite Hread.
  replace (search_cmd.numLines args <? Z.of_nat (List.length (PyMore.readlines content)))%Z
    with false by (symmetry; apply Z.ltb_ge; exact Hlen).
  rewrite List.firstn_all2 by lia. reflexivity.
Qed.

Lemma head_tail_agree_on_short_files_witness :
  search_cmd.headCommand (sample_os []) ["-n"; "3"; "notes.txt"]
    (set_file "/home/user/notes.txt" "one
two
" world0)
  = search_cmd.tailCommand (sample_os []) ["-n"; "3"; "notes.txt"]
      (set_file "/home/user/notes.txt" "one
two
" world0).
Proof.
  apply (head_tail_agree_on_short_files (sample_os []) ["-n"; "3"; "notes.txt"]
           (set_file "/home/user/notes.txt" "one
two
" world0) (mkDU "/home/user") "notes.txt" "one
two
"); [reflexivity|reflexivity|reflexivity|vm_compute; discriminate].
Defined.

(** X22: a count that is zero or negative makes [head] show nothing,
    but not [tail]: [tail -n 0] shows the whole file, and [tail -n -k]
    shows all but the first [k] lines. *)
Theorem head_tail_nonpositive_count os args w du filename content :
  dir_utility w = Some du ->
  Py.last_item args = Some filename ->
  path_exists os (file_cmd.path_of du filename) w = true ->
  path_isfile os (file_cmd.path_of du filename) w = true ->
  read_text os (file_cmd.path_of du filename) w = inl content ->
  (search_cmd.numLines args <= 0)%Z ->
  search_cmd.headCommand os args w = (Success EmptyString, w) /\
  search_cmd.tailCommand os args w
  = (Success (Py.join Py.nl
                (map Py.rstrip
                   (skipn (Z.to_nat (- search_cmd.numLines args))
                      (PyMore.readlines content)))), w).
Proof.
  intros Hdu Hlast Hex Hfile Hread Hn.
  unfold search_cmd.headCommand, search_cmd.tailCommand.
  rewrite Hdu, Hlast, Hex, Hfile, Hread. cbn [negb orb]. split.
  - replace (Z.to_nat (search_cmd.numLines args)) with 0%nat by lia. reflexivity.
  - set (lines := PyMore.readlines content).
    destruct (search_cmd.numLines args <? Z.of_nat (List.length lines))%Z eqn:Hlt.
    + unfold Py.slice_from.
      replace (- search_cmd.numLines args <? 0)%Z with false
        by (symmetry; apply Z.ltb_ge; lia).
      replace (Z.to_nat (Z.min (- search_cmd.numLines args)
                           (Z.of_nat (List.length lines))))
        with (Nat.min (Z.to_nat (- search_cmd.numLines args)) (List.length lines))
        by lia.
      rewrite skipn_min. reflexivity.
    + apply Z.ltb_ge in Hlt.
      assert (Hnil : lines = []) by (destruct lines; [reflexivity | cbn [List.length] in Hlt; lia]).
      rewrite Hnil. rewrite List.skipn_nil. reflexivity.
Qed.

Lemma head_tail_nonpositive_count_witness :
  search_cmd.headCommand (sample_os []) ["-n"; "-1"; "notes.txt"]
    (set_file "/home/user/notes.txt" "one
two
three" world0)
  = (Success EmptyString, set_file "/home/user/notes.txt" "one
two
three" world0) /\
  search_cmd.tailCommand (sample_os []) ["-n"; "-1"; "notes.txt"]
    (set_file "/home/user/notes.txt" "one
two
three" world0)
  = (Success "two
three", set_file "/home/user/notes.txt" "one
two
three" world0).
Proof.
  apply (head_tail_nonpositive_count (sample_os []) ["-n"; "-1"; "notes.txt"]
           (set_file "/home/user/notes.txt" "one
two
three" world0) (mkDU "/home/user") "notes.txt" "one
two
three"); [reflexivity|reflexivity|reflexivity|reflexivity|reflexivity|
           vm_compute; discriminate].
Defined.

(** X23: for a count of at least one, [tail] shows the last lines of
    the file, as many as the count says, or all of them when the file has
    fewer; each line is shown without the white space at its end. *)
Theorem tail_shows_last_lines os args w du filename content :
  dir_utility w = Some du ->
  Py.last_item args = Some filename ->
  path_exists os (file_cmd.path_of du filename) w = true ->
  path_isfile os (file_cmd.path_of du filename) w = true ->
  read_text os (file_cmd.path_of du filename) w = inl content ->
  (1 <= search_cmd.numLines args)%Z ->
  search_cmd.tailCommand os args w
  = (Success (Py.join Py.nl
                (map Py.rstrip
                   (lastn (Z.to_nat (search_cmd.numLines args))
                      (PyMore.readlines content)))), w).
Proof.
  intros Hdu Hlast Hex Hfile Hread Hn. unfold search_cmd.tailCommand.
  rewrite Hdu, Hlast, Hex, Hfile, Hread. cbn [negb orb].
  set (lines := PyMore.readlines content).
  destruct (search_cmd.numLines args <? Z.of_nat (List.length lines))%Z eqn:Hlt.
  - rewrite slice_last_k by exact Hn. reflexivity.
  - apply Z.ltb_ge in Hlt. rewrite lastn_short by lia. reflexivity.
Qed.

Lemma tail_shows_last_lines_witness :
  search_cmd.tailCommand (sample_os []) ["-n"; "2"; "notes.txt"]
    (set_file "/home/user/notes.txt" "one
two  
three" world0)
  = (Success "two
three", set_file "/home/user/notes.txt" "one
two  
three" world0).
Proof.
  apply (tail_shows_last_lines (sample_os []) ["-n"; "2"; "notes.txt"]
           (set_file "/home/user/notes.txt" "one
two  
three" world0) (mkDU "/home/user") "notes.txt" "one
two  
three"); [reflexivity|reflexivity|reflexivity|reflexivity|reflexivity|
           vm_compute; discriminate].
Defined.

Lemma startswith_prefix p : forall s,
  Py.startswith p s = true <-> exists t, s = p +:+ t.
Proof.
  induction p as [|a p IH]; intros s.
  - split; [intros _; exists s; reflexivity | intros _; destruct s; reflexivity].
  - destruct s as [|b s]; cbn [Py.startswith].
    + split; [discriminate | intros (t & Ht); discriminate Ht].
    + rewrite andb_true_iff, Ascii.eqb_eq, IH. split.
      * intros (Hab & t & Ht). subst. exists t. reflexivity.
      * intros (t & Ht). rewrite str_app_cons in Ht. inversion Ht. subst.
        split; [reflexivity | exists t; reflexivity].
Qed.

Lemma contains_nil needle :
  PyMore.contains needle EmptyString = Py.startswith needle EmptyString.
Proof. cbn [PyMore.contains]. apply orb_false_r. Qed.

Lemma contains_cons needle c hay :
  PyMore.contains needle (String c hay)
  = Py.startswith needle (String c hay) || PyMore.contains needle hay.
Proof. reflexivity. Qed.

Lemma contains_occurs needle : forall hay,
  PyMore.contains needle hay = true <-> occurs needle hay.
Proof.
  unfold occurs. induction hay as [|c hay IH].
  - rewrite contains_nil, startswith_prefix. split.
    + intros (t & Ht). exists EmptyString, t. exact Ht.
    + intros (before & after & H). destruct before as [|b before].
      * exists after. exact H.
      * rewrite str_app_cons in H. discriminate H.
  - rewrite contains_cons, orb_true_iff, startswith_prefix, IH. split.
    + intros [(t & Ht) | (before & after & H)].
      * exists EmptyString, t. exact Ht.
      * exists (String c before), after. rewrite str_app_cons, <- H. reflexivity.
    + intros (before & after & H). destruct before as [|b before].
      * left. exists after. exact H.
      * right. rewrite str_app_cons in H. inversion H. subst.
        exists before, after. reflexivity.
Qed.

Lemma matches_numbered searchText : forall lines k,
  search_cmd.matches searchText (Z.of_nat k) lines
  = map shown
      (List.filter (fun entry => PyMore.contains searchText (snd entry))
         (combine (seq k (List.length lines)) lines)).
Proof.
  induction lines as [|line lines IH]; intros k; [reflexivity|].
  cbn [search_cmd.matches List.length seq combine List.filter snd].
  replace (Z.of_nat k + 1)%Z with (Z.of_nat (S k)) by lia. rewrite IH.
  destruct (PyMore.contains searchText line); reflexivity.
Qed.

(** X24: [grep] shows exactly the lines of the file in which the text
    occurs somewhere, in the order of the file, each under the number it
    has in the file, counted from 1, and without the white space at its
    end; when the text occurs in no line, it answers with a success that
    says so. *)
Theorem grep_shows_lines_under_their_numbers os searchText filename rest w du content :
  dir_utility w = Some du ->
  path_exists os (file_cmd.path_of du filename) w = true ->
  path_isfile os (file_cmd.path_of du filename) w = true ->
  read_text os (file_cmd.path_of du filename) w = inl content ->
  let hits := List.filter (fun entry => PyMore.contains searchText (snd entry))
                (numbered (PyMore.readlines content)) in
  search_cmd.grepCommand os (searchText :: filename :: rest) w
  = (Success match hits with
             | [] => "Текст '" +:+ searchText +:+ "' не найден в файле"
             | _ => Py.join Py.nl (map shown hits)
             end, w) /\
  forall line, PyMore.contains searchText line = true <-> occurs searchText line.
Proof.
  intros Hdu Hex Hfile Hread hits. split; [|apply contains_occurs].
  unfold search_cmd.grepCommand. rewrite Hdu, Hex, Hfile, Hread. cbn [negb orb].
  pose proof (matches_numbered searchText (PyMore.readlines content) 1) as Hm.
  change (Z.of_nat 1) with 1%Z in Hm. rewrite Hm.
  fold (numbered (PyMore.readlines content)). fold hits.
  destruct hits; reflexivity.
Qed.

Lemma grep_shows_lines_under_their_numbers_witness :
  search_cmd.grepCommand (sample_os []) ["alpha"; "notes.txt"]
    (set_file "/home/user/notes.txt" "alpha
beta
alphabet  " world0)
  = (Success "1: alpha
3: alphabet", set_file "/home/user/notes.txt" "alpha
beta
alphabet  " world0).
Proof.
  exact (proj1 (grep_shows_lines_under_their_numbers (sample_os []) "alpha" "notes.txt" []
                  (set_file "/home/user/notes.txt" "alpha
beta
alphabet  " world0) (mkDU "/home/user") "alpha
beta
alphabet  " eq_refl eq_refl eq_refl eq_refl)).
Defined.

(** ** The handlers under [execute] *)

Lemma resolve_path_of E du c f :
  abspath E (file_cmd.path_of du (String c f)) = file_cmd.path_of du (String c f) ->
  _resolve_path E du (String c f) = file_cmd.path_of du (String c f).
Proof.
  unfold _resolve_path, file_cmd.path_of, DirUtil.get_current_directory.
  destruct (isabs (String c f)); intros H; exact H.
Qed.

Lemma parse_plain : forall ws args o a,
  forallb (fun t => negb (Py.elem t Command_Base.REDIRECT_OPERATORS)) ws = true ->
  Command_Base.parse_loop args o a ws = (args ++ ws, o, None, a).
Proof.
  induction ws as [|t ws IH]; intros args o a H.
  - cbn [Command_Base.parse_loop]. rewrite List.app_nil_r. reflexivity.
  - cbn [forallb] in H. apply andb_true_iff in H. destruct H as [Ht Hws].
    apply negb_true_iff in Ht. rewrite parse_word by exact Ht.
    rewrite IH by exact Hws. rewrite <- List.app_assoc. reflexivity.
Qed.

Lemma execute_handler E command h args history current_directory w :
  Command_Base._command_map command = Some h ->
  Py.lower command = command ->
  forallb (fun t => negb (Py.elem t Command_Base.REDIRECT_OPERATORS)) (command :: args)
  = true ->
  Command_Base.execute E (command :: args) history current_directory w
  = (Ret (fst (handle E h args w)), snd (handle E h args w)).
Proof.
  intros Hmap Hlow Hws. unfold Command_Base.execute, Command_Base._parse_redirects.
  rewrite parse_plain by exact Hws. cbn [List.app]. rewrite Hlow.
  unfold Command_Base.dispatch. rewrite Hmap.
  unfold bind, Command_Base.lift, ret.
  destruct (handle E h args w) as [r w']. reflexivity.
Qed.

Lemma universal_newlines_fixed s :
  no_carriage_return s = true -> universal_newlines s = s.
Proof.
  unfold no_carriage_return. induction s as [|c s IH]; [reflexivity|].
  cbn [all_chars universal_newlines]. intros H. apply andb_true_iff in H.
  destruct H as [Hc Hs]. apply negb_true_iff in Hc. rewrite Hc, (IH Hs). reflexivity.
Qed.

(** X25: what [echo] writes into a file with [>], [cat] of the same
    name reads back: the text itself when it has no carriage return,
    and in general the text with the newlines translated that a read in
    text mode translates; nothing is added at its end.  The name has to
    be one that [os.path.abspath] leaves as it is once it is joined to
    the current directory, since [cat] joins and the redirection
    normalises; the text is taken in ASCII, the file has to be writable,
    and the file system has to show the file written. *)
Theorem echo_redirect_then_cat E os text c f history current_directory du w :
  dir_utility w = Some du ->
  Py.elem text Command_Base.REDIRECT_OPERATORS = false ->
  Py.elem (String c f) Command_Base.REDIRECT_OPERATORS = false ->
  ascii_text text = true ->
  abspath E (file_cmd.path_of du (String c f)) = file_cmd.path_of du (String c f) ->
  io_error E (file_cmd.path_of du (String c f)) w = None ->
  reads_store os (file_cmd.path_of du (String c f)) ->
  exists w1,
    snd (Command_Base.execute (with_handlers E os) ["echo"; text; ">"; String c f]
           history current_directory w) = w1 /\
    files w1 !! file_cmd.path_of du (String c f) = Some text /\
    Command_Base.execute (with_handlers E os) ["cat"; String c f]
      history current_directory w1
    = (Ret (Success (universal_newlines text)), w1) /\
    (no_carriage_return text = true -> universal_newlines text = text).
Proof.
  intros Hdu Htext Hname Hascii Habs Hio Hstore.
  set (p := file_cmd.path_of du (String c f)) in *.
  assert (Ht : target_path (with_handlers E os) w (String c f) = p).
  { unfold target_path. rewrite Hdu. apply resolve_path_of. exact Habs. }
  pose proof (execute_echo_redirect (with_handlers E os) false text c f
                history current_directory w) as He.
  rewrite Ht in He. specialize (He Hio Htext).
  cbv beta iota in He. rewrite str_app_nil_l in He.
  exists (set_file p text w). split; [rewrite He; reflexivity|].
  split; [apply set_file_read|].
  split; [|apply universal_newlines_fixed].
  rewrite (execute_handler (with_handlers E os) "cat" catCommand [String c f]);
    [|reflexivity|reflexivity|].
  - cbn [handle with_handlers run_handler]. unfold file_cmd.catCommand.
    change (dir_utility (set_file p text w)) with (dir_utility w).
    rewrite Hdu. fold p.
    destruct (Hstore text (set_file p text w) (set_file_read p text w) Hascii)
      as (Hex & Hfile & Hread).
    rewrite Hex, Hfile, Hread. reflexivity.
  - cbn [forallb]. rewrite Hname. reflexivity.
Qed.

Lemma echo_redirect_then_cat_witness :
  exists w1,
    snd (Command_Base.execute
           (with_handlers (sample_env [] Interrupted) (sample_os ["/home/user"]))
           ["echo"; "hello"; ">"; "out.txt"] None "/home/user" world0) = w1 /\
    files w1 !! file_cmd.path_of (mkDU "/home/user") "out.txt" = Some "hello" /\
    Command_Base.execute
      (with_handlers (sample_env [] Interrupted) (sample_os ["/home/user"]))
      ["cat"; "out.txt"] None "/home/user" w1
    = (Ret (Success (universal_newlines "hello")), w1) /\
    (no_carriage_return "hello" = true -> universal_newlines "hello" = "hello").
Proof.
  apply (echo_redirect_then_cat (sample_env [] Interrupted) (sample_os ["/home/user"])
           "hello" "o" "ut.txt" None "/home/user" (mkDU "/home/user") world0);
    try reflexivity.
  intros text w H _. cbn [sample_os path_exists path_isfile read_text].
  rewrite H.
  replace (bool_decide (is_Some (Some text))) with true
    by (symmetry; apply bool_decide_eq_true; eexists; reflexivity).
  repeat split.
Defined.

(** X26: [ls] looks at its arguments only to see whether [-l] and
    [-a] are among them: a path given to it is not used, so [ls /tmp]
    lists the current directory as [ls] does, and [-la] written as one
    word is no flag. *)
Theorem ls_ignores_other_arguments os args1 args2 w :
  Py.elem "-l" args1 = Py.elem "-l" args2 ->
  Py.elem "-a" args1 = Py.elem "-a" args2 ->
  dir_cmd.ls_cmd os args1 w = dir_cmd.ls_cmd os args2 w.
Proof.
  intros Hl Ha. unfold dir_cmd.ls_cmd. rewrite Hl, Ha. reflexivity.
Qed.

Lemma ls_ignores_other_arguments_witness :
  dir_cmd.ls_cmd (sample_os ["/tmp"]) ["/tmp"; "-la"] world0
  = dir_cmd.ls_cmd (sample_os ["/tmp"]) [] world0.
Proof.
  apply (ls_ignores_other_arguments (sample_os ["/tmp"]) ["/tmp"; "-la"] [] world0);
    reflexivity.
Defined.

(** X27: [ls] answers with a success also when the directory cannot
    be listed: the text of the exception, after [Error: ], is the payload
    of the success, and with a redirection it is what is written to the
    file. *)
Theorem ls_reports_success_on_listing_error E os args c f history current_directory
    du e w :
  dir_utility w = Some du ->
  (forall type_output, format_listing os type_output du w = inr e) ->
  forallb (fun t => negb (Py.elem t Command_Base.REDIRECT_OPERATORS)) args = true ->
  io_error E (_resolve_path E du (String c f)) w = None ->
  Command_Base.execute (with_handlers E os) ("ls" :: args) history current_directory w
  = (Ret (Success ("Error: " +:+ e)), w) /\
  Command_Base.execute (with_handlers E os) ("ls" :: args ++ [">"; String c f])
    history current_directory w
  = (Ret (Success ("Вывод команды 'ls' перенаправлен в "
                   +:+ _resolve_path E du (String c f))),
     set_file (_resolve_path E du (String c f)) ("Error: " +:+ e) w).
Proof.
  intros Hdu Hfmt Hargs Hio.
  assert (Hls : dir_cmd.ls_cmd os args w = (Success ("Error: " +:+ e), w)).
  { unfold dir_cmd.ls_cmd, DirUtil.list_directory. rewrite Hdu.
    destruct (Py.elem "-l" args), (Py.elem "-a" args); cbn [andb];
      match goal with
      | |- context [Py.elem ?t ?l] => change (Py.elem t l) with true
      end; rewrite Hfmt; reflexivity. }
  split.
  - rewrite (execute_handler (with_handlers E os) "ls" ls_cmd args);
      [|reflexivity|reflexivity|cbn [forallb]; exact Hargs].
    cbn [handle with_handlers run_handler]. rewrite Hls. reflexivity.
  - unfold Command_Base.execute, Command_Base._parse_redirects.
    change ("ls" :: args ++ [">"; String c f]) with (("ls" :: args) ++ [">"; String c f]).
    assert (Hp : forall ws acc o a,
               forallb (fun t => negb (Py.elem t Command_Base.REDIRECT_OPERATORS)) ws = true ->
               Command_Base.parse_loop acc o a (ws ++ [">"; String c f])
               = (acc ++ ws, Some (String c f), None, false)).
    { induction ws as [|t ws IH]; intros acc o a H.
      - cbn [List.app Command_Base.parse_loop]. rewrite List.app_nil_r. reflexivity.
      - cbn [forallb] in H. apply andb_true_iff in H. destruct H as [Ht Hws].
        apply negb_true_iff in Ht. cbn [List.app]. rewrite parse_word by exact Ht.
        rewrite IH by exact Hws. rewrite <- List.app_assoc. reflexivity. }
    rewrite Hp by (cbn [forallb]; exact Hargs). cbn [List.app].
    change (Py.lower "ls") with "ls".
    change (Command_Base.dispatch (with_handlers E os) "ls" args history current_directory)
      with (let* result := Command_Base.lift (handle (with_handlers E os) ls_cmd args)
            in ret (Command_Base.Result_ result)).
    unfold bind, Command_Base.lift, ret. cbn [handle with_handlers run_handler].
    rewrite Hls. unfold Command_Base.redirect, Command_Base.write_file.
    rewrite Hdu.
    change (_resolve_path (with_handlers E os) du (String c f))
      with (_resolve_path E du (String c f)).
    change (io_error (with_handlers E os)) with (io_error E).
    rewrite Hio. rewrite str_app_nil_l. reflexivity.
Qed.

Lemma ls_reports_success_on_listing_error_witness :
  Command_Base.execute
    (with_handlers (sample_env [] Interrupted) (sample_os [])) ["ls"; "-l"]
    None "/home/user" world0
  = (Ret (Success "Error: [Errno 13] Permission denied"), world0) /\
  Command_Base.execute
    (with_handlers (sample_env [] Interrupted) (sample_os []))
    ["ls"; "-l"; ">"; "list.txt"] None "/home/user" world0
  = (Ret (Success "Вывод команды 'ls' перенаправлен в /home/user/list.txt"),
     set_file "/home/user/list.txt" "Error: [Errno 13] Permission denied" world0).
Proof.
  apply (ls_reports_success_on_listing_error (sample_env [] Interrupted) (sample_os [])
           ["-l"] "l" "ist.txt" None "/home/user" (mkDU "/home/user") "[Errno 13] Permission denied" world0);
    try reflexivity.
Defined.

(** ** The loop of [Main.run] *)

Lemma lower_e_not_space c : Py.lower_char c = "e"%char -> Py.isspace c = false.
Proof. destruct c as [[] [] [] [] [] [] [] []]; intros H; first [reflexivity | discriminate H]. Qed.

Lemma strip_head c s : Py.isspace c = false -> Py.strip (String c s) <> EmptyString.
Proof.
  intros H. unfold Py.strip. rewrite lstrip_fixed by exact H.
  rewrite rstrip_keeps_head by exact H. discriminate.
Qed.

Lemma blank_is_not_exit input :
  Py.strip input = EmptyString -> String.eqb (Py.lower input) "exit_de" = false.
Proof.
  intros Hs. apply String.eqb_neq. intros Hl.
  destruct input as [|c s]; [discriminate Hl|].
  cbn [Py.lower] in Hl. injection Hl as Hc _.
  exact (strip_head c s (lower_e_not_space c Hc) Hs).
Qed.

(** X28: every line typed at the prompt is handed to the history
    before anything else is done with it, so the history after a turn is
    the history with the line added, whether the line then ends the
    loop, runs, fails or crashes; and a blank line is skipped: it
    records nothing and runs nothing. *)
Theorem turn_records_every_line E input h w :
  snd (fst (turn E input h w)) = CommandHistory.add h input /\
  (Py.strip input = EmptyString -> turn E input h w = (Skip, h, w)).
Proof.
  split.
  - unfold turn. destruct (Py.strip input) as [|c s] eqn:Hs.
    + rewrite add_blank by exact Hs.
      destruct (String.eqb (Py.lower input) "exit_de"); reflexivity.
    + destruct (String.eqb (Py.lower input) "exit_de"); [reflexivity|].
      destruct (ShellParser.tokenize input) as [tokens|]; [|reflexivity].
      destruct (Command_Base.execute E tokens _ _ w) as [[r|[]] w']; reflexivity.
  - intros Hs. unfold turn. rewrite (blank_is_not_exit input Hs), Hs. reflexivity.
Qed.

Lemma add_last h c :
  (1 <= CommandHistory.max_entries h)%Z ->
  Py.strip c <> EmptyString ->
  Py.last_item (CommandHistory._entries (CommandHistory.add h c)) = Some (Py.strip c).
Proof.
  intros Hm Hc. unfold CommandHistory.add.
  destruct (Py.strip c) as [|a s] eqn:Hs; [congruence|].
  destruct (Py.last_item (CommandHistory._entries h)) as [e|] eqn:Hlast.
  - destruct (String.eqb e (String a s)) eqn:He.
    + apply String.eqb_eq in He. subst e. exact Hlast.
    + destruct (_ <? _)%Z; cbn [CommandHistory._entries].
      * rewrite slice_last_k by exact Hm.
        rewrite last_item_skipn by (rewrite List.length_app; cbn [List.length]; lia).
        apply last_item_snoc.
      * apply last_item_snoc.
  - destruct (_ <? _)%Z; cbn [CommandHistory._entries].
    + rewrite slice_last_k by exact Hm.
      rewrite last_item_skipn by (rewrite List.length_app; cbn [List.length]; lia).
      apply last_item_snoc.
    + apply last_item_snoc.
Qed.

Lemma last_item_lines : forall l idx e,
  Py.last_item l = Some e ->
  Py.last_item (CommandHistory.lines idx l)
  = Some (Py.str_of_Z (idx + Z.of_nat (List.length l) - 1) +:+ ". " +:+ e).
Proof.
  induction l as [|a l IH]; intros idx e H; [discriminate H|].
  destruct l as [|b l].
  - cbn in H. inversion H. subst. cbn [CommandHistory.lines Py.last_item List.length].
    do 3 f_equal. lia.
  - rewrite last_item_cons in H by discriminate.
    cbn [CommandHistory.lines]. rewrite last_item_cons by discriminate.
    change ((Py.str_of_Z (idx + 1) +:+ ". " +:+ b) :: CommandHistory.lines (idx + 1 + 1) l)
      with (CommandHistory.lines (idx + 1) (b :: l)).
    rewrite (IH (idx + 1)%Z e H). do 3 f_equal. cbn [List.length]. lia.
Qed.

(** X29: the command [history] typed at the prompt always shows
    itself: the line is recorded before it is run, so the list is never
    empty, and its last line is [history] under the number of entries
    held. *)
Theorem history_lists_itself E h w :
  (1 <= CommandHistory.max_entries h)%Z ->
  turn E "history" h w
  = (Shown (Success (Py.join Py.nl
                       (CommandHistory.lines 1
                          (CommandHistory._entries (CommandHistory.add h "history"))))),
     CommandHistory.add h "history", w) /\
  Py.last_item (CommandHistory.lines 1
                  (CommandHistory._entries (CommandHistory.add h "history")))
  = Some (Py.str_of_Z
            (Z.of_nat (List.length
                         (CommandHistory._entries (CommandHistory.add h "history"))))
          +:+ ". history").
Proof.
  intros Hm.
  assert (Hlast : Py.last_item (CommandHistory._entries (CommandHistory.add h "history"))
                  = Some "history").
  { exact (add_last h "history" Hm ltac:(discriminate)). }
  set (h' := CommandHistory.add h "history") in *.
  split.
  - assert (Hf : CommandHistory.format h' None
                 = Py.join Py.nl (CommandHistory.lines 1 (CommandHistory._entries h'))).
    { unfold CommandHistory.format.
      destruct (CommandHistory._entries h') as [|e l]; [discriminate Hlast|].
      replace (Z.of_nat (List.length (e :: l)) - Z.of_nat (List.length (e :: l)) + 1)%Z
        with 1%Z by lia.
      reflexivity. }
    rewrite <- Hf. reflexivity.
  - rewrite (last_item_lines _ 1 "history" Hlast). do 3 f_equal. lia.
Qed.

Lemma history_lists_itself_witness :
  turn (sample_env [] Interrupted) "history"
    (CommandHistory.mk 2 ["ls"; "pwd"]) world0
  = (Shown (Success "1. pwd
2. history"), CommandHistory.mk 2 ["pwd"; "history"], world0).
Proof.
  exact (proj1 (history_lists_itself (sample_env [] Interrupted)
                  (CommandHistory.mk 2 ["ls"; "pwd"]) world0 ltac:(cbn; lia))).
Defined.

Lemma lower_app s t : Py.lower (s +:+ t) = Py.lower s +:+ Py.lower t.
Proof.
  induction s as [|c s IH]; [rewrite !str_app_nil_l; reflexivity|].
  rewrite str_app_cons. cbn [Py.lower]. rewrite str_app_cons, IH. reflexivity.
Qed.

Lemma lower_plain_char c :
  Py.ascii_in 97 122 (Py.lower_char c) || Ascii.eqb (Py.lower_char c) "_" = true ->
  plain_char c = true.
Proof. destruct c as [[] [] [] [] [] [] [] []]; intros H; first [reflexivity | discriminate H]. Qed.

Lemma lower_plain : forall s t,
  Py.lower s = t ->
  all_chars (fun c => Py.ascii_in 97 122 c || Ascii.eqb c "_") t = true ->
  all_chars plain_char s = true.
Proof.
  induction s as [|c s IH]; intros t Hl Ht; [reflexivity|].
  cbn [Py.lower] in Hl. subst t. cbn [all_chars] in Ht |- *.
  apply andb_true_iff in Ht. destruct Ht as [Hc Ht].
  rewrite (lower_plain_char c Hc), (IH _ eq_refl Ht). reflexivity.
Qed.

Lemma scan_blanks n : forall toks cur rest,
  ShellParser.scan toks cur false false false (blanks n +:+ rest)
  = match n with
    | O => ShellParser.scan toks cur false false false rest
    | S _ => ShellParser.scan (ShellParser.flush toks cur) EmptyString
               false false false rest
    end.
Proof.
  induction n as [|n IH]; intros toks cur rest.
  - cbn [blanks]. rewrite str_app_nil_l. reflexivity.
  - cbn [blanks]. rewrite str_app_cons, scan_blank, IH. destruct n; reflexivity.
Qed.

Lemma lstrip_blanks n s : Py.lstrip (blanks n +:+ s) = Py.lstrip s.
Proof.
  induction n as [|n IH]; cbn [blanks].
  - rewrite str_app_nil_l. reflexivity.
  - rewrite str_app_cons. cbn [Py.lstrip].
    change (Py.isspace " ") with true. cbv iota. exact IH.
Qed.

Lemma no_gt_next_blanks m : no_gt_next (blanks m) = true.
Proof. destruct m; reflexivity. Qed.

(** X30: [exit_de] ends the loop in any mix of upper and lower case,
    but only when it is the whole line: with a blank before or after it
    the line is run as a command, which there is none of that name, and
    the loop goes on. *)
Theorem exit_de_with_blanks_does_not_exit E n m word h w :
  Py.lower word = "exit_de" ->
  (0 < n + m)%nat ->
  turn E word h w = (Exit, CommandHistory.add h word, w) /\
  turn E (blanks n +:+ word +:+ blanks m) h w
  = (Shown (Error ("Команда 'exit_de' не найдена. "
                   +:+ "Введите 'help' для получения доступных команд.")),
     CommandHistory.add h (blanks n +:+ word +:+ blanks m), w).
Proof.
  intros Hw Hnm.
  destruct word as [|c word']; [discriminate Hw|].
  assert (Hc : Py.isspace c = false).
  { cbn [Py.lower] in Hw. injection Hw as Hc _. exact (lower_e_not_space c Hc). }
  assert (Hplain : plain_word (String c word') = true).
  { exact (lower_plain (String c word') "exit_de" Hw eq_refl). }
  split.
  - unfold turn. rewrite Hw. cbn [String.eqb Ascii.eqb Bool.eqb andb].
    destruct (Py.strip (String c word')) eqn:Hs; [|reflexivity].
    destruct (strip_head c word' Hc Hs).
  - set (input := blanks n +:+ String c word' +:+ blanks m).
    assert (Hstrip : Py.strip input <> EmptyString).
    { unfold input, Py.strip. rewrite lstrip_blanks, str_app_cons.
      rewrite lstrip_fixed by exact Hc. rewrite rstrip_keeps_head by exact Hc.
      discriminate. }
    assert (Hexit : String.eqb (Py.lower input) "exit_de" = false).
    { apply String.eqb_neq. unfold input. destruct n as [|n].
      - destruct m as [|m]; [lia|].
        cbn [blanks]. rewrite str_app_nil_l, lower_app, Hw.
        cbn [Py.lower]. rewrite !str_app_cons, str_app_nil_l. discriminate.
      - cbn [blanks]. rewrite str_app_cons. cbn [Py.lower]. discriminate. }
    assert (Htok : ShellParser.tokenize input = Some [String c word']).
    { rewrite tokenize_scan. unfold input. f_equal.
      rewrite scan_blanks.
      assert (Hscan : ShellParser.scan [] EmptyString false false false
                        (String c word' +:+ blanks m) = [String c word']).
      { rewrite scan_plain
          by (first [exact (proj2 (plain_word_chars _ Hplain)) | apply no_gt_next_blanks]).
        rewrite str_app_nil_l.
        rewrite <- (str_app_nil_r (blanks m)), scan_blanks.
        destruct m; reflexivity. }
      destruct n; exact Hscan. }
    unfold turn. fold input. rewrite Hexit, Htok.
    destruct (Py.strip input) as [|a s] eqn:Hs; [congruence|].
    rewrite (execute_lower E (String c word') []) by (apply plain_word_is_word; exact Hplain).
    rewrite Hw. reflexivity.
Qed.

Lemma exit_de_with_blanks_does_not_exit_witness :
  turn (sample_env [] Interrupted) "Exit_DE" (CommandHistory.new 1000) world0
  = (Exit, CommandHistory.add (CommandHistory.new 1000) "Exit_DE", world0) /\
  turn (sample_env [] Interrupted) " Exit_DE" (CommandHistory.new 1000) world0
  = (Shown (Error ("Команда 'exit_de' не найдена. "
                   +:+ "Введите 'help' для получения доступных команд.")),
     CommandHistory.add (CommandHistory.new 1000) " Exit_DE", world0).
Proof.
  apply (exit_de_with_blanks_does_not_exit (sample_env [] Interrupted) 1 0 "Exit_DE"
           (CommandHistory.new 1000) world0); [reflexivity | lia].
Defined.
